(** * Mnemosyne Splunk datasource: a shallow embedding of [src/datasource.ts]

  The development follows the source file top to bottom:

  - [JsString], [JsValue]: the platform values the code manipulates
    (strings, [String(v)], [trim], [split], [join]);
  - [RegExp]: the platform's regular expressions, for the pattern syntax
    the deny-list uses (construction may raise [SyntaxError]);
  - [Guardrails]: [compileBannedRegex], [isQueryDangerous];
  - [Interpolation]: [escapeSplunkValue] and the formatter of
    [interpolateSPL];
  - [DataSource]: a state-and-exception monad over an abstract platform
    that records the requests issued, then [createSearchJob],
    [waitForJob], [isJobDone], [fetchResults], the pagination loop,
    [query] and [metricFindQuery];
  - [JsDate], [Scripted]: a date model and a scripted platform, on which
    the definitions are run;
  - the modules of facts and examples, one pair per component;
  - [Urls]: the base URL of the constructor, the request URLs and the form
    body of the job creation; [Engine]: an engine that serves a fixed
    result set page by page; and the facts about them, about the order of
    the requests, the frames of [query] and the errors it lets through.

  The numbers of the configuration that the loop of [waitForJob] and the
  range test of [query] compare as they are, [maxPolls] and
  [maxRangeSeconds], are rationals ([Q]); [pageSize], [maxRows] and
  [pollIntervalMs] are integers ([Z]), as are row counts, offsets and
  times.  Strings are sequences of the code units U+0000..U+00FF. *)

From Stdlib Require Import List String Ascii ZArith Lia Bool Arith.
From Stdlib Require Import Numbers.DecimalString.
From Stdlib Require Import QArith Qround Qminmax.
Import ListNotations.
Close Scope Q_scope.

Set Warnings "-register-all".

Local Open Scope string_scope.
Local Open Scope list_scope.

(* ===================================================================== *)
(** ** Strings of the platform *)
(* ===================================================================== *)

Module JsString.

(** The double quote and the backslash, the two characters
    [escapeSplunkValue] looks for. *)
Definition dquote : ascii := "034"%char.
Definition backslash : ascii := "\"%char.
Definition newline : ascii := "010"%char.

(** [WhiteSpace] and [LineTerminator] code units below U+0100: TAB, LF,
    VT, FF, CR, SP and NBSP.  This is the set [trim] strips and [\s]
    matches. *)
Definition isWhiteSpace (c : ascii) : bool :=
  let n := nat_of_ascii c in
  ((9 <=? n)%nat && (n <=? 13)%nat) || (n =? 32)%nat || (n =? 160)%nat.

Definition isEmpty (s : string) : bool :=
  match s with EmptyString => true | String _ _ => false end.

Fixpoint trimStart (s : string) : string :=
  match s with
  | EmptyString => EmptyString
  | String c r => if isWhiteSpace c then trimStart r else s
  end.

Fixpoint trimEnd (s : string) : string :=
  match s with
  | EmptyString => EmptyString
  | String c r =>
      let r' := trimEnd r in
      if isWhiteSpace c && isEmpty r' then EmptyString else String c r'
  end.

(** [String.prototype.trim]. *)
Definition trim (s : string) : string := trimEnd (trimStart s).

(** [s.split(sep)] for a one-character separator: always at least one
    piece. *)
Fixpoint split (sep : ascii) (s : string) : list string :=
  match s with
  | EmptyString => [EmptyString]
  | String c r =>
      if Ascii.eqb c sep then EmptyString :: split sep r
      else match split sep r with
           | h :: t => String c h :: t
           | [] => [String c EmptyString]
           end
  end.

(** [parts.join(sep)]. *)
Definition join (sep : string) (parts : list string) : string :=
  String.concat sep parts.

(** Decimal rendering of an integer, as [String(n)] gives it. *)
Definition ofZ (z : Z) : string := NilZero.string_of_int (Z.to_int z).

End JsString.

(* ===================================================================== *)
(** ** Values of type [any] *)
(* ===================================================================== *)

Module JsValue.

Inductive jsval : Type :=
| JUndefined
| JNull
| JBool (b : bool)
| JNum (z : Z)
| JStr (s : string)
| JArr (l : list jsval)
| JObj (fields : list (string * jsval)).

(** [v == null]: true of [null] and [undefined] only; this is also the
    test of the [??] operator. *)
Definition isNullish (v : jsval) : bool :=
  match v with JUndefined | JNull => true | _ => false end.

(** [a ?? b]. *)
Definition coalesce (a b : jsval) : jsval := if isNullish a then b else a.

(** [String(v)]. *)
Fixpoint ToString (v : jsval) : string :=
  match v with
  | JUndefined => "undefined"
  | JNull => "null"
  | JBool true => "true"
  | JBool false => "false"
  | JNum z => JsString.ofZ z
  | JStr s => s
  | JArr l =>
      JsString.join ","
        (map (fun x => if isNullish x then EmptyString else ToString x) l)
  | JObj _ => "[object Object]"
  end.

(** A record ([Record<string, any>]) lists its own properties in the
    order [Object.keys] reports them. *)
Definition record := list (string * jsval).

(** [r[k]] / [r.k]: [undefined] when the property is absent. *)
Fixpoint getField (r : record) (k : string) : jsval :=
  match r with
  | [] => JUndefined
  | (k', v) :: r' => if String.eqb k' k then v else getField r' k
  end.

Definition keys (r : record) : list string := map fst r.

End JsValue.

Import JsString JsValue.

Example ToString_num : ToString (JNum 42) = "42". Proof. reflexivity. Qed.
Example ToString_neg : ToString (JNum (-7)) = "-7". Proof. reflexivity. Qed.
Example ToString_zero : ToString (JNum 0) = "0". Proof. reflexivity. Qed.
Example ToString_arr :
ToString (JArr [JStr "a"; JNull; JNum 3]) = "a,,3".
Proof. reflexivity. Qed.
Example trim_ex : trim "  search  x  " = "search  x". Proof. reflexivity. Qed.
Example split_ex :
split newline ("a" ++ String newline ("b" ++ String newline ""))
= ["a"; "b"; ""].
Proof. reflexivity. Qed.

(* ===================================================================== *)
(** ** Regular expressions of the platform *)
(* ===================================================================== *)

(** [new RegExp(pattern, flags)] and [re.test(text)] for the pattern syntax
    the deny-list is written in: literal characters, [.], the escapes
    [\d \D \w \W \s \S \b \B \n \t \r \f \v] and escaped punctuation,
    [^] and [$], groups [( )] and [(?: )], alternation and the
    quantifiers [* + ?] (greedy or lazy).  Character classes [[...]],
    braces, back-references, the other escapes and every group that
    opens with [(?] but [(?:] are outside the model: constructing such a
    pattern yields [Unsupported], and nothing is stated about it.  A
    pattern of the model that the platform rejects (nothing to repeat, an
    unmatched parenthesis, an unterminated group, a backslash at the end)
    yields [SyntaxError].

    Only [test] is modelled, on a regular expression without the [g] and
    [y] flags: the answer is whether some substring matches, so captures
    and the greedy/lazy distinction play no role. *)

Module RegExp.

Inductive assertion : Type := AStart | AEnd | AWordB | ANotWordB.

Inductive charclass : Type :=
| CDot | CDigit | CNotDigit | CWord | CNotWord | CSpace | CNotSpace.

Inductive regex : Type :=
| REmpty
| RChar (c : ascii)
| RClass (k : charclass)
| RAssert (a : assertion)
| RSeq (r1 r2 : regex)
| RAlt (r1 r2 : regex)
| RStar (r : regex)
| RPlus (r : regex)
| ROpt (r : regex)
| RGroup (capturing : bool) (r : regex).

(** *** Matching *)

Definition inRange (lo hi n : nat) : bool := (lo <=? n)%nat && (n <=? hi)%nat.

(** [Canonicalize] under the [i] flag (no [u] flag): the upper-case
    counterpart when it is a single code unit.  On U+0000..U+00FF: a-z and
    the accented lower-case letters U+00E0..U+00FE (but the division sign
    U+00F7) move down by 32; U+00B5, U+00DF and U+00FF stay distinct from
    every other code unit of the range. *)
Definition canonicalize (c : ascii) : ascii :=
  let n := nat_of_ascii c in
  if inRange 97 122 n then ascii_of_nat (n - 32)
  else if inRange 224 254 n && negb (n =? 247)%nat then ascii_of_nat (n - 32)
  else c.

Definition isDigit (c : ascii) : bool := inRange 48 57 (nat_of_ascii c).

(** [WordCharacters]: a-z, A-Z, 0-9 and the underscore. *)
Definition isWordChar (c : ascii) : bool :=
  let n := nat_of_ascii c in
  inRange 97 122 n || inRange 65 90 n || inRange 48 57 n || (n =? 95)%nat.

Definition isLineTerminator (c : ascii) : bool :=
  let n := nat_of_ascii c in (n =? 10)%nat || (n =? 13)%nat.

Definition inClass (k : charclass) (c : ascii) : bool :=
  match k with
  | CDot => negb (isLineTerminator c)
  | CDigit => isDigit c
  | CNotDigit => negb (isDigit c)
  | CWord => isWordChar c
  | CNotWord => negb (isWordChar c)
  | CSpace => isWhiteSpace c
  | CNotSpace => negb (isWhiteSpace c)
  end.

Definition sameChar (ignoreCase : bool) (a b : ascii) : bool :=
  if ignoreCase then Ascii.eqb (canonicalize a) (canonicalize b)
  else Ascii.eqb a b.

(** [IsWordChar(e)] and [IsWordChar(e - 1)] of the specification of [\b]:
    false outside the input. *)
Definition wordAt (s : list ascii) (e : nat) : bool :=
  match nth_error s e with Some c => isWordChar c | None => false end.

Definition wordBefore (s : list ascii) (e : nat) : bool :=
  match e with O => false | S p => wordAt s p end.

Definition isWordBoundary (s : list ascii) (e : nat) : bool :=
  xorb (wordBefore s e) (wordAt s e).

Definition holds (a : assertion) (s : list ascii) (e : nat) : bool :=
  match a with
  | AStart => (e =? 0)%nat
  | AEnd => (e =? List.length s)%nat
  | AWordB => isWordBoundary s e
  | ANotWordB => negb (isWordBoundary s e)
  end.

(** Zero or more non-empty iterations of [m] from [i] to [j]. *)
Fixpoint star (m : nat -> nat -> bool) (fuel i j : nat) : bool :=
  if (i =? j)%nat then true
  else match fuel with
       | O => false
       | S f =>
           existsb (fun k => if m i k then star m f k j else false)
                   (seq (S i) (j - i))
       end.

(** [matchb ic r s i j]: [r] matches the input [s] from position [i] to
    position [j]. *)
Fixpoint matchb (ic : bool) (r : regex) (s : list ascii) (i j : nat) : bool :=
  match r with
  | REmpty => (i =? j)%nat
  | RChar c =>
      if (S i =? j)%nat then
        match nth_error s i with Some d => sameChar ic d c | None => false end
      else false
  | RClass k =>
      if (S i =? j)%nat then
        match nth_error s i with Some d => inClass k d | None => false end
      else false
  | RAssert a => if (i =? j)%nat then holds a s i else false
  | RSeq a b =>
      existsb (fun k => if matchb ic a s i k then matchb ic b s k j else false)
              (seq i (S j - i))
  | RAlt a b => if matchb ic a s i j then true else matchb ic b s i j
  | RStar a => star (matchb ic a s) (j - i) i j
  | RPlus a =>
      existsb (fun k => if matchb ic a s i k
                        then star (matchb ic a s) (j - k) k j else false)
              (seq i (S j - i))
  | ROpt a => if (i =? j)%nat then true else matchb ic a s i j
  | RGroup _ a => matchb ic a s i j
  end.

(** A compiled regular expression: the pattern's syntax tree and the [i]
    flag. *)
Record RegExpObject : Type := mkRegExp { source : regex; ignoreCase : bool }.

(** The substrings of [s] as pairs of positions. *)
Definition spans (s : list ascii) : list (nat * nat) :=
  flat_map (fun i => map (fun j => (i, j)) (seq i (S (List.length s) - i)))
           (seq 0 (S (List.length s))).

(** [re.test(text)]. *)
Definition test (re : RegExpObject) (text : string) : bool :=
  let s := list_ascii_of_string text in
  existsb (fun ij => matchb (ignoreCase re) (source re) s (fst ij) (snd ij))
          (spans s).

(** *** Construction *)

Inductive compiled (A : Type) : Type :=
| Compiled (a : A)
| SyntaxError
| Unsupported.
Arguments Compiled {A} a.
Arguments SyntaxError {A}.
Arguments Unsupported {A}.

(** What may follow a term: a quantifier applies to an atom only, and a
    [?] after a quantifier makes it lazy. *)
Inductive kind : Type := KAtom | KQuantified | KLazy | KAssertion.

Record frame : Type := mkFrame {
  f_capturing : bool;
  f_alts : list regex;            (* finished alternatives, last first *)
  f_cur : list (regex * kind)     (* terms of the current one, last first *)
}.

Inductive mode : Type := MNormal | MEscape | MGroupOpen | MGroupQ.

Record pstate : Type := mkPState {
  p_mode : mode;
  p_top : frame;
  p_below : list frame
}.

Definition seqOf (items : list (regex * kind)) : regex :=
  fold_right RSeq REmpty (rev (map fst items)).

Definition altOf (first : regex) (rest : list regex) : regex :=
  fold_left RAlt rest first.

(** The disjunction a frame has read. *)
Definition closeFrame (f : frame) : regex :=
  match rev (seqOf (f_cur f) :: f_alts f) with
  | [] => seqOf (f_cur f)
  | r :: rs => altOf r rs
  end.

Inductive pchar : Type :=
| PBackslash | PLParen | PRParen | PBar | PStar | PPlus | PQuest
| PDot | PCaret | PDollar | PBracket | PLit.

Definition classify (c : ascii) : pchar :=
  if Ascii.eqb c "\" then PBackslash
  else if Ascii.eqb c "(" then PLParen
  else if Ascii.eqb c ")" then PRParen
  else if Ascii.eqb c "|" then PBar
  else if Ascii.eqb c "*" then PStar
  else if Ascii.eqb c "+" then PPlus
  else if Ascii.eqb c "?" then PQuest
  else if Ascii.eqb c "." then PDot
  else if Ascii.eqb c "^" then PCaret
  else if Ascii.eqb c "$" then PDollar
  else if Ascii.eqb c "[" || Ascii.eqb c "]"
          || Ascii.eqb c "{" || Ascii.eqb c "}" then PBracket
  else PLit.

(** The ASCII characters other than letters, digits and the underscore:
    escaped, each stands for itself. *)
Definition isPunctuation (c : ascii) : bool :=
  let n := nat_of_ascii c in
  inRange 32 47 n || inRange 58 64 n || inRange 91 94 n || (n =? 96)%nat
  || inRange 123 126 n.

(** The term an escape [\c] stands for; [None] for the escapes outside the
    model. *)
Definition escapeItem (c : ascii) : option (regex * kind) :=
  if Ascii.eqb c "b" then Some (RAssert AWordB, KAssertion)
  else if Ascii.eqb c "B" then Some (RAssert ANotWordB, KAssertion)
  else if Ascii.eqb c "d" then Some (RClass CDigit, KAtom)
  else if Ascii.eqb c "D" then Some (RClass CNotDigit, KAtom)
  else if Ascii.eqb c "w" then Some (RClass CWord, KAtom)
  else if Ascii.eqb c "W" then Some (RClass CNotWord, KAtom)
  else if Ascii.eqb c "s" then Some (RClass CSpace, KAtom)
  else if Ascii.eqb c "S" then Some (RClass CNotSpace, KAtom)
  else if Ascii.eqb c "n" then Some (RChar "010", KAtom)
  else if Ascii.eqb c "t" then Some (RChar "009", KAtom)
  else if Ascii.eqb c "r" then Some (RChar "013", KAtom)
  else if Ascii.eqb c "f" then Some (RChar "012", KAtom)
  else if Ascii.eqb c "v" then Some (RChar "011", KAtom)
  else if isPunctuation c then Some (RChar c, KAtom)
  else None.

Definition pushItem (it : regex * kind) (f : frame) : frame :=
  mkFrame (f_capturing f) (f_alts f) (it :: f_cur f).

Definition newFrame (capturing : bool) : frame := mkFrame capturing [] [].

(** A quantifier after the last term of the frame. *)
Definition quantify (q : regex -> regex) (f : frame) : compiled frame :=
  match f_cur f with
  | (r, KAtom) :: items =>
      Compiled (mkFrame (f_capturing f) (f_alts f) ((q r, KQuantified) :: items))
  | _ => SyntaxError
  end.

Definition question (f : frame) : compiled frame :=
  match f_cur f with
  | (r, KAtom) :: items =>
      Compiled (mkFrame (f_capturing f) (f_alts f) ((ROpt r, KQuantified) :: items))
  | (r, KQuantified) :: items =>
      Compiled (mkFrame (f_capturing f) (f_alts f) ((r, KLazy) :: items))
  | _ => SyntaxError
  end.

Definition onTop (m : mode) (below : list frame) (r : compiled frame)
  : compiled pstate :=
  match r with
  | Compiled f => Compiled (mkPState m f below)
  | SyntaxError => SyntaxError
  | Unsupported => Unsupported
  end.

(** One pattern character outside an escape and outside a group opening. *)
Definition stepNormal (c : ascii) (top : frame) (below : list frame)
  : compiled pstate :=
  match classify c with
  | PBackslash => Compiled (mkPState MEscape top below)
  | PLParen => Compiled (mkPState MGroupOpen top below)
  | PRParen =>
      match below with
      | [] => SyntaxError
      | f :: below' =>
          Compiled (mkPState MNormal
                      (pushItem (RGroup (f_capturing top) (closeFrame top), KAtom) f)
                      below')
      end
  | PBar =>
      Compiled (mkPState MNormal
                  (mkFrame (f_capturing top) (seqOf (f_cur top) :: f_alts top) [])
                  below)
  | PStar => onTop MNormal below (quantify RStar top)
  | PPlus => onTop MNormal below (quantify RPlus top)
  | PQuest => onTop MNormal below (question top)
  | PDot => Compiled (mkPState MNormal (pushItem (RClass CDot, KAtom) top) below)
  | PCaret => Compiled (mkPState MNormal (pushItem (RAssert AStart, KAssertion) top) below)
  | PDollar => Compiled (mkPState MNormal (pushItem (RAssert AEnd, KAssertion) top) below)
  | PBracket => Unsupported
  | PLit => Compiled (mkPState MNormal (pushItem (RChar c, KAtom) top) below)
  end.

Definition step (c : ascii) (st : pstate) : compiled pstate :=
  match p_mode st with
  | MNormal => stepNormal c (p_top st) (p_below st)
  | MEscape =>
      match escapeItem c with
      | Some it => Compiled (mkPState MNormal (pushItem it (p_top st)) (p_below st))
      | None => Unsupported
      end
  | MGroupOpen =>
      if Ascii.eqb c "?" then Compiled (mkPState MGroupQ (p_top st) (p_below st))
      else stepNormal c (newFrame true) (p_top st :: p_below st)
  | MGroupQ =>
      if Ascii.eqb c ":" then
        Compiled (mkPState MNormal (newFrame false) (p_top st :: p_below st))
      else Unsupported
  end.

Fixpoint run (pattern : string) (st : pstate) : compiled pstate :=
  match pattern with
  | EmptyString => Compiled st
  | String c rest =>
      match step c st with
      | Compiled st' => run rest st'
      | SyntaxError => SyntaxError
      | Unsupported => Unsupported
      end
  end.

Definition initial : pstate := mkPState MNormal (newFrame false) [].

(** At the end of the pattern no escape or group may be left open. *)
Definition finish (st : pstate) : compiled regex :=
  match p_mode st, p_below st with
  | MNormal, [] => Compiled (closeFrame (p_top st))
  | _, _ => SyntaxError
  end.

Definition parse (pattern : string) : compiled regex :=
  match run pattern initial with
  | Compiled st => finish st
  | SyntaxError => SyntaxError
  | Unsupported => Unsupported
  end.

(** [new RegExp(pattern, flags)] for the flags [""] and ["i"]. *)
Definition RegExp_new (pattern flags : string) : compiled RegExpObject :=
  let build ic :=
    match parse pattern with
    | Compiled r => Compiled (mkRegExp r ic)
    | SyntaxError => SyntaxError
    | Unsupported => Unsupported
    end in
  if String.eqb flags "" then build false
  else if String.eqb flags "i" then build true
  else Unsupported.

End RegExp.

(* ===================================================================== *)
(** ** Outcomes and exceptions *)
(* ===================================================================== *)

(** What the code throws: [new Error(message)], the [SyntaxError] of
    [new RegExp] (kept with the offending pattern), and whatever the
    transport rejects with (only its optional [message] is ever read). *)
Inductive exn : Type :=
| JsError (message : string)
| JsSyntaxError (pattern : string)
| Rejection (message : option string).

(** [err?.message] for the errors whose message the code reads.  The text
    of a [SyntaxError] depends on the engine and is not modelled. *)
Definition exnMessage (e : exn) : option string :=
  match e with
  | JsError m => Some m
  | JsSyntaxError _ => None
  | Rejection m => m
  end.

(** A call returns, throws, or leaves the model: the pagination loop is
    run with fuel, and a pattern may use syntax [RegExp] does not cover. *)
Inductive outcome (A : Type) : Type :=
| Ret (a : A)
| Throw (e : exn)
| OutOfFuel
| OutsideModel.
Arguments Ret {A} a.
Arguments Throw {A} e.
Arguments OutOfFuel {A}.
Arguments OutsideModel {A}.

(* ===================================================================== *)
(** ** Configuration and query model ([types.ts]) *)
(* ===================================================================== *)

(** The settings [datasource.ts] reads; an absent setting is [None]. *)
Record SplunkDataSourceOptions : Type := mkOptions {
  safeMode : option bool;
  maxRangeSeconds : option Q;
  maxRows : option Z;
  pageSize : option Z;
  pollIntervalMs : option Z;
  maxPolls : option Q;
  bannedCommands : option string;
  allowDangerousCommands : option bool
}.

(** A target, with the properties [datasource.ts] reads. *)
Record SplunkQuery : Type := mkQuery {
  refId : string;
  queryText : option string;
  hide : option bool
}.

(** [x ?? d] for an optional setting. *)
Definition orDefault {A : Type} (x : option A) (d : A) : A :=
  match x with Some v => v | None => d end.

(** Truthiness of an optional flag. *)
Definition isSet (x : option bool) : bool := orDefault x false.

(** Truthiness of a [string | null | undefined]. *)
Definition truthy (x : option string) : bool :=
  match x with Some s => negb (isEmpty s) | None => false end.

(* ===================================================================== *)
(** ** Guardrails *)
(* ===================================================================== *)

Module Guardrails.

Import RegExp.

Definition emptyMessage : string := "Query is empty.".
Definition riskyMessage : string :=
  "Query includes a risky Splunk command and is blocked by guardrails.".

(** The lines of the deny-list that are left after trimming. *)
Definition bannedParts (opts : SplunkDataSourceOptions) : list string :=
  filter (fun s => negb (isEmpty s))
         (map trim (split newline (trim (orDefault (bannedCommands opts) "")))).

Definition bannedPattern (parts : list string) : string :=
  "\b(" ++ join "|" parts ++ ")\b".

Definition compileBannedRegex (opts : SplunkDataSourceOptions)
  : outcome (option RegExpObject) :=
  let src := trim (orDefault (bannedCommands opts) "") in
  if isEmpty src then Ret None
  else
    let parts := filter (fun s => negb (isEmpty s)) (map trim (split newline src)) in
    if (List.length parts =? 0)%nat then Ret None
    else
      match RegExp_new (bannedPattern parts) "i" with
      | Compiled re => Ret (Some re)
      | SyntaxError => Throw (JsSyntaxError (bannedPattern parts))
      | Unsupported => OutsideModel
      end.

(** [null] is [None]; a block carries its reason. *)
Definition isQueryDangerous (q : option string) (opts : SplunkDataSourceOptions)
  : outcome (option string) :=
  let text := trim (orDefault q "") in
  if (String.length text =? 0)%nat then Ret (Some emptyMessage)
  else if isSet (allowDangerousCommands opts) then Ret None
  else
    match compileBannedRegex opts with
    | Ret (Some re) => if test re text then Ret (Some riskyMessage) else Ret None
    | Ret None => Ret None
    | Throw e => Throw e
    | OutOfFuel => OutOfFuel
    | OutsideModel => OutsideModel
    end.

End Guardrails.

(* ===================================================================== *)
(** ** Helpers and interpolation *)
(* ===================================================================== *)

Module Interpolation.

(** [String(v).replace(re, '\\$1')], where [re] is the global pattern for
    one double quote or one backslash: each of them gets a backslash in
    front. *)
Fixpoint escapeSplunkValue (v : string) : string :=
  match v with
  | EmptyString => EmptyString
  | String c r =>
      if Ascii.eqb c dquote || Ascii.eqb c backslash
      then String backslash (String c (escapeSplunkValue r))
      else String c (escapeSplunkValue r)
  end.

Definition quoted (v : jsval) : string :=
  String dquote (escapeSplunkValue (ToString v)) ++ String dquote EmptyString.

(** The formatter [interpolateSPL] hands to the template service. *)
Definition formatter (value : jsval) : string :=
  match value with
  | JUndefined | JNull => EmptyString
  | JArr l =>
      let parts := map quoted l in
      if (1 <? List.length parts)%nat then "(" ++ join " OR " parts ++ ")"
      else match parts with p :: _ => p | [] => EmptyString end
  | _ => escapeSplunkValue (ToString value)
  end.

(** [s.replace(/\.\d{3}Z$/, 'Z')]: a final [.dddZ] loses its fraction. *)
Fixpoint dropMillis (s : string) : string :=
  match s with
  | String "." (String a (String b (String c (String "Z" EmptyString)))) =>
      if RegExp.isDigit a && RegExp.isDigit b && RegExp.isDigit c then "Z" else s
  | String c r => String c (dropMillis r)
  | EmptyString => EmptyString
  end.

End Interpolation.

(* ===================================================================== *)
(** ** The datasource *)
(* ===================================================================== *)

Module DataSource.

Import Guardrails Interpolation.

(** *** Splunk payloads *)

Record SplunkJobCreateData : Type := mkCreateData { sid : option string }.

Record JobContent : Type := mkContent {
  isDone : option bool;
  dispatchState : option string
}.

Record JobEntry : Type := mkEntry { content : option JobContent }.

Record SplunkJobStatusData : Type := mkStatusData {
  entry : option (list JobEntry)
}.

Record FieldInfo : Type := mkFieldInfo { name : string }.

Record SplunkResultsData : Type := mkResultsData {
  results : option (list record);
  fields : option (list FieldInfo)
}.

(** *** What the host sees *)

Inductive FieldType : Type := FTtime | FTstring.

(** A [MutableDataFrame]: its [refId], its field declarations, and the
    objects handed to [add], in order. *)
Record DataFrame : Type := mkDataFrame {
  df_refId : string;
  df_fields : list (string * FieldType);
  df_rows : list record
}.

Record MetricFindValue : Type := mkMetricFindValue {
  text : string;
  value : string
}.

(** [range.from.valueOf()] and [range.to.valueOf()], in milliseconds: the
    time values of two valid dates. *)
Record TimeRange : Type := mkRange { from : Z; to : Z }.

(** *** The platform *)

(** The outcome of one [datasourceRequest]: the promise resolves with a
    payload or rejects. *)
Inductive reply (A : Type) : Type :=
| Resolved (data : A)
| Rejected (e : exn).
Arguments Resolved {A} data.
Arguments Rejected {A} e.

(** Everything the datasource gets from its environment: the template
    service, the clock and timers, [Date.parse], [toISOString], and the
    three Splunk endpoints behind the proxy.  [World] is the state of that
    environment; each request may change it. *)
Record Platform : Type := mkPlatform {
  World : Type;
  ScopedVars : Type;
  emptyScopedVars : ScopedVars;
  templateReplace : string -> ScopedVars -> (jsval -> string) -> string;
  toISOString : Z -> string;
  Number_toString : Q -> string;
  Date_parse : string -> option Z;
  Date_now : World -> Z * World;
  setTimeout : Z -> World -> World;
  postJob : string -> string -> string -> World
            -> reply SplunkJobCreateData * World;
  getJobStatus : string -> World -> reply SplunkJobStatusData * World;
  getResults : string -> Z -> Z -> World -> reply SplunkResultsData * World
}.

(** The interactions of a run, in the order they happened. *)
Inductive event : Type :=
| EvCreateJob (search earliest latest : string) (r : reply SplunkJobCreateData)
| EvJobStatus (job : string) (r : reply SplunkJobStatusData)
| EvResults (job : string) (count offset : Z) (r : reply SplunkResultsData)
| EvSleep (ms : Z).

Section WithPlatform.

Variable P : Platform.

Record DataQueryRequest : Type := mkRequest {
  range : TimeRange;
  targets : list SplunkQuery;
  scopedVars : ScopedVars P
}.

(** *** State and exceptions *)

Record St : Type := mkSt { world : World P; trace : list event }.

Definition M (A : Type) : Type := St -> outcome A * St.

Definition ret {A : Type} (a : A) : M A := fun st => (Ret a, st).

Definition bind {A B : Type} (m : M A) (k : A -> M B) : M B :=
  fun st =>
    match m st with
    | (Ret a, st') => k a st'
    | (Throw e, st') => (Throw e, st')
    | (OutOfFuel, st') => (OutOfFuel, st')
    | (OutsideModel, st') => (OutsideModel, st')
    end.

Definition throw {A : Type} (e : exn) : M A := fun st => (Throw e, st).

Definition outOfFuel {A : Type} : M A := fun st => (OutOfFuel, st).

(** [try { m } catch (err) { handler err }]. *)
Definition tryCatch {A : Type} (m : M A) (handler : exn -> M A) : M A :=
  fun st =>
    match m st with
    | (Throw e, st') => handler e st'
    | other => other
    end.

(** A computation that touches nothing. *)
Definition lift {A : Type} (o : outcome A) : M A := fun st => (o, st).

Notation "x <- c ;; k" := (bind c (fun x => k))
  (at level 61, c at next level, right associativity).
Notation "c ;;; k" := (bind c (fun _ => k))
  (at level 61, right associativity).

Definition record_event (ev : event) (w : World P) : M unit :=
  fun st => (Ret tt, mkSt w (trace st ++ [ev])).

(** [await] on a request: the payload, or the rejection thrown. *)
Definition await {A : Type} (r : reply A) : M A :=
  match r with Resolved d => ret d | Rejected e => throw e end.

Definition dateNow : M Z :=
  fun st => let (t, w) := Date_now P (world st) in (Ret t, mkSt w (trace st)).

Definition sleep (ms : Z) : M unit :=
  fun st => (Ret tt, mkSt (setTimeout P ms (world st)) (trace st ++ [EvSleep ms])).

(** *** Helpers *)

Definition toSplunkTimeISO (d : Z) : string := dropMillis (toISOString P d).

Definition interpolateSPL (text : string) (vars : ScopedVars P) : string :=
  templateReplace P text vars formatter.

(** *** Splunk REST via the proxy *)

Definition createJobError : exn := JsError "Failed to create Splunk search job".
Definition pollTimeoutError : exn :=
  JsError "Splunk job did not complete within polling limits".

Definition createSearchJob (search earliest latest : string) : M string :=
  fun st =>
    let (r, w) := postJob P search earliest latest (world st) in
    (data <- (record_event (EvCreateJob search earliest latest r) w ;;; await r) ;;
     match sid data with
     | Some s => if isEmpty s then throw createJobError else ret s
     | None => throw createJobError
     end) st.

(** [!!done || state === 'DONE' || state === 'PAUSED' ||
    state === 'FINALIZING'] on the first entry of the payload. *)
Definition jobDone (data : SplunkJobStatusData) : bool :=
  let entry0 := match entry data with Some (e :: _) => Some e | _ => None end in
  let c := match entry0 with Some e => content e | None => None end in
  let done := match c with Some c => isDone c | None => None end in
  let state := match c with Some c => dispatchState c | None => None end in
  let stateIs (s : string) :=
    match state with Some x => String.eqb x s | None => false end in
  isSet done || stateIs "DONE" || stateIs "PAUSED" || stateIs "FINALIZING".

Definition isJobDone (job : string) : M bool :=
  fun st =>
    let (r, w) := getJobStatus P job (world st) in
    (data <- (record_event (EvJobStatus job r) w ;;; await r) ;;
     ret (jobDone data)) st.

(** The [for] loop of [waitForJob], [remaining] polls before giving up. *)
Fixpoint pollLoop (job : string) (pollMs : Z) (remaining : nat) : M unit :=
  match remaining with
  | O => throw pollTimeoutError
  | S k =>
      done <- isJobDone job ;;
      if done then ret tt
      else sleep pollMs ;;; pollLoop job pollMs k
  end.

Definition effPollMs (opts : SplunkDataSourceOptions) : Z :=
  Z.max 100%Z (orDefault (pollIntervalMs opts) 1000%Z).

(** [Math.max(1, this.jsonData.maxPolls ?? 30)]: a number, not rounded. *)
Definition effMaxPolls (opts : SplunkDataSourceOptions) : Q :=
  Qmax 1%Q (orDefault (maxPolls opts) 30%Q).

(** The number of iterations of [for (let i = 0; i < maxPolls; i++)]: the
    number of integers [i >= 0] below [maxPolls], that is [maxPolls]
    rounded up. *)
Definition pollBudget (maxPolls : Q) : nat := Z.to_nat (Qceiling maxPolls).

Definition waitForJob (opts : SplunkDataSourceOptions) (job : string) : M unit :=
  pollLoop job (effPollMs opts) (pollBudget (effMaxPolls opts)).

Definition fetchResults (job : string) (count offset : Z) : M SplunkResultsData :=
  fun st =>
    let (r, w) := getResults P job count offset (world st) in
    (record_event (EvResults job count offset r) w ;;; await r) st.

(** *** Panel queries *)

Definition lengthZ {A : Type} (l : list A) : Z := Z.of_nat (List.length l).

(** [Date.parse(r._time) || Date.now()]: [NaN] and [0] are falsy. *)
Definition rowTime (r : record) : M Z :=
  match Date_parse P (ToString (getField r "_time")) with
  | Some t => if (t =? 0)%Z then dateNow else ret t
  | None => dateNow
  end.

Definition rowHost (r : record) : jsval :=
  coalesce (getField r "host")
    (coalesce (getField r "sourceHost")
       (coalesce (getField r "hosts") (JStr ""))).

Definition rowMessage (r : record) : jsval :=
  coalesce (getField r "_raw")
    (coalesce (getField r "message")
       (coalesce (getField r "_msg") (JStr ""))).

(** The body of [for (const r of rows)]: the object handed to
    [table.add]. *)
Definition mapRow (r : record) : M record :=
  t <- rowTime r ;;
  ret [("time", JNum t); ("host", rowHost r); ("message", rowMessage r)].

Fixpoint addRows (rows : list record) (table : DataFrame) : M DataFrame :=
  match rows with
  | [] => ret table
  | r :: rest =>
      row <- mapRow r ;;
      addRows rest (mkDataFrame (df_refId table) (df_fields table)
                                (df_rows table ++ [row]))
  end.

Definition effPageSize (opts : SplunkDataSourceOptions) : Z :=
  Z.max 1%Z (Z.min (orDefault (pageSize opts) 200%Z) 5000%Z).

Definition effMaxRows (opts : SplunkDataSourceOptions) : Z :=
  Z.max 0%Z (orDefault (maxRows opts) 2000%Z).

(** The [while (true)] loop of [query]; each iteration uses one unit of
    fuel. *)
Fixpoint pageLoop (fuel : nat) (job : string) (pageSize maxRows : Z)
  (offset totalAdded : Z) (table : DataFrame) : M DataFrame :=
  match fuel with
  | O => outOfFuel
  | S fuel' =>
      res <- fetchResults job pageSize offset ;;
      let rows := orDefault (results res) [] in
      if (lengthZ rows =? 0)%Z then ret table
      else
        table' <- addRows rows table ;;
        let totalAdded' := (totalAdded + lengthZ rows)%Z in
        if (0 <? maxRows)%Z && (maxRows <=? totalAdded')%Z then ret table'
        else
          let offset' := (offset + lengthZ rows)%Z in
          if (lengthZ rows <? pageSize)%Z then ret table'
          else pageLoop fuel' job pageSize maxRows offset' totalAdded' table'
  end.

Definition diagnosticFrame (ref column : string) (now : Z) (message : string)
  : DataFrame :=
  mkDataFrame ref [("time", FTtime); (column, FTstring)]
              [[("time", JNum now); (column, JStr message)]].

Definition emptyTable (ref : string) : DataFrame :=
  mkDataFrame ref [("time", FTtime); ("host", FTstring); ("message", FTstring)] [].

(** The body of the [try] block of [query]. *)
Definition runTarget (fuel : nat) (opts : SplunkDataSourceOptions)
  (rng : TimeRange) (ref queryText : string) : M DataFrame :=
  let earliest := toSplunkTimeISO (from rng) in
  let latest := toSplunkTimeISO (to rng) in
  job <- createSearchJob queryText earliest latest ;;
  waitForJob opts job ;;;
  pageLoop fuel job (effPageSize opts) (effMaxRows opts) 0%Z 0%Z (emptyTable ref).

(** The [for (const target of req.targets)] loop, [frames] being what was
    pushed so far. *)
Fixpoint queryTargets (fuel : nat) (opts : SplunkDataSourceOptions)
  (req : DataQueryRequest) (todo : list SplunkQuery) (frames : list DataFrame)
  : M (list DataFrame) :=
  match todo with
  | [] => ret frames
  | target :: rest =>
      if isSet (hide target) then queryTargets fuel opts req rest frames
      else
        let rawText :=
          if truthy (queryText target) then orDefault (queryText target) ""
          else "" in
        let queryText := interpolateSPL rawText (scopedVars req) in
        validation <- lift (isQueryDangerous (Some queryText) opts) ;;
        if truthy validation then
          now <- dateNow ;;
          queryTargets fuel opts req rest
            (frames ++ [diagnosticFrame (refId target) "warning" now
                                        (orDefault validation "")])
        else
          frame <- tryCatch
                     (runTarget fuel opts (range req) (refId target) queryText)
                     (fun err =>
                        now <- dateNow ;;
                        ret (diagnosticFrame (refId target) "error" now
                               (orDefault (exnMessage err) "Query failed"))) ;;
          queryTargets fuel opts req rest (frames ++ [frame])
  end.

(** [Math.ceil((to - from) / 1000)]. *)
Definition rangeSeconds (rng : TimeRange) : Z :=
  (- ((- (to rng - from rng)) / 1000))%Z.

(** [String(n)] for a number of the configuration: the decimal digits of
    an integer below 10^21; the rendering of any other number is the
    platform's. *)
Definition numberText (n : Q) : string :=
  let r := Qred n in
  if (Z.pos (Qden r) =? 1)%Z && (Z.abs (Qnum r) <? 10 ^ 21)%Z
  then ofZ (Qnum r)
  else Number_toString P n.

Definition rangeMessage (rangeSec : Z) (maxRangeSec : Q) : string :=
  "Time range (" ++ ofZ rangeSec ++ "s) exceeds the configured cap ("
  ++ numberText maxRangeSec ++ "s).".

(** [rangeSec > maxRangeSec], the cap being a number of the
    configuration. *)
Definition exceeds (rangeSec : Z) (maxRangeSec : Q) : bool :=
  negb (Qle_bool (inject_Z rangeSec) maxRangeSec).

(** Whether the time-range guardrail lets the batch through. *)
Definition rangeAllowed (opts : SplunkDataSourceOptions) (rng : TimeRange) : bool :=
  if isSet (safeMode opts)
  then negb (exceeds (rangeSeconds rng)
                     (orDefault (maxRangeSeconds opts) (24 * 60 * 60)%Q))
  else true.

Definition query (fuel : nat) (opts : SplunkDataSourceOptions)
  (req : DataQueryRequest) : M (list DataFrame) :=
  if rangeAllowed opts (range req) then queryTargets fuel opts req (targets req) []
  else
    now <- dateNow ;;
    ret [diagnosticFrame "guardrails" "message" now
           (rangeMessage (rangeSeconds (range req))
                         (orDefault (maxRangeSeconds opts) (24 * 60 * 60)%Q))].

(** *** Variables *)

(** [v != null && v !== ''] *)
Definition keepValue (v : jsval) : bool :=
  negb (isNullish v) &&
  match v with JStr s => negb (isEmpty s) | _ => true end.

Definition toMetricFindValue (v : jsval) : MetricFindValue :=
  mkMetricFindValue (ToString v) (ToString v).

(** [res.fields?.[0]?.name], else the first key of the first row; [None]
    when both are missing or empty. *)
Definition firstFieldOf (res : SplunkResultsData) (rows : list record)
  : option string :=
  let fromFields :=
    match fields res with Some (f :: _) => Some (name f) | _ => None end in
  if truthy fromFields then fromFields
  else
    let fromKeys :=
      match keys (match rows with r :: _ => r | [] => [] end) with
      | k :: _ => Some k
      | [] => None
      end in
    if truthy fromKeys then fromKeys else None.

(** What [metricFindQuery] makes of the fetched page. *)
Definition metricValues (res : SplunkResultsData) : list MetricFindValue :=
  let rows := orDefault (results res) [] in
  if (lengthZ rows =? 0)%Z then []
  else
    match firstFieldOf res rows with
    | None => []
    | Some firstField =>
        map toMetricFindValue
            (filter keepValue (map (fun r => getField r firstField) rows))
    end.

(** [query] is either the text itself or a [SplunkQuery]. *)
Definition metricFindQuery (opts : SplunkDataSourceOptions)
  (query : string + SplunkQuery) : M (list MetricFindValue) :=
  let raw :=
    match query with
    | inl s => s
    | inr q => orDefault (queryText q) ""
    end in
  let qText := interpolateSPL raw (emptyScopedVars P) in
  validation <- lift (isQueryDangerous (Some qText) opts) ;;
  if truthy validation then ret []
  else
    tryCatch
      (job <- createSearchJob qText "-15m" "now" ;;
       waitForJob opts job ;;;
       res <- fetchResults job 500%Z 0%Z ;;
       ret (metricValues res))
      (fun _ => ret []).

End WithPlatform.

End DataSource.

(* ===================================================================== *)
(** ** Dates of the platform *)
(* ===================================================================== *)

(** [Date.parse] for the date-time format of the language specification,
    [YYYY-MM-DDTHH:mm:ss], an optional fraction, and [Z] or an offset
    [+HH:mm] / [-HH:mm]; and [toISOString].  Other inputs give [NaN]
    ([None]) here; engines accept more formats, which is why the
    datasource is stated over an arbitrary [Date_parse]. *)

Module JsDate.

Local Open Scope Z_scope.

Definition daysFromCivil (y m d : Z) : Z :=
  let y' := if m <=? 2 then y - 1 else y in
  let era := y' / 400 in
  let yoe := y' - era * 400 in
  let mp := if 2 <? m then m - 3 else m + 9 in
  let doy := (153 * mp + 2) / 5 + d - 1 in
  let doe := yoe * 365 + yoe / 4 - yoe / 100 + doy in
  era * 146097 + doe - 719468.

(** Year, month and day of a day number. *)
Definition civilFromDays (z : Z) : Z * Z * Z :=
  let z' := z + 719468 in
  let era := z' / 146097 in
  let doe := z' - era * 146097 in
  let yoe := (doe - doe / 1460 + doe / 36524 - doe / 146096) / 365 in
  let doy := doe - (365 * yoe + yoe / 4 - yoe / 100) in
  let mp := (5 * doy + 2) / 153 in
  let d := doy - (153 * mp + 2) / 5 + 1 in
  let m := if mp <? 10 then mp + 3 else mp - 9 in
  let y := yoe + era * 400 in
  ((if m <=? 2 then y + 1 else y), m, d).

Definition digitValue (c : ascii) : option Z :=
  if RegExp.isDigit c then Some (Z.of_nat (nat_of_ascii c) - 48) else None.

(** Reads exactly [n] decimal digits. *)
Fixpoint digits (n : nat) (acc : Z) (s : string) : option (Z * string) :=
  match n with
  | O => Some (acc, s)
  | S k =>
      match s with
      | String c r =>
          match digitValue c with
          | Some v => digits k (acc * 10 + v) r
          | None => None
          end
      | EmptyString => None
      end
  end.

Definition expect (c : ascii) (s : string) : option string :=
  match s with
  | String d r => if Ascii.eqb c d then Some r else None
  | EmptyString => None
  end.

(** The fraction of a second in milliseconds: the first three digits
    count, the others are dropped. *)
Fixpoint fraction (scale : Z) (s : string) : Z * string :=
  match s with
  | String c r =>
      match digitValue c with
      | Some v => let (ms, rest) := fraction (scale / 10) r in (v * scale + ms, rest)
      | None => (0, s)
      end
  | EmptyString => (0, s)
  end.

Definition bindO {A B : Type} (x : option A) (k : A -> option B) : option B :=
  match x with Some a => k a | None => None end.

(** The offset in minutes east of UTC. *)
Definition zone (s : string) : option Z :=
  match s with
  | String "Z" EmptyString => Some 0
  | String sign rest =>
      if Ascii.eqb sign "+" || Ascii.eqb sign "-" then
        bindO (digits 2 0 rest) (fun '(h, r1) =>
        bindO (expect ":" r1) (fun r2 =>
        bindO (digits 2 0 r2) (fun '(mi, r3) =>
        if isEmpty r3 && (h <=? 23) && (mi <=? 59)
        then Some ((if Ascii.eqb sign "-" then -1 else 1) * (h * 60 + mi))
        else None)))
      else None
  | EmptyString => None
  end.

Definition isLeap (y : Z) : bool :=
  ((y mod 4 =? 0) && negb (y mod 100 =? 0)) || (y mod 400 =? 0).

Definition daysInMonth (y m : Z) : Z :=
  if m =? 2 then (if isLeap y then 29 else 28)
  else if (m =? 4) || (m =? 6) || (m =? 9) || (m =? 11) then 30
  else 31.

Definition parse (s : string) : option Z :=
  bindO (digits 4 0 s) (fun '(y, r) =>
  bindO (expect "-" r) (fun r =>
  bindO (digits 2 0 r) (fun '(mo, r) =>
  bindO (expect "-" r) (fun r =>
  bindO (digits 2 0 r) (fun '(d, r) =>
  bindO (expect "T" r) (fun r =>
  bindO (digits 2 0 r) (fun '(h, r) =>
  bindO (expect ":" r) (fun r =>
  bindO (digits 2 0 r) (fun '(mi, r) =>
  bindO (expect ":" r) (fun r =>
  bindO (digits 2 0 r) (fun '(sec, r) =>
  let '(ms, r) :=
    match r with
    | String "." r' =>
        match r' with
        | String c _ => if RegExp.isDigit c then fraction 100 r' else (0, r)
        | EmptyString => (0, r)
        end
    | _ => (0, r)
    end in
  bindO (zone r) (fun off =>
  if (1 <=? mo) && (mo <=? 12) && (1 <=? d) && (d <=? daysInMonth y mo)
     && (h <=? 23) && (mi <=? 59) && (sec <=? 59)
  then Some ((((daysFromCivil y mo d * 24 + h) * 60 + mi - off) * 60 + sec)
             * 1000 + ms)
  else None)))))))))))).

(** The last [width] decimal digits of [n], for [0 <= n]. *)
Fixpoint pad (width : nat) (n : Z) : string :=
  match width with
  | O => EmptyString
  | S k => pad k (n / 10) ++ String (ascii_of_nat (Z.to_nat (48 + n mod 10))) EmptyString
  end.

(** The time values of valid dates: 100 000 000 days on either side of
    the epoch. *)
Definition maxTimeValue : Z := 8640000000000000.

Definition validTime (t : Z) : bool := (- maxTimeValue <=? t) && (t <=? maxTimeValue).

(** The year of [toISOString]: four digits from 0 to 9999, otherwise a
    sign and six digits. *)
Definition isoYear (y : Z) : string :=
  if (0 <=? y) && (y <=? 9999) then pad 4 y
  else String (if y <? 0 then "-"%char else "+"%char) (pad 6 (Z.abs y)).

(** [new Date(t).toISOString()] for the time value [t] of a valid date
    (an invalid date has no time value: there the method throws). *)
Definition toISOString (t : Z) : string :=
  let day := t / 86400000 in
  let ms := t mod 86400000 in
  let '(y, m, d) := civilFromDays day in
  (isoYear y ++ "-" ++ pad 2 m ++ "-" ++ pad 2 d ++ "T"
   ++ pad 2 (ms / 3600000) ++ ":" ++ pad 2 (ms / 60000 mod 60) ++ ":"
   ++ pad 2 (ms / 1000 mod 60) ++ "." ++ pad 3 (ms mod 1000) ++ "Z")%string.

End JsDate.

(* ===================================================================== *)
(** ** Numbers of the platform, as text *)
(* ===================================================================== *)

Module JsNumber.

Local Open Scope Z_scope.

(** The decimals of [r / d] for [0 <= r < d], at most [n] of them. *)
Fixpoint decimals (n : nat) (r d : Z) : string :=
  match n with
  | O => EmptyString
  | S k =>
      if r =? 0 then EmptyString
      else String (ascii_of_nat (Z.to_nat (48 + (r * 10) / d)))
                  (decimals k ((r * 10) mod d) d)
  end.

(** [String(x)] for a number that is written exactly with at most twenty
    decimals, such as 1.5 or 0.25, and that the platform does not write
    with an exponent: the sign, the integer part and the decimals. *)
Definition toString (x : Q) : string :=
  let r := Qred x in
  let d := Z.pos (Qden r) in
  let n := Z.abs (Qnum r) in
  let sign := if Qnum r <? 0 then "-"%string else EmptyString in
  let tail :=
    if n mod d =? 0 then EmptyString
    else String "."%char (decimals 20 (n mod d) d) in
  (sign ++ ofZ (n / d) ++ tail)%string.

End JsNumber.

(* ===================================================================== *)
(** ** A scripted platform *)
(* ===================================================================== *)

(** An environment that answers from a script: the replies to job
    creation, to the status checks and to the page fetches are taken from
    three lists, in order.  When a list is exhausted, job creation is
    rejected, a status check answers an empty payload and a page fetch
    answers an empty page.  The clock advances by one millisecond per
    reading and by the delay of each timer.  The template service replaces
    every occurrence of the single variable reference [$x] by the formatted
    binding. *)

Module Scripted.

Import DataSource.

Record world : Type := mkWorld {
  creations : list (reply SplunkJobCreateData);
  statuses : list (reply SplunkJobStatusData);
  pages : list (reply SplunkResultsData);
  time : Z
}.

Definition postJob (search earliest latest : string) (w : world)
  : reply SplunkJobCreateData * world :=
  match creations w with
  | r :: rest => (r, mkWorld rest (statuses w) (pages w) (time w))
  | [] => (Rejected (Rejection (Some "Network error")), w)
  end.

Definition getJobStatus (job : string) (w : world)
  : reply SplunkJobStatusData * world :=
  match statuses w with
  | r :: rest => (r, mkWorld (creations w) rest (pages w) (time w))
  | [] => (Resolved (mkStatusData None), w)
  end.

Definition getResults (job : string) (count offset : Z) (w : world)
  : reply SplunkResultsData * world :=
  match pages w with
  | r :: rest => (r, mkWorld (creations w) (statuses w) rest (time w))
  | [] => (Resolved (mkResultsData (Some []) None), w)
  end.

Definition Date_now (w : world) : Z * world :=
  (time w, mkWorld (creations w) (statuses w) (pages w) (time w + 1)).

Definition setTimeout (ms : Z) (w : world) : world :=
  mkWorld (creations w) (statuses w) (pages w) (time w + ms).

(** [text] with every [$x] replaced by [by_]. *)
Fixpoint replaceX (by_ : string) (text : string) : string :=
  match text with
  | String "$" (String "x" rest) => by_ ++ replaceX by_ rest
  | String c rest => String c (replaceX by_ rest)
  | EmptyString => EmptyString
  end.

Definition templateReplace (text : string) (x : jsval)
  (format : jsval -> string) : string :=
  replaceX (format x) text.

Definition platform : Platform :=
  mkPlatform world jsval JUndefined templateReplace
             JsDate.toISOString JsNumber.toString JsDate.parse Date_now setTimeout
             postJob getJobStatus getResults.

Definition start (w : world) : St platform := mkSt platform w [].

(** Payloads for scripts. *)
Definition created (job : string) : reply SplunkJobCreateData :=
  Resolved (mkCreateData (Some job)).

Definition state (s : string) : reply SplunkJobStatusData :=
  Resolved (mkStatusData (Some [mkEntry (Some (mkContent None (Some s)))])).

Definition doneFlag (b : bool) : reply SplunkJobStatusData :=
  Resolved (mkStatusData (Some [mkEntry (Some (mkContent (Some b) None))])).

Definition page (rows : list record) : reply SplunkResultsData :=
  Resolved (mkResultsData (Some rows) None).

(** [n] rows [{host: "h"}]. *)
Definition rowsOf (n : nat) : list record := repeat [("host", JStr "h")] n.

Definition noOptions : SplunkDataSourceOptions :=
  mkOptions None None None None None None None None.

End Scripted.

(* ===================================================================== *)
(** ** Interpolation: the formatter *)
(* ===================================================================== *)

Module InterpolationFacts.

Import Interpolation.
Local Open Scope string_scope.

(** What [escapeSplunkValue] writes for one character. *)
Definition escapedChar (c : ascii) : string :=
  if Ascii.eqb c dquote || Ascii.eqb c backslash
  then String backslash (String c EmptyString)
  else String c EmptyString.

(** Reading an escaped text back: a backslash is dropped and the character
    after it is kept as it is. *)
Fixpoint unescape (s : string) : string :=
  match s with
  | EmptyString => EmptyString
  | String c r =>
      if Ascii.eqb c backslash then
        match r with
        | String d r' => String d (unescape r')
        | EmptyString => EmptyString
        end
      else String c (unescape r)
  end.

(** A double quote that no backslash protects, or a backslash with nothing
    after it: what would end a quoted literal early. *)
Fixpoint bareQuote (s : string) : bool :=
  match s with
  | EmptyString => false
  | String c r =>
      if Ascii.eqb c backslash then
        match r with
        | String _ r' => bareQuote r'
        | EmptyString => true
        end
      else if Ascii.eqb c dquote then true
      else bareQuote r
  end.

Lemma concat_cons_empty (x : string) (l : list string) :
  String.concat "" (x :: l) = (x ++ String.concat "" l)%string.
Proof.
  destruct l as [|y l]; cbn; [|reflexivity].
  induction x as [|c x IH]; cbn; [reflexivity | now rewrite <- IH].
Qed.

Lemma escape_flat_map (s : string) :
  escapeSplunkValue s
  = String.concat "" (map escapedChar (list_ascii_of_string s)).
Proof.
  induction s as [|c r IH]; [reflexivity|].
  cbn [list_ascii_of_string map escapeSplunkValue].
  rewrite concat_cons_empty, <- IH. unfold escapedChar.
  destruct (Ascii.eqb c dquote || Ascii.eqb c backslash); reflexivity.
Qed.

Lemma escape_app (s t : string) :
  escapeSplunkValue (s ++ t) = escapeSplunkValue s ++ escapeSplunkValue t.
Proof.
  induction s as [|c r IH]; [reflexivity|].
  cbn. rewrite IH.
  destruct (Ascii.eqb c dquote || Ascii.eqb c backslash); reflexivity.
Qed.

(** Nothing is stripped: the value can be read back. *)
Lemma unescape_escape (s : string) : unescape (escapeSplunkValue s) = s.
Proof.
  induction s as [|c r IH]; [reflexivity|].
  cbn [escapeSplunkValue].
  destruct (Ascii.eqb c dquote || Ascii.eqb c backslash) eqn:E.
  - cbn. now rewrite IH.
  - apply orb_false_iff in E as [_ E]. cbn. rewrite E. now rewrite IH.
Qed.

(** An escaped value cannot close the literal it is embedded in. *)
Lemma escape_no_bareQuote (s : string) : bareQuote (escapeSplunkValue s) = false.
Proof.
  induction s as [|c r IH]; [reflexivity|].
  cbn [escapeSplunkValue].
  destruct (Ascii.eqb c dquote || Ascii.eqb c backslash) eqn:E.
  - cbn. exact IH.
  - apply orb_false_iff in E as [E1 E2]. cbn. now rewrite E1, E2.
Qed.

(** C3. The formatter of the variable interpolation maps [null] (and
    [undefined]) to the empty string; a single string to itself with every
    backslash and double quote preceded by a backslash and no quote
    added; an array of two or more elements to the parenthesised
    [OR]-list of its elements, each escaped and put in double quotes; an
    array of one element to that element escaped and quoted.  The value
    [a"b] becomes [a\"b]. *)
Theorem formatter_spec :
  formatter JNull = EmptyString
  /\ formatter JUndefined = EmptyString
  /\ (forall s : string,
        formatter (JStr s)
        = String.concat "" (map escapedChar (list_ascii_of_string s)))
  /\ (forall (v1 v2 : jsval) (vs : list jsval),
        formatter (JArr (v1 :: v2 :: vs))
        = ("(" ++ join " OR "
                    (map (fun v => String dquote
                                     (formatter (JStr (ToString v))
                                      ++ String dquote EmptyString))
                         (v1 :: v2 :: vs))
           ++ ")")%string)
  /\ (forall v : jsval,
        formatter (JArr [v])
        = String dquote (formatter (JStr (ToString v))
                         ++ String dquote EmptyString)%string)
  /\ formatter (JStr (String "a" (String dquote "b")))
     = String "a" (String backslash (String dquote "b")).
Proof.
  repeat split; try reflexivity.
  intros s. cbn [formatter ToString]. apply escape_flat_map.
Qed.

End InterpolationFacts.

(* ===================================================================== *)
(** ** Reasoning about runs *)
(* ===================================================================== *)

Module MonadFacts.

Import DataSource.

Section Facts.

Variable P : Platform.


(** The clock always answers and leaves the trace alone. *)
Lemma dateNow_run (st : St P) :
  dateNow P st
  = (Ret (fst (Date_now P (world P st))),
     mkSt P (snd (Date_now P (world P st))) (trace P st)).
Proof.
  unfold dateNow. destruct (Date_now P (world P st)); reflexivity.
Qed.

End Facts.

End MonadFacts.

(* ===================================================================== *)
(** ** The job controller *)
(* ===================================================================== *)

Module JobFacts.

Import DataSource.

(** A status check that was answered and did not report completion: the
    loop sleeps and polls again. *)
Definition pending (r : reply SplunkJobStatusData) : bool :=
  match r with
  | Resolved d => negb (jobDone d)
  | Rejected _ => false
  end.

(** The events of one iteration of the poll loop. *)
Definition pollEvents (job : string) (pollMs : Z)
  (r : reply SplunkJobStatusData) : list event :=
  EvJobStatus job r :: (if pending r then [EvSleep pollMs] else []).

(** The first entry of the status payload carries a true completion flag,
    or one of the dispatch states [DONE], [PAUSED], [FINALIZING]. *)
Definition completionReported (d : SplunkJobStatusData) : Prop :=
  exists (e : JobEntry) (rest : list JobEntry) (c : JobContent),
    entry d = Some (e :: rest) /\ content e = Some c /\
    (isDone c = Some true
     \/ dispatchState c = Some "DONE"
     \/ dispatchState c = Some "PAUSED"
     \/ dispatchState c = Some "FINALIZING").

(** The same with the state names in lower case, as the prose has them. *)
Definition completionReportedLowerCase (d : SplunkJobStatusData) : Prop :=
  exists (e : JobEntry) (rest : list JobEntry) (c : JobContent),
    entry d = Some (e :: rest) /\ content e = Some c /\
    (isDone c = Some true
     \/ dispatchState c = Some "done"
     \/ dispatchState c = Some "paused"
     \/ dispatchState c = Some "finalizing").

Definition isSleep (ev : event) : option Z :=
  match ev with EvSleep ms => Some ms | _ => None end.

(** The number of status checks in a trace. *)
Definition statusChecks (tr : list event) : nat :=
  List.length (filter (fun ev => match ev with EvJobStatus _ _ => true | _ => false end) tr).

Section Facts.

Variable P : Platform.

Lemma jobDone_iff (d : SplunkJobStatusData) :
  jobDone d = true <-> completionReported d.
Proof.
  unfold jobDone, completionReported.
  destruct d as [[[|e rest]|]]; cbn.
  1,3: split; [discriminate | intros (e & rest & c & H & _); discriminate].
  destruct (content e) as [c|] eqn:Hc.
  2:{ split; [discriminate|]. intros (e' & rest' & c & H & Hc' & _).
      injection H as <- <-. congruence. }
  split.
  - intros H. exists e, rest, c. repeat split; trivial.
    repeat rewrite orb_true_iff in H.
    destruct H as [[[H|H]|H]|H].
    + left. destruct (isDone c) as [[|]|]; trivial; discriminate.
    + right; left. destruct (dispatchState c) as [x|]; [|discriminate].
      apply String.eqb_eq in H. now subst.
    + right; right; left. destruct (dispatchState c) as [x|]; [|discriminate].
      apply String.eqb_eq in H. now subst.
    + right; right; right. destruct (dispatchState c) as [x|]; [|discriminate].
      apply String.eqb_eq in H. now subst.
  - intros (e' & rest' & c' & H & Hc' & Hd).
    injection H as <- <-. rewrite Hc in Hc'. injection Hc' as <-.
    destruct Hd as [H|[H|[H|H]]]; rewrite H; cbn;
      repeat rewrite orb_true_r; reflexivity.
Qed.

Lemma statusChecks_pollEvents (job : string) (pollMs : Z)
  (checks : list (reply SplunkJobStatusData)) :
  statusChecks (flat_map (pollEvents job pollMs) checks) = List.length checks.
Proof.
  unfold statusChecks. induction checks as [|r checks IH]; [reflexivity|].
  cbn [flat_map]. rewrite filter_app, length_app, IH.
  unfold pollEvents. destruct (pending r); reflexivity.
Qed.

(** One status check: the request is recorded with its reply; a rejection
    is thrown. *)
Lemma isJobDone_run (job : string) (st : St P) :
  isJobDone P job st
  = let (r, w) := getJobStatus P job (world P st) in
    (match r with
     | Resolved d => Ret (jobDone d)
     | Rejected e => Throw e
     end,
     mkSt P w (trace P st ++ [EvJobStatus job r])).
Proof.
  unfold isJobDone. destruct (getJobStatus P job (world P st)) as [[d|e] w];
    reflexivity.
Qed.

Inductive pollResult (n : nat) (checks : list (reply SplunkJobStatusData))
  : outcome unit -> Prop :=
| PollDone (before : list (reply SplunkJobStatusData)) (d : SplunkJobStatusData) :
    checks = before ++ [Resolved d] -> jobDone d = true ->
    forallb pending before = true ->
    pollResult n checks (Ret tt)
| PollTimeout :
    List.length checks = n -> forallb pending checks = true ->
    pollResult n checks (Throw pollTimeoutError)
| PollRejected (before : list (reply SplunkJobStatusData)) (e : exn) :
    checks = before ++ [Rejected e] ->
    forallb pending before = true ->
    pollResult n checks (Throw e).

(** One iteration of the poll loop. *)
Lemma pollLoop_step (job : string) (pollMs : Z) (n : nat) (st : St P) :
  pollLoop P job pollMs (S n) st
  = let (r, w) := getJobStatus P job (world P st) in
    let st1 := mkSt P w (trace P st ++ [EvJobStatus job r]) in
    match r with
    | Rejected e => (Throw e, st1)
    | Resolved d =>
        if jobDone d then (Ret tt, st1)
        else pollLoop P job pollMs n
               (mkSt P (setTimeout P pollMs w)
                       (trace P st1 ++ [EvSleep pollMs]))
    end.
Proof.
  cbn [pollLoop]. unfold bind at 1. rewrite isJobDone_run.
  destruct (getJobStatus P job (world P st)) as [[d|e] w]; [|reflexivity].
  cbn zeta. destruct (jobDone d); reflexivity.
Qed.

Lemma pollLoop_spec (job : string) (pollMs : Z) (n : nat) (st : St P) :
  exists checks : list (reply SplunkJobStatusData),
    trace P (snd (pollLoop P job pollMs n st))
    = trace P st ++ flat_map (pollEvents job pollMs) checks
    /\ List.length checks <= n
    /\ pollResult n checks (fst (pollLoop P job pollMs n st)).
Proof.
  revert st. induction n as [|n IH]; intros st.
  - exists []. cbn. rewrite app_nil_r. repeat split; trivial.
    now apply PollTimeout.
  - rewrite pollLoop_step.
    destruct (getJobStatus P job (world P st)) as [[d|e] w] eqn:Hreq; cbn zeta.
    + destruct (jobDone d) eqn:Hd.
      * exists [Resolved d]. cbn [flat_map snd fst trace].
        unfold pollEvents, pending. rewrite Hd.
        cbn [negb app List.length]. repeat split; [lia|].
        now apply (PollDone _ _ [] d).
      * match goal with |- context [pollLoop P job pollMs n ?s] => set (st1 := s) end.
        destruct (IH st1) as (checks & Htr & Hlen & Hres).
        exists (Resolved d :: checks). cbn [flat_map].
        unfold pollEvents at 1, pending at 1. rewrite Hd. cbn [negb].
        repeat split.
        -- rewrite Htr. subst st1. cbn [trace]. now rewrite <- !app_assoc.
        -- cbn. lia.
        -- inversion Hres as [before d0 Hc Hd0 Hb Ho|Hl Hb Ho|before e Hc Hb Ho].
           ++ apply (PollDone _ _ (Resolved d :: before) d0); trivial.
              ** now rewrite Hc.
              ** cbn. now rewrite Hd.
           ++ apply PollTimeout; cbn; [lia | now rewrite Hd].
           ++ apply (PollRejected _ _ (Resolved d :: before) e); trivial.
              ** now rewrite Hc.
              ** cbn. now rewrite Hd.
    + exists [Rejected e]. cbn [flat_map snd fst trace].
      unfold pollEvents, pending. cbn [app List.length]. repeat split; [lia|].
      now apply (PollRejected _ _ [] e).
Qed.

(** The loop test [i < maxPolls] holds for the integers below [maxPolls]
    rounded up. *)
Lemma pollBudget_index (maxPolls : Q) (i : Z) :
  (i < Qceiling maxPolls)%Z <-> (inject_Z i < maxPolls)%Q.
Proof.
  split; intros H.
  - apply Qle_lt_trans with (inject_Z (Qceiling maxPolls - 1)).
    + rewrite <- Zle_Qle. lia.
    + apply Qceiling_lt.
  - rewrite Zlt_Qlt. apply Qlt_le_trans with maxPolls; [exact H|].
    apply Qle_ceiling.
Qed.

(** The effective budget in whole checks: the configured budget rounded
    up, at least 1. *)
Lemma effMaxPolls_ceiling (opts : SplunkDataSourceOptions) :
  Qceiling (effMaxPolls opts)
  = Z.max 1 (Qceiling (orDefault (maxPolls opts) 30%Q)).
Proof.
  unfold effMaxPolls. set (q := orDefault (maxPolls opts) 30%Q).
  unfold Qmax, GenericMinMax.gmax.
  destruct (Qcompare 1 q) eqn:E.
  - apply Qeq_alt in E. rewrite <- (Qceiling_comp _ _ E). reflexivity.
  - apply Qlt_alt in E.
    assert (1 < Qceiling q)%Z; [|lia].
    rewrite Zlt_Qlt. apply Qlt_le_trans with q; [exact E | apply Qle_ceiling].
  - apply Qgt_alt in E.
    assert (Qceiling q <= 1)%Z; [|change (Qceiling 1) with 1%Z; lia].
    change 1%Z with (Qceiling 1). apply Qceiling_resp_le. now apply Qlt_le_weak.
Qed.

Lemma pollBudget_positive (opts : SplunkDataSourceOptions) :
  Z.of_nat (pollBudget (effMaxPolls opts)) = Qceiling (effMaxPolls opts)
  /\ (1 <= Qceiling (effMaxPolls opts))%Z.
Proof.
  unfold pollBudget. rewrite effMaxPolls_ceiling. lia.
Qed.

(** C4 (amended). [waitForJob] performs at most as many status checks as
    there are integers [i >= 0] below [maxPolls], the effective budget
    [max(1, configured)] ([30] when none is configured): that is
    [maxPolls] rounded up, and [maxPolls] itself when it is an integer.
    It sleeps after each answered check that does not report completion.
    A check reports completion exactly when the first entry of the status
    payload carries a true completion flag or the dispatch state [DONE],
    [PAUSED] or [FINALIZING], in upper case.  The call returns as soon as
    a check reports completion; when every check is answered and none
    reports completion, exactly that many checks occur and the call fails
    with the poll-timeout error; a rejected status request ends the loop
    with that rejection. *)
Theorem waitForJob_polls (opts : SplunkDataSourceOptions) (job : string)
  (st : St P) :
  let budget := Qceiling (effMaxPolls opts) in
  (forall d : SplunkJobStatusData, jobDone d = true <-> completionReported d)
  /\ (forall i : Z, (i < budget)%Z <-> (inject_Z i < effMaxPolls opts)%Q)
  /\ budget = Z.max 1 (Qceiling (orDefault (maxPolls opts) 30%Q))
  /\ (forall n : Z, maxPolls opts = Some (inject_Z n) -> (1 <= n)%Z -> budget = n)
  /\ exists checks : list (reply SplunkJobStatusData),
       trace P (snd (waitForJob P opts job st))
       = trace P st ++ flat_map (pollEvents job (effPollMs opts)) checks
       /\ statusChecks (flat_map (pollEvents job (effPollMs opts)) checks)
          = List.length checks
       /\ (Z.of_nat (List.length checks) <= budget)%Z
       /\ ((fst (waitForJob P opts job st) = Ret tt
            /\ exists before d,
                 checks = before ++ [Resolved d]
                 /\ completionReported d
                 /\ forallb pending before = true)
           \/ (fst (waitForJob P opts job st) = Throw pollTimeoutError
               /\ Z.of_nat (List.length checks) = budget
               /\ forallb pending checks = true)
           \/ (exists before e,
                 fst (waitForJob P opts job st) = Throw e
                 /\ checks = before ++ [Rejected e]
                 /\ forallb pending before = true)).
Proof.
  cbv zeta. split; [exact jobDone_iff|].
  split; [intros i; apply pollBudget_index|].
  split; [apply effMaxPolls_ceiling|].
  split.
  { intros n Hn Hpos. rewrite effMaxPolls_ceiling, Hn. cbn [orDefault].
    rewrite Qceiling_Z. lia. }
  unfold waitForJob.
  destruct (pollBudget_positive opts) as [Hbudget Hpos].
  destruct (pollLoop_spec job (effPollMs opts) (pollBudget (effMaxPolls opts)) st)
    as (checks & Htr & Hlen & Hres).
  exists checks. split; [exact Htr|].
  split; [apply statusChecks_pollEvents|]. split; [lia|].
  inversion Hres as [before d Hc Hd Hb Ho|Hl Hb Ho|before e Hc Hb Ho].
  - left. split; [reflexivity|]. exists before, d.
    repeat split; trivial. now apply jobDone_iff.
  - right; left. repeat split; trivial. lia.
  - right; right. exists before, e. repeat split; trivial.
Qed.

End Facts.

End JobFacts.

Module JobExamples.

Import DataSource JobFacts.

(** C4, as stated, fails.  A status payload whose dispatch state is the
    lower-case [done] is not taken as completion: with a budget of one
    poll, the single check carries that state, and [waitForJob] sleeps and
    fails with the poll-timeout error.  And the budget is a number of the
    configuration that the code does not round: with [maxPolls] 2.5, a job
    that stays [RUNNING] is checked three times, more than [maxPolls],
    before the poll-timeout error. *)
Lemma waitForJob_lower_case_state :
  let onePoll := mkOptions None None None None None (Some 1%Q) None None in
  let fractional := mkOptions None None None None None (Some 2.5%Q) None None in
  let payload := mkStatusData (Some [mkEntry (Some (mkContent None (Some "done")))]) in
  let run := waitForJob Scripted.platform onePoll "sid"
               (Scripted.start (Scripted.mkWorld [] [Resolved payload] [] 0)) in
  let run' := waitForJob Scripted.platform fractional "sid"
                (Scripted.start
                   (Scripted.mkWorld [] (repeat (Scripted.state "RUNNING") 5) [] 0)) in
  completionReportedLowerCase payload
  /\ fst run = Throw pollTimeoutError
  /\ trace _ (snd run) = [EvJobStatus "sid" (Resolved payload); EvSleep 1000%Z]
  /\ effMaxPolls fractional = 2.5%Q
  /\ fst run' = Throw pollTimeoutError
  /\ statusChecks (trace _ (snd run')) = 3.
Proof.
  cbv zeta. split; [|repeat split; reflexivity].
  eexists _, _, _. split; [reflexivity|]. split; [reflexivity|].
  right; left; reflexivity.
Qed.

End JobExamples.

(* ===================================================================== *)
(** ** The result paginator and the row mapper *)
(* ===================================================================== *)

Module PaginationFacts.

Import DataSource.

(** When the loop issues no further fetch after a page of [rows], with
    [totalBefore] rows fetched before it: the page is empty, or the running
    total reaches a positive row cap, or the page is shorter than the
    requested size. *)
Definition stopsFetching (pageSize maxRows totalBefore : Z)
  (rows : list record) : Prop :=
  rows = []
  \/ (0 < maxRows /\ maxRows <= totalBefore + lengthZ rows)%Z
  \/ (lengthZ rows < pageSize)%Z.

(** The platform fields a row may take its host and its message from, in
    the order they are tried. *)
Definition hostFields : list string := ["host"; "sourceHost"; "hosts"].
Definition messageFields : list string := ["_raw"; "message"; "_msg"].

(** The first field of [names] that [r] has with a value other than
    [null] and [undefined]; the empty string when there is none. *)
Fixpoint firstPresent (r : record) (names : list string) : jsval :=
  match names with
  | [] => JStr ""
  | n :: rest =>
      if isNullish (getField r n) then firstPresent r rest else getField r n
  end.

Section Facts.

Variable P : Platform.

Lemma fetchResults_run (job : string) (count offset : Z) (st : St P) :
  fetchResults P job count offset st
  = let (r, w) := getResults P job count offset (world P st) in
    (match r with
     | Resolved d => Ret d
     | Rejected e => Throw e
     end,
     mkSt P w (trace P st ++ [EvResults job count offset r])).
Proof.
  unfold fetchResults.
  destruct (getResults P job count offset (world P st)) as [[d|e] w];
    reflexivity.
Qed.

(** The time of a row: the parsed [_time] unless it is [NaN] or zero, else
    a reading of the clock. *)
Lemma rowTime_run (r : record) (st : St P) :
  rowTime P r st
  = match Date_parse P (ToString (getField r "_time")) with
    | Some t =>
        if (t =? 0)%Z
        then (Ret (fst (Date_now P (world P st))),
              mkSt P (snd (Date_now P (world P st))) (trace P st))
        else (Ret t, st)
    | None => (Ret (fst (Date_now P (world P st))),
               mkSt P (snd (Date_now P (world P st))) (trace P st))
    end.
Proof.
  unfold rowTime, dateNow, ret.
  destruct (Date_parse P _) as [t|]; [destruct (t =? 0)%Z|];
    trivial; destruct (Date_now P (world P st)); reflexivity.
Qed.

Lemma rowHost_firstPresent (r : record) : rowHost r = firstPresent r hostFields.
Proof.
  unfold rowHost, coalesce, hostFields. cbn [firstPresent].
  repeat match goal with |- context [isNullish ?v] => destruct (isNullish v) end;
    reflexivity.
Qed.

Lemma rowMessage_firstPresent (r : record) :
  rowMessage r = firstPresent r messageFields.
Proof.
  unfold rowMessage, coalesce, messageFields. cbn [firstPresent].
  repeat match goal with |- context [isNullish ?v] => destruct (isNullish v) end;
    reflexivity.
Qed.

(** Mapping a row always yields a row; it issues no request. *)
Lemma mapRow_run (r : record) (st : St P) :
  exists (t : Z) (st' : St P),
    mapRow P r st
    = (Ret [("time", JNum t); ("host", rowHost r); ("message", rowMessage r)], st')
    /\ rowTime P r st = (Ret t, st')
    /\ trace P st' = trace P st.
Proof.
  unfold mapRow, bind, ret. rewrite rowTime_run.
  destruct (Date_parse P _) as [t|]; [destruct (t =? 0)%Z|];
    eexists _, _; repeat split.
Qed.

Lemma addRows_run (rows : list record) (table : DataFrame) (st : St P) :
  exists (added : list record) (st' : St P),
    addRows P rows table st
    = (Ret (mkDataFrame (df_refId table) (df_fields table)
                        (df_rows table ++ added)), st')
    /\ List.length added = List.length rows
    /\ trace P st' = trace P st.
Proof.
  revert table st. induction rows as [|r rows IH]; intros table st.
  - exists [], st. cbn. rewrite app_nil_r. destruct table; repeat split.
  - cbn [addRows]. unfold bind at 1.
    destruct (mapRow_run r st) as (t & st1 & Hrun & _ & Htr). rewrite Hrun.
    cbv beta iota.
    match goal with
    | |- context [addRows P rows ?tb ?s] =>
        destruct (IH tb s) as (added & st2 & Hrun2 & Hlen & Htr2);
        rewrite Hrun2
    end.
    exists ([("time", JNum t); ("host", rowHost r); ("message", rowMessage r)]
            :: added), st2.
    cbn [df_refId df_fields df_rows].
    rewrite <- app_assoc. cbn [app List.length].
    repeat split; [lia | congruence].
Qed.

Lemma lengthZ_zero {A : Type} (l : list A) : (lengthZ l =? 0)%Z = true <-> l = [].
Proof.
  unfold lengthZ. destruct l; cbn; split; trivial; discriminate.
Qed.

(** One iteration of the pagination loop. *)
Lemma pageLoop_step (fuel : nat) (job : string) (pageSize maxRows : Z)
  (offset totalAdded : Z) (table : DataFrame) (st : St P) :
  exists (r : reply SplunkResultsData) (w : World P),
    getResults P job pageSize offset (world P st) = (r, w)
    /\ let st1 := mkSt P w (trace P st ++ [EvResults job pageSize offset r]) in
       match r with
       | Rejected e =>
           pageLoop P (S fuel) job pageSize maxRows offset totalAdded table st
           = (Throw e, st1)
       | Resolved res =>
           let rows := orDefault (results res) [] in
           exists (table' : DataFrame) (st2 : St P),
             addRows P rows table st1 = (Ret table', st2)
             /\ trace P st2 = trace P st1
             /\ (stopsFetching pageSize maxRows totalAdded rows ->
                 pageLoop P (S fuel) job pageSize maxRows offset totalAdded table st
                 = (Ret table', st2))
             /\ (~ stopsFetching pageSize maxRows totalAdded rows ->
                 pageLoop P (S fuel) job pageSize maxRows offset totalAdded table st
                 = pageLoop P fuel job pageSize maxRows
                     (offset + lengthZ rows) (totalAdded + lengthZ rows) table' st2)
       end.
Proof.
  destruct (getResults P job pageSize offset (world P st)) as [r w] eqn:Hreq.
  exists r, w. split; [reflexivity|]. cbv zeta.
  cbn [pageLoop]. unfold bind at 1 3 5. rewrite fetchResults_run, Hreq.
  destruct r as [res|e]; [|reflexivity].
  set (rows := orDefault (results res) []).
  set (st1 := mkSt P w _).
  destruct (addRows_run rows table st1) as (added & st2 & Hadd & Hlen & Htr).
  eexists _, st2. split; [exact Hadd|]. split; [exact Htr|].
  unfold stopsFetching.
  destruct (lengthZ rows =? 0)%Z eqn:Hempty.
  - apply lengthZ_zero in Hempty.
    assert (Hadded : added = []) by (destruct added; [trivial|]; subst rows;
                                     rewrite Hempty in Hlen; discriminate).
    rewrite Hempty in Hadd. cbn in Hadd. injection Hadd as Ht Hs.
    split; [|intros Hn; exfalso; apply Hn; now left].
    intros _. unfold ret. f_equal; trivial.
    rewrite Hadded, app_nil_r. now destruct table.
  - assert (Hne : rows <> []).
    { intros H. apply lengthZ_zero in H. congruence. }
    unfold bind. rewrite Hadd.
    destruct ((0 <? maxRows)%Z && (maxRows <=? totalAdded + lengthZ rows)%Z) eqn:Hcap.
    + split; [reflexivity|]. intros Hn. exfalso. apply Hn. right; left.
      apply andb_true_iff in Hcap as [H1 H2]. lia.
    + destruct (lengthZ rows <? pageSize)%Z eqn:Hshort.
      * split; [reflexivity|]. intros Hn. exfalso. apply Hn. right; right. lia.
      * split; [|reflexivity]. intros [H|[[H1 H2]|H]]; [contradiction| |lia].
        apply andb_false_iff in Hcap as [Hc|Hc]; lia.
Qed.

(** C5. Pagination starts at offset 0 and a total of 0, with the
    configured page size clamped into [1, 5000] (zero and negative sizes
    become 1, sizes above 5000 become 5000, 200 when none is configured)
    and the configured row cap (negative caps become 0, 2000 when none is
    configured).  Each iteration issues one fetch of that size at the
    current offset.  After a fetched page the loop issues no further fetch
    exactly when the page is empty, or the running total reaches the
    positive row cap (a cap of 0 never stops it), or the page is shorter
    than the requested size; otherwise the offset and the total advance by
    the number of rows fetched and the loop goes on. *)
Theorem pagination_spec (opts : SplunkDataSourceOptions) :
  (1 <= effPageSize opts <= 5000)%Z
  /\ (pageSize opts = None -> effPageSize opts = 200%Z)
  /\ (forall n : Z, pageSize opts = Some n -> (n <= 0)%Z -> effPageSize opts = 1%Z)
  /\ (forall n : Z, pageSize opts = Some n -> (1 <= n <= 5000)%Z ->
                    effPageSize opts = n)
  /\ (forall n : Z, pageSize opts = Some n -> (5000 <= n)%Z ->
                    effPageSize opts = 5000%Z)
  /\ (maxRows opts = None -> effMaxRows opts = 2000%Z)
  /\ (forall n : Z, maxRows opts = Some n -> (0 <= n)%Z -> effMaxRows opts = n)
  /\ (forall n : Z, maxRows opts = Some n -> (n <= 0)%Z -> effMaxRows opts = 0%Z)
  /\ (forall (fuel : nat) (rng : TimeRange) (ref q : string),
        runTarget P fuel opts rng ref q
        = bind P (createSearchJob P q (toSplunkTimeISO P (from rng))
                                      (toSplunkTimeISO P (to rng)))
            (fun job =>
               bind P (waitForJob P opts job)
                 (fun _ => pageLoop P fuel job (effPageSize opts) (effMaxRows opts)
                             0 0 (emptyTable ref))))
  /\ (forall (fuel : nat) (job : string) (maxRows offset totalAdded : Z)
             (table : DataFrame) (st : St P),
        exists (r : reply SplunkResultsData) (w : World P),
          getResults P job (effPageSize opts) offset (world P st) = (r, w)
          /\ let st1 := mkSt P w (trace P st
                                  ++ [EvResults job (effPageSize opts) offset r]) in
             match r with
             | Rejected e =>
                 pageLoop P (S fuel) job (effPageSize opts) maxRows
                          offset totalAdded table st
                 = (Throw e, st1)
             | Resolved res =>
                 let rows := orDefault (results res) [] in
                 exists (table' : DataFrame) (st2 : St P),
                   addRows P rows table st1 = (Ret table', st2)
                   /\ trace P st2 = trace P st1
                   /\ (stopsFetching (effPageSize opts) maxRows totalAdded rows ->
                       pageLoop P (S fuel) job (effPageSize opts) maxRows
                                offset totalAdded table st
                       = (Ret table', st2))
                   /\ (~ stopsFetching (effPageSize opts) maxRows totalAdded rows ->
                       pageLoop P (S fuel) job (effPageSize opts) maxRows
                                offset totalAdded table st
                       = pageLoop P fuel job (effPageSize opts) maxRows
                           (offset + lengthZ rows) (totalAdded + lengthZ rows)
                           table' st2)
             end).
Proof.
  assert (Hps : forall n, pageSize opts = Some n ->
                          effPageSize opts = Z.max 1 (Z.min n 5000))
    by (intros n Hn; unfold effPageSize; now rewrite Hn).
  assert (Hmr : forall n, maxRows opts = Some n -> effMaxRows opts = Z.max 0 n)
    by (intros n Hn; unfold effMaxRows; now rewrite Hn).
  split; [unfold effPageSize; lia|].
  split; [intros Hn; unfold effPageSize; now rewrite Hn|].
  split; [intros n Hn Hle; rewrite (Hps n Hn); lia|].
  split; [intros n Hn Hle; rewrite (Hps n Hn); lia|].
  split; [intros n Hn Hle; rewrite (Hps n Hn); lia|].
  split; [intros Hn; unfold effMaxRows; now rewrite Hn|].
  split; [intros n Hn Hle; rewrite (Hmr n Hn); lia|].
  split; [intros n Hn Hle; rewrite (Hmr n Hn); lia|].
  split; [reflexivity|].
  intros. apply pageLoop_step.
Qed.

(** With a positive row cap the loop ends whatever the engine answers:
    every page that does not stop it brings the total closer to the cap. *)
Lemma pageLoop_terminates (fuel : nat) (job : string) (pageSize maxRows : Z)
  (offset totalAdded : Z) (table : DataFrame) (st : St P) :
  (0 < maxRows)%Z ->
  (Z.to_nat (maxRows - totalAdded) < fuel)%nat ->
  fst (pageLoop P fuel job pageSize maxRows offset totalAdded table st)
  <> OutOfFuel.
Proof.
  intros Hcap. revert offset totalAdded table st.
  induction fuel as [|fuel IH]; intros offset totalAdded table st Hfuel; [lia|].
  destruct (pageLoop_step fuel job pageSize maxRows offset totalAdded table st)
    as (r & w & _ & Hstep).
  cbv zeta in Hstep. destruct r as [res|e].
  - destruct Hstep as (table' & st2 & _ & _ & Hstop & Hgo).
    set (rows := orDefault (results res) []) in *.
    assert (Hdec : stopsFetching pageSize maxRows totalAdded rows
                   \/ ~ stopsFetching pageSize maxRows totalAdded rows).
    { unfold stopsFetching. destruct rows as [|x rows']; [now left; left|].
      destruct (Z_lt_le_dec (totalAdded + lengthZ (x :: rows')) maxRows);
        destruct (Z_lt_le_dec (lengthZ (x :: rows')) pageSize);
        try (left; right; left; lia); try (left; right; right; lia).
      right. intros [H|[H|H]]; [discriminate | lia | lia]. }
    destruct Hdec as [Hs|Hn].
    + rewrite (Hstop Hs). discriminate.
    + rewrite (Hgo Hn). apply IH.
      assert (Hlen : (1 <= lengthZ rows)%Z).
      { destruct rows; [exfalso; apply Hn; now left|].
        unfold lengthZ. cbn [List.length]. lia. }
      assert (Hlt : (totalAdded + lengthZ rows < maxRows)%Z).
      { destruct (Z_lt_le_dec (totalAdded + lengthZ rows) maxRows); trivial.
        exfalso. apply Hn. right; left. lia. }
      lia.
  - rewrite Hstep. discriminate.
Qed.

(** The engine honours the requested page size. *)
Definition honoursCount : Prop :=
  forall (job : string) (count offset : Z) (w : World P),
    match fst (getResults P job count offset w) with
    | Resolved res => (lengthZ (orDefault (results res) []) <= count)%Z
    | Rejected _ => True
    end.

(** What the row cap does bound: the loop stops at the first page that
    takes the total to the cap, so the table holds fewer than
    [maxRows + pageSize] rows when no page is longer than asked for. *)
Lemma pageLoop_rows_bound (fuel : nat) (job : string) (pageSize maxRows : Z)
  (offset totalAdded : Z) (table table' : DataFrame) (st st' : St P) :
  honoursCount ->
  (0 < maxRows)%Z -> (totalAdded < maxRows)%Z ->
  pageLoop P fuel job pageSize maxRows offset totalAdded table st = (Ret table', st') ->
  exists added : list record,
    df_rows table' = df_rows table ++ added
    /\ (totalAdded + lengthZ added < maxRows + pageSize)%Z.
Proof.
  intros Hhon Hcap. revert offset totalAdded table st.
  induction fuel as [|fuel IH]; intros offset totalAdded table st Hlt Hrun;
    [discriminate|].
  destruct (pageLoop_step fuel job pageSize maxRows offset totalAdded table st)
    as (r & w & Hreq & Hstep).
  cbv zeta in Hstep. destruct r as [res|e]; [|congruence].
  destruct Hstep as (table1 & st2 & Hadd & _ & Hstop & Hgo).
  pose proof (Hhon job pageSize offset (world P st)) as Hcount.
  rewrite Hreq in Hcount. cbn [fst] in Hcount.
  set (rows := orDefault (results res) []) in *.
  destruct (addRows_run rows table (mkSt P w (trace P st ++ [EvResults job pageSize offset (Resolved res)])))
    as (added & st3 & Hadd' & Hlen & _).
  rewrite Hadd in Hadd'. injection Hadd' as -> ->.
  assert (Hlz : lengthZ added = lengthZ rows) by (unfold lengthZ; now rewrite Hlen).
  assert (Hdec : stopsFetching pageSize maxRows totalAdded rows
                 \/ ~ stopsFetching pageSize maxRows totalAdded rows).
  { unfold stopsFetching. destruct rows as [|x rows']; [now left; left|].
    destruct (Z_lt_le_dec (totalAdded + lengthZ (x :: rows')) maxRows);
      destruct (Z_lt_le_dec (lengthZ (x :: rows')) pageSize);
      try (left; right; left; lia); try (left; right; right; lia).
    right. intros [H|[H|H]]; [discriminate | lia | lia]. }
  destruct Hdec as [Hs|Hn].
  - rewrite (Hstop Hs) in Hrun. injection Hrun as <- <-.
    exists added. cbn [df_rows]. split; [reflexivity|]. lia.
  - rewrite (Hgo Hn) in Hrun.
    assert (Hlt' : (totalAdded + lengthZ rows < maxRows)%Z).
    { destruct (Z_lt_le_dec (totalAdded + lengthZ rows) maxRows); trivial.
      exfalso. apply Hn. right; left. lia. }
    destruct (IH _ _ _ _ Hlt' Hrun) as (more & Hrows & Hbound).
    cbn [df_rows] in Hrows.
    exists (added ++ more). rewrite Hrows, <- app_assoc. split; [reflexivity|].
    unfold lengthZ in *. rewrite length_app. lia.
Qed.

End Facts.

End PaginationFacts.

Module PaginationExamples.

Import DataSource PaginationFacts Scripted.

(** The page fetches of a trace, as (count, offset). *)
Definition fetches (tr : list event) : list (Z * Z) :=
  flat_map (fun ev => match ev with
                      | EvResults _ count offset _ => [(count, offset)]
                      | _ => []
                      end) tr.

(** The number of rows of each returned frame. *)
Definition rowCounts (o : outcome (list DataFrame)) : option (list nat) :=
  match o with
  | Ret frames => Some (map (fun f => List.length (df_rows f)) frames)
  | _ => None
  end.

(** C1 fails on the code.  With a row cap of 50 and a page size of 20,
    against an engine that serves full pages, [query] fetches at the
    offsets 0, 20 and 40 and returns a table of 60 rows: the cap is only
    compared with the total after a whole page was added. *)
Theorem query_exceeds_row_cap :
  let opts := mkOptions None None (Some 50%Z) (Some 20%Z) None None None None in
  let w := mkWorld [created "sid1"] [doneFlag true]
                   [page (rowsOf 20); page (rowsOf 20); page (rowsOf 20);
                    page (rowsOf 20); page (rowsOf 20)] 0 in
  let req := mkRequest platform (mkRange 0 1000)
                       [mkQuery "A" (Some "search index=main") None] JUndefined in
  let run := query platform 10 opts req (start w) in
  effMaxRows opts = 50%Z
  /\ rowCounts (fst run) = Some [60]
  /\ fetches (trace platform (snd run)) = [(20, 0); (20, 20); (20, 40)]%Z.
Proof. cbv zeta. repeat split; vm_compute; reflexivity. Qed.

(** C9 fails on the code.  A record whose [_time] is the epoch parses to
    the instant 0, which the [||] of the row mapper takes for a missing
    time: the row gets the clock reading instead. *)
Theorem mapRow_epoch_time :
  let r := [("_time", JStr "1970-01-01T00:00:00.000Z");
            ("host", JStr "web-1"); ("_raw", JStr "boot")] in
  let w := mkWorld [] [] [] 1756031696789 in
  Date_parse platform (ToString (getField r "_time")) = Some 0%Z
  /\ fst (mapRow platform r (start w))
     = Ret [("time", JNum 1756031696789); ("host", JStr "web-1");
            ("message", JStr "boot")].
Proof. cbv zeta. split; vm_compute; reflexivity. Qed.

(** The spec's own pagination example: the loop stops on a short page
    without a further request. *)
Example short_page_stops :
  let opts := mkOptions None None (Some 50%Z) (Some 20%Z) None None None None in
  let w := mkWorld [created "sid1"] [doneFlag true]
                   [page (rowsOf 20); page (rowsOf 7); page (rowsOf 20)] 0 in
  let req := mkRequest platform (mkRange 0 1000)
                       [mkQuery "A" (Some "search index=main") None] JUndefined in
  let run := query platform 10 opts req (start w) in
  rowCounts (fst run) = Some [27]
  /\ fetches (trace platform (snd run)) = [(20, 0); (20, 20)]%Z.
Proof. cbv zeta. split; vm_compute; reflexivity. Qed.

End PaginationExamples.

(* ===================================================================== *)
(** ** Clamping of the configured numbers *)
(* ===================================================================== *)

Module ClampFacts.

Import DataSource JobFacts PaginationFacts Guardrails.



Section Facts.

Variable P : Platform.






End Facts.

End ClampFacts.

(* ===================================================================== *)
(** ** The variable-list query *)
(* ===================================================================== *)

Module MetricFindFacts.

Import DataSource Guardrails PaginationFacts JobFacts.

(** [v] is neither [null], [undefined] nor the empty string. *)
Definition hasValue (v : jsval) : bool :=
  match v with
  | JUndefined | JNull => false
  | JStr s => negb (isEmpty s)
  | _ => true
  end.

(** The values of the first result field, row by row: a row without a
    value contributes nothing, any other row the pair (text, value) of its
    value as a string. *)
Definition firstFieldValues (res : SplunkResultsData) : list MetricFindValue :=
  let rows := orDefault (results res) [] in
  match firstFieldOf res rows with
  | None => []
  | Some field =>
      flat_map (fun r =>
                  let v := getField r field in
                  if hasValue v then [mkMetricFindValue (ToString v) (ToString v)]
                  else [])
               rows
  end.

(** The template handed to [metricFindQuery]. *)
Definition rawText (query : string + SplunkQuery) : string :=
  match query with
  | inl s => s
  | inr q => orDefault (queryText q) ""
  end.

Lemma keepValue_hasValue (v : jsval) : keepValue v = hasValue v.
Proof. destruct v; reflexivity. Qed.

Lemma metricValues_firstFieldValues (res : SplunkResultsData) :
  metricValues res = firstFieldValues res.
Proof.
  unfold metricValues, firstFieldValues.
  set (rows := orDefault (results res) []).
  destruct (lengthZ rows =? 0)%Z eqn:He.
  - apply lengthZ_zero in He. rewrite He.
    destruct (firstFieldOf res []); reflexivity.
  - destruct (firstFieldOf res rows) as [field|]; [|reflexivity].
    clear He. induction rows as [|r rows IH]; [reflexivity|].
    cbn [map filter flat_map]. rewrite keepValue_hasValue.
    destruct (hasValue (getField r field)); cbn [map app]; now rewrite IH.
Qed.

Section Facts.

Variable P : Platform.

Lemma createSearchJob_returns (search earliest latest : string) (st : St P) :
  (exists (job : string) (st' : St P),
     createSearchJob P search earliest latest st = (Ret job, st'))
  \/ (exists (e : exn) (st' : St P),
        createSearchJob P search earliest latest st = (Throw e, st')).
Proof.
  unfold createSearchJob.
  destruct (postJob P search earliest latest (world P st)) as [[d|e] w].
  - unfold bind, record_event, await, ret, throw.
    destruct (sid d) as [s|]; [destruct (isEmpty s)|];
      [right | left | right]; eexists _, _; reflexivity.
  - right. eexists _, _. reflexivity.
Qed.

Lemma waitForJob_returns (opts : SplunkDataSourceOptions) (job : string)
  (st : St P) :
  (exists st' : St P, waitForJob P opts job st = (Ret tt, st'))
  \/ (exists (e : exn) (st' : St P), waitForJob P opts job st = (Throw e, st')).
Proof.
  unfold waitForJob.
  destruct (pollLoop_spec P job (effPollMs opts) (pollBudget (effMaxPolls opts)) st)
    as (checks & _ & _ & Hres).
  destruct (pollLoop P job (effPollMs opts) (pollBudget (effMaxPolls opts)) st)
    as [o st'].
  cbn [fst] in Hres. inversion Hres; [left | right | right];
    eexists; try eexists; reflexivity.
Qed.

Lemma fetchResults_returns (job : string) (count offset : Z) (st : St P) :
  (exists (res : SplunkResultsData) (st' : St P),
     fetchResults P job count offset st = (Ret res, st'))
  \/ (exists (e : exn) (st' : St P),
        fetchResults P job count offset st = (Throw e, st')).
Proof.
  rewrite fetchResults_run.
  destruct (getResults P job count offset (world P st)) as [[d|e] w];
    [left | right]; eexists _, _; reflexivity.
Qed.

(** Once the guardrail evaluation has returned, [metricFindQuery] returns
    a list: every failure of job creation, polling and fetching is
    caught. *)
Lemma metricFindQuery_returns (opts : SplunkDataSourceOptions)
  (query : string + SplunkQuery) (st : St P) (validation : option string) :
  isQueryDangerous (Some (interpolateSPL P (rawText query) (emptyScopedVars P))) opts
  = Ret validation ->
  exists (values : list MetricFindValue) (st' : St P),
    metricFindQuery P opts query st = (Ret values, st')
    /\ (validation <> None -> values = [] /\ st' = st).
Proof.
  intros Hv. unfold metricFindQuery. fold (rawText query).
  unfold bind at 1, lift. rewrite Hv.
  destruct validation as [msg|].
  - assert (Hm : truthy (Some msg) = true).
    { unfold isQueryDangerous in Hv.
      destruct (String.length _ =? 0)%nat; [now injection Hv as <-|].
      destruct (isSet _); [discriminate|].
      destruct (compileBannedRegex opts) as [[re|]|e| |]; try discriminate.
      destruct (RegExp.test re _); [now injection Hv as <-|discriminate]. }
    rewrite Hm. exists [], st. split; [reflexivity|]. now intros _.
  - cbn [truthy]. unfold tryCatch, bind.
    set (q := interpolateSPL P (rawText query) (emptyScopedVars P)).
    destruct (createSearchJob_returns q "-15m" "now" st)
      as [(job & st1 & Hc)|(e & st1 & Hc)]; rewrite Hc.
    2:{ eexists _, _. split; [reflexivity|]. now intros H. }
    destruct (waitForJob_returns opts job st1) as [(st2 & Hw)|(e & st2 & Hw)];
      rewrite Hw.
    2:{ eexists _, _. split; [reflexivity|]. now intros H. }
    destruct (fetchResults_returns job 500 0 st2)
      as [(res & st3 & Hf)|(e & st3 & Hf)]; rewrite Hf.
    2:{ eexists _, _. split; [reflexivity|]. now intros H. }
    eexists _, _. split; [reflexivity|]. now intros H.
Qed.

(** C7 (amended). When the query passes the guardrails and the job is
    created, completes and its first page is fetched, [metricFindQuery]
    returns the values of the first result field as (text, value) pairs of
    strings, in the order of the rows, without the [null] and empty-string
    values; a value that occurs in several rows is returned once per
    row. *)
Theorem metricFindQuery_values (opts : SplunkDataSourceOptions)
  (query : string + SplunkQuery) (job : string) (res : SplunkResultsData)
  (st st1 st2 st3 : St P) :
  let qText := interpolateSPL P (rawText query) (emptyScopedVars P) in
  isQueryDangerous (Some qText) opts = Ret None ->
  createSearchJob P qText "-15m" "now" st = (Ret job, st1) ->
  waitForJob P opts job st1 = (Ret tt, st2) ->
  fetchResults P job 500 0 st2 = (Ret res, st3) ->
  metricFindQuery P opts query st = (Ret (firstFieldValues res), st3)
  /\ Forall (fun p => text p = value p) (firstFieldValues res).
Proof.
  intros qText Hv Hc Hw Hf. split.
  - unfold metricFindQuery. fold (rawText query). fold qText.
    unfold bind at 1, lift. rewrite Hv. cbn [truthy].
    unfold tryCatch, bind. rewrite Hc, Hw, Hf.
    unfold ret. now rewrite metricValues_firstFieldValues.
  - unfold firstFieldValues.
    destruct (firstFieldOf res _) as [field|]; [|constructor].
    induction (orDefault (results res) []) as [|r rows IH]; [constructor|].
    cbn [flat_map]. apply Forall_app. split; [|exact IH].
    destruct (hasValue _); repeat constructor.
Qed.

End Facts.

End MetricFindFacts.

Module MetricFindExamples.

Import DataSource Guardrails MetricFindFacts Scripted.

Definition fieldA (v : jsval) : record := [("a", v)].

(** A run of [metricFindQuery_values]: the guardrails pass, the job is
    created and done at the first check, and the page of five rows gives
    three values. *)
Lemma metricFindQuery_values_run :
  let w := mkWorld [created "sid1"] [doneFlag true]
                   [page [fieldA (JStr "x"); fieldA JNull; fieldA (JStr "");
                          fieldA (JStr "y"); fieldA (JStr "x")]] 0 in
  let q := "search index=main | stats count by a" in
  isQueryDangerous (Some q) noOptions = Ret None
  /\ fst (createSearchJob platform q "-15m" "now" (start w)) = Ret "sid1"
  /\ fst (metricFindQuery platform noOptions (inl q) (start w))
     = Ret [mkMetricFindValue "x" "x"; mkMetricFindValue "y" "y";
            mkMetricFindValue "x" "x"].
Proof.
  cbv zeta. split; [reflexivity|]. split; [reflexivity|].
  match goal with
  | |- fst (metricFindQuery _ _ ?q ?s) = _ =>
      erewrite (proj1 (metricFindQuery_values platform noOptions q "sid1" _ s _ _ _
                         eq_refl eq_refl eq_refl eq_refl))
  end.
  reflexivity.
Defined.

(** C7 fails as stated: a value that two rows carry is returned twice. *)
Lemma metricFindQuery_keeps_duplicates :
  let w := mkWorld [created "sid1"] [doneFlag true]
                   [page [fieldA (JStr "x"); fieldA (JStr "x")]] 0 in
  fst (metricFindQuery platform noOptions (inl "search index=main | table a")
         (start w))
  = Ret [mkMetricFindValue "x" "x"; mkMetricFindValue "x" "x"].
Proof. vm_compute. reflexivity. Qed.

(** C8 fails on the code.  With the deny-list line [(] the pattern built
    from the deny-list is not a regular expression: [new RegExp] throws in
    the guardrail evaluation, outside the [try] block, and
    [metricFindQuery] propagates the [SyntaxError] without having issued
    any request. *)
Theorem metricFindQuery_propagates_SyntaxError :
  let opts := mkOptions None None None None None None (Some "(") None in
  let w := mkWorld [created "sid1"] [doneFlag true] [page [fieldA (JStr "x")]] 0 in
  let run := metricFindQuery platform opts (inl "search index=main | table a")
               (start w) in
  bannedPattern (bannedParts opts) = "\b(()\b"
  /\ fst run = Throw (JsSyntaxError "\b(()\b")
  /\ trace platform (snd run) = [].
Proof. cbv zeta. repeat split; vm_compute; reflexivity. Qed.

End MetricFindExamples.

(* ===================================================================== *)
(** ** The query orchestrator *)
(* ===================================================================== *)

Module QueryFacts.

Import DataSource Guardrails PaginationFacts JobFacts MetricFindFacts.

(** The targets that are not hidden. *)
Definition visible (todo : list SplunkQuery) : list SplunkQuery :=
  filter (fun target => negb (isSet (hide target))) todo.

Section Facts.

Variable P : Platform.

(** The query text of a target after interpolation. *)
Definition finalText (req : DataQueryRequest P) (target : SplunkQuery) : string :=
  interpolateSPL P
    (if truthy (queryText target) then orDefault (queryText target) "" else "")
    (scopedVars P req).

(** With a positive row cap and fuel beyond it, the pagination returns the
    table it was given, extended, or throws. *)
Lemma pageLoop_returns (fuel : nat) (job : string) (pageSize maxRows : Z)
  (offset totalAdded : Z) (table : DataFrame) (st : St P) :
  (0 < maxRows)%Z ->
  (Z.to_nat (maxRows - totalAdded) < fuel)%nat ->
  (exists (table' : DataFrame) (st' : St P),
     pageLoop P fuel job pageSize maxRows offset totalAdded table st
     = (Ret table', st')
     /\ df_refId table' = df_refId table)
  \/ (exists (e : exn) (st' : St P),
        pageLoop P fuel job pageSize maxRows offset totalAdded table st
        = (Throw e, st')).
Proof.
  intros Hcap. revert offset totalAdded table st.
  induction fuel as [|fuel IH]; intros offset totalAdded table st Hfuel; [lia|].
  destruct (pageLoop_step P fuel job pageSize maxRows offset totalAdded table st)
    as (r & w & _ & Hstep).
  cbv zeta in Hstep. destruct r as [res|e].
  2:{ right. eexists _, _. exact Hstep. }
  destruct Hstep as (table1 & st2 & Hadd & _ & Hstop & Hgo).
  set (rows := orDefault (results res) []) in *.
  match type of Hadd with
  | addRows P rows table ?s = _ =>
      destruct (addRows_run P rows table s) as (added & st3 & Hadd' & _ & _)
  end.
  rewrite Hadd in Hadd'. injection Hadd' as -> ->.
  assert (Hdec : stopsFetching pageSize maxRows totalAdded rows
                 \/ ~ stopsFetching pageSize maxRows totalAdded rows).
  { unfold stopsFetching. destruct rows as [|x rows']; [now left; left|].
    destruct (Z_lt_le_dec (totalAdded + lengthZ (x :: rows')) maxRows);
      destruct (Z_lt_le_dec (lengthZ (x :: rows')) pageSize);
      try (left; right; left; lia); try (left; right; right; lia).
    right. intros [H|[H|H]]; [discriminate | lia | lia]. }
  destruct Hdec as [Hs|Hn].
  - left. eexists _, _. split; [exact (Hstop Hs) | reflexivity].
  - rewrite (Hgo Hn).
    assert (Hlen : (1 <= lengthZ rows)%Z).
    { destruct rows; [exfalso; apply Hn; now left|].
      unfold lengthZ. cbn [List.length]. lia. }
    assert (Hlt : (totalAdded + lengthZ rows < maxRows)%Z).
    { destruct (Z_lt_le_dec (totalAdded + lengthZ rows) maxRows); trivial.
      exfalso. apply Hn. right; left. lia. }
    match goal with
    | |- context [pageLoop P fuel job pageSize maxRows ?o ?t ?tb ?s] =>
        destruct (IH o t tb s ltac:(lia))
          as [(table' & st' & Hrun & Href)|(e & st' & Hrun)]
    end.
    + left. eexists _, _. split; [exact Hrun | exact Href].
    + right. eexists _, _. exact Hrun.
Qed.

(** The [try] block of one target yields the target's table or throws. *)
Lemma runTarget_returns (fuel : nat) (opts : SplunkDataSourceOptions)
  (rng : TimeRange) (ref q : string) (st : St P) :
  (0 < effMaxRows opts)%Z ->
  (Z.to_nat (effMaxRows opts) < fuel)%nat ->
  (exists (table : DataFrame) (st' : St P),
     runTarget P fuel opts rng ref q st = (Ret table, st')
     /\ df_refId table = ref)
  \/ (exists (e : exn) (st' : St P),
        runTarget P fuel opts rng ref q st = (Throw e, st')).
Proof.
  intros Hcap Hfuel. unfold runTarget, bind.
  destruct (createSearchJob_returns P q (toSplunkTimeISO P (from rng))
              (toSplunkTimeISO P (to rng)) st)
    as [(job & st1 & Hc)|(e & st1 & Hc)]; rewrite Hc.
  2:{ right. eexists _, _. reflexivity. }
  destruct (waitForJob_returns P opts job st1) as [(st2 & Hw)|(e & st2 & Hw)];
    rewrite Hw.
  2:{ right. eexists _, _. reflexivity. }
  destruct (pageLoop_returns fuel job (effPageSize opts) (effMaxRows opts) 0 0
              (emptyTable ref) st2 Hcap)
    as [(table & st3 & Hp & Href)|(e & st3 & Hp)]; [rewrite Z.sub_0_r; lia| |].
  - left. eexists _, _. split; [exact Hp | exact Href].
  - right. eexists _, _. exact Hp.
Qed.

(** What the orchestrator does when the guardrail evaluation returns for
    every target that is not hidden (the deny-list pattern is a regular
    expression of the model, or is never consulted), the row cap is
    positive and the fuel exceeds it: it pushes exactly one frame per such
    target, in the order of the targets, each under the target's
    [refId]. *)
Lemma queryTargets_one_frame_each (fuel : nat) (opts : SplunkDataSourceOptions)
  (req : DataQueryRequest P) (todo : list SplunkQuery)
  (frames : list DataFrame) (st : St P) :
  (0 < effMaxRows opts)%Z ->
  (Z.to_nat (effMaxRows opts) < fuel)%nat ->
  Forall (fun target =>
            exists validation : option string,
              isQueryDangerous (Some (finalText req target)) opts = Ret validation)
         (visible todo) ->
  exists (new : list DataFrame) (st' : St P),
    queryTargets P fuel opts req todo frames st = (Ret (frames ++ new), st')
    /\ map df_refId new = map refId (visible todo).
Proof.
  intros Hcap Hfuel. revert frames st.
  induction todo as [|target rest IH]; intros frames st Hall.
  - exists [], st. cbn. now rewrite app_nil_r.
  - cbn [queryTargets visible filter] in *. fold (visible rest) in *.
    destruct (isSet (hide target)) eqn:Hh; cbn [negb] in Hall.
    + now apply IH.
    + inversion Hall as [|x l [validation Hv] Hrest]; subst.
      fold (finalText req target). unfold bind at 1, lift. rewrite Hv.
      destruct (truthy validation).
      * unfold bind. rewrite MonadFacts.dateNow_run.
        match goal with
        | |- context [queryTargets P fuel opts req rest ?fr ?s] =>
            destruct (IH fr s Hrest) as (new & st' & Hrun & Hids)
        end.
        rewrite Hrun. eexists (_ :: new), st'. rewrite <- app_assoc.
        split; [reflexivity|]. cbn [map df_refId diagnosticFrame].
        now rewrite Hids.
      * unfold bind, tryCatch.
        destruct (runTarget_returns fuel opts (range P req) (refId target)
                    (finalText req target) st Hcap Hfuel)
          as [(table & st1 & Hrun & Href)|(e & st1 & Hrun)]; rewrite Hrun.
        -- match goal with
           | |- context [queryTargets P fuel opts req rest ?fr ?s] =>
               destruct (IH fr s Hrest) as (new & st' & Hrun' & Hids)
           end.
           rewrite Hrun'. eexists (_ :: new), st'. rewrite <- app_assoc.
           split; [reflexivity|]. cbn [map]. now rewrite Hids, Href.
        -- rewrite MonadFacts.dateNow_run. unfold ret.
           match goal with
           | |- context [queryTargets P fuel opts req rest ?fr ?s] =>
               destruct (IH fr s Hrest) as (new & st' & Hrun' & Hids)
           end.
           rewrite Hrun'. eexists (_ :: new), st'. rewrite <- app_assoc.
           split; [reflexivity|]. cbn [map df_refId diagnosticFrame].
           now rewrite Hids.
Qed.

End Facts.

End QueryFacts.

Module QueryExamples.

Import DataSource Guardrails Scripted.

(** C6 fails on the code.  With the deny-list line [(], the guardrail
    evaluation of the second target throws a [SyntaxError] outside the
    [try] block: [query] returns no frame at all, although the time-range
    check passed and the first target had already got its warning frame;
    the third target is never processed and no request is issued. *)
Theorem query_aborted_by_SyntaxError :
  let opts := mkOptions None None None None None None (Some "(") None in
  let w := mkWorld [created "sid1"; created "sid2"] [doneFlag true; doneFlag true]
                   [page (rowsOf 1); page (rowsOf 1)] 0 in
  let req := mkRequest platform (mkRange 0 1000)
                       [mkQuery "A" (Some "  ") None;
                        mkQuery "B" (Some "search index=main") None;
                        mkQuery "C" (Some "search index=web") None]
                       JUndefined in
  let run := query platform 10 opts req (start w) in
  rangeAllowed opts (range platform req) = true
  /\ isQueryDangerous (Some "  ") opts = Ret (Some emptyMessage)
  /\ isQueryDangerous (Some "search index=main") opts
     = Throw (JsSyntaxError "\b(()\b")
  /\ fst run = Throw (JsSyntaxError "\b(()\b")
  /\ trace platform (snd run) = [].
Proof. cbv zeta. repeat split; vm_compute; reflexivity. Qed.

(** The same batch under the default deny-list of the configuration
    editor gets its three frames. *)
Example query_three_frames :
  let opts := mkOptions None None None None None None
                (Some ("delete" ++ String newline "sendemail")%string) None in
  let w := mkWorld [created "sid1"] [doneFlag true] [page (rowsOf 1)] 0 in
  let req := mkRequest platform (mkRange 0 1000)
                       [mkQuery "A" (Some "  ") None;
                        mkQuery "B" (Some "search index=main | delete") None;
                        mkQuery "C" (Some "search index=web") None;
                        mkQuery "D" (Some "search hidden") (Some true);
                        mkQuery "E" (Some "search index=db") None]
                       JUndefined in
  match fst (query platform 10 opts req (start w)) with
  | Ret frames => map (fun f => (df_refId f, map fst (df_fields f))) frames
  | _ => []
  end
  = [("A", ["time"; "warning"]); ("B", ["time"; "warning"]);
     ("C", ["time"; "host"; "message"]); ("E", ["time"; "error"])].
Proof. vm_compute. reflexivity. Qed.

End QueryExamples.

(* ===================================================================== *)
(** ** Regular expressions: matching and construction *)
(* ===================================================================== *)

Module RegExpFacts.

Import RegExp.


(** The frame [f] read inside a group that already holds the alternatives
    [older]. *)
Definition ext (older : list regex) (capturing : bool) (f : frame) : frame :=
  mkFrame capturing (f_alts f ++ older) (f_cur f).

Fixpoint extLast (older : list regex) (capturing : bool) (below : list frame)
  : list frame :=
  match below with
  | [] => []
  | [f] => [ext older capturing f]
  | f :: rest => f :: extLast older capturing rest
  end.

(** The parser state [st] when the pattern it has read stands inside a
    group: the outermost frame of [st] continues a frame with the
    alternatives [older], on top of the frames [outer]. *)
Definition rebase (older : list regex) (capturing : bool) (outer : list frame)
  (st : pstate) : pstate :=
  match p_below st with
  | [] => mkPState (p_mode st) (ext older capturing (p_top st)) outer
  | below => mkPState (p_mode st) (p_top st) (extLast older capturing below ++ outer)
  end.

(** *** Matching *)

Lemma existsb_eq {A : Type} (f g : A -> bool) (l : list A) :
  (forall x, In x l -> f x = g x) -> existsb f l = existsb g l.
Proof.
  induction l as [|x l IH]; intros H; [reflexivity|].
  cbn. rewrite (H x) by now left. rewrite IH; [reflexivity|].
  intros y Hy. apply H. now right.
Qed.











(** *** Construction *)


Lemma pushItem_ext (older : list regex) (cap : bool) (it : regex * kind)
  (f : frame) :
  pushItem it (ext older cap f) = ext older cap (pushItem it f).
Proof. reflexivity. Qed.


Lemma extLast_nonempty (older : list regex) (cap : bool) (below : list frame) :
  below <> [] -> extLast older cap below <> [].
Proof.
  destruct below as [|f [|g rest]]; [contradiction| |]; discriminate.
Qed.




(** The top frame of the rebased state: the same terms, and the same
    alternatives unless it is the outermost frame. *)
Lemma rebase_top_cur (older : list regex) (cap : bool) (outer : list frame)
  (st : pstate) :
  f_cur (p_top (rebase older cap outer st)) = f_cur (p_top st).
Proof. unfold rebase. destruct (p_below st); reflexivity. Qed.








(** *** Alternations of fragments *)












End RegExpFacts.

(* ===================================================================== *)
(** ** The guardrail evaluator *)
(* ===================================================================== *)

Module GuardrailFacts.

Import RegExp RegExpFacts Guardrails.











End GuardrailFacts.

Module GuardrailExamples.

Import RegExp RegExpFacts Guardrails GuardrailFacts.

(** The lines of a deny-list. *)
Definition lines (l : list string) : string := join (String newline "") l.

(** The deny-list the configuration editor proposes. *)
Definition defaultBanned : string :=
  lines ["outputlookup"; "sendemail"; "rest"; "delete"; "collect"; "sendalert";
         "runshellscript"; "script"; "mcollect"; "loadjob"; "map\s+\["].

Definition withBanned (banned : string) : SplunkDataSourceOptions :=
  mkOptions None None None None None None (Some banned) None.



Example allowed_substring :
  isQueryDangerous (Some "search deleted=1 restful") (withBanned defaultBanned)
  = Ret None.
Proof. vm_compute. reflexivity. Qed.

Example blocked_map :
  isQueryDangerous (Some "search x | Map   [search y]") (withBanned defaultBanned)
  = Ret (Some riskyMessage).
Proof. vm_compute. reflexivity. Qed.

Example allowed_when_override :
  isQueryDangerous (Some "search x | delete")
    (mkOptions None None None None None None (Some defaultBanned) (Some true))
  = Ret None.
Proof. vm_compute. reflexivity. Qed.

Example empty_blocked_even_when_override :
  isQueryDangerous (Some "   ")
    (mkOptions None None None None None None (Some "(") (Some true))
  = Ret (Some emptyMessage).
Proof. vm_compute. reflexivity. Qed.

End GuardrailExamples.

(* ===================================================================== *)
(** ** The testable properties of the specification, run *)
(* ===================================================================== *)

Module SpecExamples.

Import DataSource Guardrails Interpolation Scripted PaginationExamples.

Definition inQuotes (s : string) : string :=
  String dquote (s ++ String dquote EmptyString).

(** A single value is escaped and gets no quotes of its own. *)
Example interpolate_single :
  interpolateSPL platform ("host=" ++ inQuotes "$x*") (JStr "agent-7")
  = ("host=" ++ inQuotes "agent-7*")%string.
Proof. reflexivity. Qed.

(** Several values become a parenthesised list of quoted values. *)
Example interpolate_multi :
  interpolateSPL platform "host=$x" (JArr [JStr "a"; JStr "b"])
  = ("host=(" ++ inQuotes "a" ++ " OR " ++ inQuotes "b" ++ ")")%string.
Proof. reflexivity. Qed.

(** An unbound variable is replaced by the empty string. *)
Example interpolate_unbound :
  interpolateSPL platform "host=$x" JUndefined = "host=".
Proof. reflexivity. Qed.

Definition safe : SplunkDataSourceOptions :=
  mkOptions (Some true) (Some 86400%Q) None None None None None None.

Definition oneTarget (span : Z) : DataQueryRequest platform :=
  mkRequest platform (mkRange 0 (span * 1000))
            [mkQuery "A" (Some "search index=main") None] JUndefined.

Definition scriptedWorld : world :=
  mkWorld [created "sid1"] [doneFlag true] [page (rowsOf 3)] 7.

(** A window of 90000 s under a cap of 86400 s: one warning row that cites
    both values, and no request. *)
Example range_exceeded :
  fst (query platform 10 safe (oneTarget 90000) (start scriptedWorld))
  = Ret [mkDataFrame "guardrails" [("time", FTtime); ("message", FTstring)]
           [[("time", JNum 7);
             ("message",
              JStr "Time range (90000s) exceeds the configured cap (86400s).")]]]
  /\ trace platform (snd (query platform 10 safe (oneTarget 90000)
                            (start scriptedWorld))) = [].
Proof. split; vm_compute; reflexivity. Qed.

(** A window of 80000 s under the same cap goes on to the target. *)
Example range_allowed :
  rowCounts (fst (query platform 10 safe (oneTarget 80000) (start scriptedWorld)))
  = Some [3]
  /\ fetches (trace platform (snd (query platform 10 safe (oneTarget 80000)
                                     (start scriptedWorld))))
     = [(200, 0)]%Z.
Proof. split; vm_compute; reflexivity. Qed.

(** Pagination stops on an empty page although the cap is not reached. *)
Example empty_page_stops :
  let opts := mkOptions None None (Some 50%Z) (Some 2%Z) None None None None in
  let w := mkWorld [created "sid1"] [doneFlag true]
                   [page (rowsOf 2); page []; page (rowsOf 2)] 0 in
  let run := query platform 10 opts (oneTarget 1) (start w) in
  rowCounts (fst run) = Some [2]
  /\ fetches (trace platform (snd run)) = [(2, 0); (2, 2)]%Z.
Proof. cbv zeta. split; vm_compute; reflexivity. Qed.

(** A job that never completes is polled exactly [maxPolls] times. *)
Example poll_budget_exhausted :
  let opts := mkOptions None None None None (Some 250%Z) (Some 3%Q) None None in
  let w := mkWorld [] (repeat (state "RUNNING") 10) [] 0 in
  let run := waitForJob platform opts "sid1" (start w) in
  fst run = Throw pollTimeoutError
  /\ JobFacts.statusChecks (trace platform (snd run)) = 3
  /\ map JobFacts.isSleep (trace platform (snd run))
     = [None; Some 250; None; Some 250; None; Some 250]%Z.
Proof. cbv zeta. repeat split; vm_compute; reflexivity. Qed.

(** A record with only the raw text maps its message to that text, and
    without a parsable time it gets the clock reading. *)
Example raw_only_row :
  fst (mapRow platform [("_raw", JStr "boot ok")] (start scriptedWorld))
  = Ret [("time", JNum 7); ("host", JStr ""); ("message", JStr "boot ok")].
Proof. vm_compute. reflexivity. Qed.

End SpecExamples.

(* ===================================================================== *)
(** ** Request URLs and the form body *)
(* ===================================================================== *)

(** The strings the datasource hands to [datasourceRequest]: the base URL
    of the constructor, the URLs of the four endpoints, and the body of the
    job creation, with [encodeURIComponent] and the serialisation of
    [URLSearchParams] on strings of the code units U+0000..U+00FF. *)

Module Urls.

Definition isAlnum (c : ascii) : bool :=
  let n := nat_of_ascii c in
  RegExp.inRange 97 122 n || RegExp.inRange 65 90 n || RegExp.inRange 48 57 n.

Definition oneOf (set : string) (c : ascii) : bool :=
  existsb (Ascii.eqb c) (list_ascii_of_string set).

(** The characters [encodeURIComponent] leaves alone. *)
Definition isUriUnreserved (c : ascii) : bool := isAlnum c || oneOf "-_.!~*'()" c.

(** The characters the form serialiser leaves alone. *)
Definition isFormSafe (c : ascii) : bool := isAlnum c || oneOf "*-._" c.

Definition hexDigit (n : nat) : ascii :=
  if (n <? 10)%nat then ascii_of_nat (48 + n) else ascii_of_nat (55 + n).

(** [%XX] for one byte, in upper-case hexadecimal. *)
Definition percent (byte : nat) : string :=
  String "%" (String (hexDigit (byte / 16)) (String (hexDigit (byte mod 16)) EmptyString)).

(** The UTF-8 bytes of a code unit below U+0100. *)
Definition utf8 (c : ascii) : list nat :=
  let n := nat_of_ascii c in
  if (n <? 128)%nat then [n] else [192 + n / 64; 128 + n mod 64].

Definition percentEncoded (c : ascii) : string :=
  String.concat "" (map percent (utf8 c)).

Fixpoint encodeURIComponent (s : string) : string :=
  match s with
  | EmptyString => EmptyString
  | String c r =>
      (if isUriUnreserved c then String c EmptyString else percentEncoded c)
      ++ encodeURIComponent r
  end.

(** The serialisation of one name or value of a [URLSearchParams]. *)
Fixpoint formEncode (s : string) : string :=
  match s with
  | EmptyString => EmptyString
  | String c r =>
      (if isFormSafe c then String c EmptyString
       else if Ascii.eqb c " " then "+"
       else percentEncoded c)
      ++ formEncode r
  end.

(** [params.toString()] for the pairs set so far, in the order they were
    set. *)
Definition formToString (params : list (string * string)) : string :=
  join "&" (map (fun kv => (formEncode (fst kv) ++ "=" ++ formEncode (snd kv))%string)
                params).

(** [s.replace(/\/+$/, '')]: the trailing slashes are dropped. *)
Fixpoint stripTrailingSlashes (s : string) : string :=
  match s with
  | EmptyString => EmptyString
  | String c r =>
      let r' := stripTrailingSlashes r in
      if Ascii.eqb c "/" && isEmpty r' then EmptyString else String c r'
  end.

(** [this.base] as the constructor computes it from [instanceSettings.url]
    and [jsonData.url]. *)
Definition base (settingsUrl jsonUrl : option string) : string :=
  stripTrailingSlashes (orDefault settingsUrl (orDefault jsonUrl "")).

(** The URLs of [createSearchJob], [isJobDone], [fetchResults] and
    [testDatasource]. *)
Definition jobsUrl (base : string) : string := base ++ "/services/search/jobs".

Definition jobStatusUrl (base job : string) : string :=
  base ++ "/services/search/jobs/" ++ encodeURIComponent job ++ "?output_mode=json".

Definition resultsUrl (base job : string) (count offset : Z) : string :=
  base ++ "/services/search/jobs/" ++ encodeURIComponent job
  ++ "/results?output_mode=json&count=" ++ ofZ count ++ "&offset=" ++ ofZ offset.

Definition serverInfoUrl (base : string) : string :=
  base ++ "/services/server/info?output_mode=json".

(** The body [createSearchJob] posts. *)
Definition createJobBody (search earliest latest : string) : string :=
  formToString [("search", search); ("earliest_time", earliest);
                ("latest_time", latest); ("output_mode", "json")].

End Urls.

Module UrlFacts.

Import Urls.
Local Open Scope string_scope.

(** Reading a percent-encoded text back, for the encodings of the strings
    of the model: [%XX] is one byte, a byte from 0x80 on starts a
    two-byte UTF-8 sequence, and in a form a plus sign is a space.
    [None] for any other text. *)
Definition hexValue (c : ascii) : option nat :=
  let n := nat_of_ascii c in
  if RegExp.inRange 48 57 n then Some (n - 48)
  else if RegExp.inRange 65 70 n then Some (n - 55)
  else if RegExp.inRange 97 102 n then Some (n - 87)
  else None.

Fixpoint percentDecode (form : bool) (s : string) : option string :=
  match s with
  | EmptyString => Some EmptyString
  | String c r =>
      if Ascii.eqb c "%" then
        match r with
        | String a (String b r1) =>
            match hexValue a, hexValue b with
            | Some x, Some y =>
                let v := 16 * x + y in
                if (v <? 128)%nat then
                  option_map (String (ascii_of_nat v)) (percentDecode form r1)
                else if (v =? 194)%nat || (v =? 195)%nat then
                  match r1 with
                  | String p (String a2 (String b2 r2)) =>
                      match hexValue a2, hexValue b2 with
                      | Some x2, Some y2 =>
                          let w := 16 * x2 + y2 in
                          if Ascii.eqb p "%" && (128 <=? w)%nat && (w <? 192)%nat
                          then option_map
                                 (String (ascii_of_nat ((v - 192) * 64 + (w - 128))))
                                 (percentDecode form r2)
                          else None
                      | _, _ => None
                      end
                  | _ => None
                  end
                else None
            | _, _ => None
            end
        | _ => None
        end
      else if form && Ascii.eqb c "+" then
        option_map (String " "%char) (percentDecode form r)
      else option_map (String c) (percentDecode form r)
  end.

Definition decodeURIComponent : string -> option string := percentDecode false.
Definition formDecode : string -> option string := percentDecode true.

(** No character of [s] is in [set]. *)
Definition avoids (set : string) (s : string) : bool :=
  forallb (fun c => negb (oneOf set c)) (list_ascii_of_string s).

Definition uriPiece (c : ascii) : string :=
  if isUriUnreserved c then String c EmptyString else percentEncoded c.

Definition formPiece (c : ascii) : string :=
  if isFormSafe c then String c EmptyString
  else if Ascii.eqb c " " then "+"
  else percentEncoded c.

Ltac each_char c :=
  destruct c as [[] [] [] [] [] [] [] []]; vm_compute; reflexivity.

Lemma uriPiece_avoids (c : ascii) : avoids "/?#&=+ " (uriPiece c) = true.
Proof. each_char c. Qed.

Lemma formPiece_avoids (c : ascii) : avoids "&=/?# " (formPiece c) = true.
Proof. each_char c. Qed.

Lemma avoids_app (set a b : string) :
  avoids set (a ++ b) = avoids set a && avoids set b.
Proof.
  unfold avoids. induction a as [|c a IH]; [reflexivity|].
  cbn. rewrite IH. now rewrite andb_assoc.
Qed.

Lemma encodeURIComponent_avoids (s : string) :
  avoids "/?#&=+ " (encodeURIComponent s) = true.
Proof.
  induction s as [|c s IH]; [reflexivity|].
  cbn [encodeURIComponent]. fold (uriPiece c).
  now rewrite avoids_app, uriPiece_avoids, IH.
Qed.

Lemma formEncode_avoids (s : string) : avoids "&=/?# " (formEncode s) = true.
Proof.
  induction s as [|c s IH]; [reflexivity|].
  cbn [formEncode]. fold (formPiece c).
  now rewrite avoids_app, formPiece_avoids, IH.
Qed.

Lemma uriPiece_decode (c : ascii) (rest : string) :
  percentDecode false (uriPiece c ++ rest)
  = option_map (String c) (percentDecode false rest).
Proof. destruct c as [[] [] [] [] [] [] [] []]; reflexivity. Qed.

Lemma formPiece_decode (c : ascii) (rest : string) :
  percentDecode true (formPiece c ++ rest)
  = option_map (String c) (percentDecode true rest).
Proof. destruct c as [[] [] [] [] [] [] [] []]; reflexivity. Qed.

Lemma append_assoc (a b c : string) : (a ++ b) ++ c = a ++ (b ++ c).
Proof. induction a as [|x a IH]; cbn; [reflexivity | now rewrite IH]. Qed.

(** [encodeURIComponent] loses nothing: the text can be read back from
    its encoding. *)
Lemma decode_encodeURIComponent (s : string) :
  decodeURIComponent (encodeURIComponent s) = Some s.
Proof.
  unfold decodeURIComponent. induction s as [|c s IH]; [reflexivity|].
  cbn [encodeURIComponent]. fold (uriPiece c).
  now rewrite uriPiece_decode, IH.
Qed.

Lemma formDecode_formEncode (s : string) : formDecode (formEncode s) = Some s.
Proof.
  unfold formDecode. induction s as [|c s IH]; [reflexivity|].
  cbn [formEncode]. fold (formPiece c).
  now rewrite formPiece_decode, IH.
Qed.

(** *** Splitting at a separator *)

Lemma avoids_single (set s : string) (sep : ascii) :
  oneOf set sep = true -> avoids set s = true ->
  avoids (String sep EmptyString) s = true.
Proof.
  intros Hsep. unfold avoids. induction s as [|c s IH]; [reflexivity|].
  cbn [list_ascii_of_string forallb]. intros H.
  apply andb_true_iff in H as [Hc Hs]. rewrite (IH Hs), andb_true_r.
  unfold oneOf at 1. cbn [list_ascii_of_string existsb]. rewrite orb_false_r.
  destruct (Ascii.eqb_spec c sep) as [->|]; [|reflexivity].
  now rewrite Hsep in Hc.
Qed.

(** A text without the separator stays in the first piece. *)
Lemma split_app (sep : ascii) (a b : string) :
  avoids (String sep EmptyString) a = true ->
  split sep (a ++ b)
  = (a ++ hd EmptyString (split sep b)) :: tl (split sep b).
Proof.
  induction a as [|c a IH]; intros H.
  - cbn. destruct b as [|x b]; [reflexivity|]. cbn.
    destruct (Ascii.eqb x sep); [reflexivity|]. destruct (split sep b); reflexivity.
  - unfold avoids in H. cbn [list_ascii_of_string forallb] in H.
    apply andb_true_iff in H as [Hc Ha].
    unfold oneOf in Hc. cbn [list_ascii_of_string existsb] in Hc.
    rewrite orb_false_r in Hc. apply negb_true_iff in Hc.
    cbn [append split]. rewrite Hc, (IH Ha). reflexivity.
Qed.

Lemma append_empty (a : string) : a ++ "" = a.
Proof. induction a; cbn; congruence. Qed.

(** The first piece ends at the first separator. *)
Lemma split_cons (sep : ascii) (a b : string) :
  avoids (String sep EmptyString) a = true ->
  split sep (a ++ String sep b) = a :: split sep b.
Proof.
  intros H. rewrite (split_app sep a _ H). cbn [split].
  rewrite Ascii.eqb_refl. cbn [hd tl]. now rewrite append_empty.
Qed.

Lemma split_whole (sep : ascii) (a : string) :
  avoids (String sep EmptyString) a = true -> split sep a = [a].
Proof.
  intros H. pose proof (split_app sep a EmptyString H) as Hs.
  assert (Ha : a ++ "" = a) by (clear; induction a; cbn; congruence).
  cbn [split hd tl] in Hs. rewrite !Ha in Hs. exact Hs.
Qed.

Lemma ofZ_avoids (set : string) (z : Z) :
  avoids set "-0123456789" = true -> avoids set (ofZ z) = true.
Proof.
  intros H. unfold ofZ.
  assert (Hd : forall c, oneOf "-0123456789" c = true -> negb (oneOf set c) = true).
  { intros c Hc. unfold avoids in H.
    apply (proj1 (forallb_forall _ _) H). unfold oneOf in Hc.
    apply existsb_exists in Hc as (x & Hx & Heq).
    apply Ascii.eqb_eq in Heq. now subst. }
  assert (Hu : forall d, avoids set (NilEmpty.string_of_uint d) = true).
  { induction d; cbn [NilEmpty.string_of_uint]; [reflexivity|..];
      unfold avoids in *; cbn [list_ascii_of_string forallb];
      rewrite IHd, andb_true_r; apply Hd; reflexivity. }
  assert (Hz : forall d, avoids set (NilZero.string_of_uint d) = true).
  { intros d. destruct d; try apply Hu.
    unfold avoids. cbn. rewrite andb_true_r. apply Hd. reflexivity. }
  destruct (Z.to_int z) as [d|d]; cbn [NilZero.string_of_int]; [apply Hz|].
  unfold avoids in *. cbn [list_ascii_of_string forallb].
  rewrite (Hz d), andb_true_r. apply Hd. reflexivity.
Qed.

(** The part of a job URL that follows the base. *)
Definition jobPath (job : string) : string :=
  "/services/search/jobs/" ++ encodeURIComponent job.

(** X1. Whatever the job id is, it stays one segment of the path: the
    status URL and the results URL are the base followed by a path and a
    query that the code wrote, the query begins at the question mark of the
    code, the path has the segments [services], [search], [jobs], the
    encoded job id (and [results]), and the query of the results URL has
    the three parameters of the code.  The job id can be read back from
    its segment. *)
Theorem job_urls_segments (base job : string) (count offset : Z) :
  jobStatusUrl base job = base ++ jobPath job ++ "?output_mode=json"
  /\ split "?" (jobPath job ++ "?output_mode=json")
     = [jobPath job; "output_mode=json"]
  /\ split "/" (jobPath job)
     = [""; "services"; "search"; "jobs"; encodeURIComponent job]
  /\ resultsUrl base job count offset
     = base ++ (jobPath job ++ "/results") ++ "?"
       ++ "output_mode=json&count=" ++ ofZ count ++ "&offset=" ++ ofZ offset
  /\ split "?" ((jobPath job ++ "/results") ++ "?"
                ++ "output_mode=json&count=" ++ ofZ count ++ "&offset=" ++ ofZ offset)
     = [jobPath job ++ "/results";
        "output_mode=json&count=" ++ ofZ count ++ "&offset=" ++ ofZ offset]
  /\ split "/" (jobPath job ++ "/results")
     = [""; "services"; "search"; "jobs"; encodeURIComponent job; "results"]
  /\ split "&" ("output_mode=json&count=" ++ ofZ count ++ "&offset=" ++ ofZ offset)
     = ["output_mode=json"; "count=" ++ ofZ count; "offset=" ++ ofZ offset]
  /\ decodeURIComponent (encodeURIComponent job) = Some job.
Proof.
  pose proof (encodeURIComponent_avoids job) as Henc.
  assert (Hq : avoids "?" (encodeURIComponent job) = true)
    by (apply (avoids_single "/?#&=+ "); [reflexivity | exact Henc]).
  assert (Hs : avoids "/" (encodeURIComponent job) = true)
    by (apply (avoids_single "/?#&=+ "); [reflexivity | exact Henc]).
  assert (Hpath : avoids "?" (jobPath job) = true).
  { unfold jobPath. rewrite avoids_app, Hq. reflexivity. }
  assert (Hnum : forall (sep : ascii) (z : Z),
             oneOf "-0123456789" sep = false ->
             avoids (String sep EmptyString) (ofZ z) = true).
  { intros sep z Hsep. apply ofZ_avoids. unfold avoids.
    apply forallb_forall. intros c Hc. unfold oneOf at 1.
    cbn [list_ascii_of_string existsb]. rewrite orb_false_r.
    destruct (Ascii.eqb_spec c sep) as [->|]; [|reflexivity].
    exfalso. assert (oneOf "-0123456789" sep = true); [|congruence].
    unfold oneOf. apply existsb_exists. exists sep. split; [exact Hc|].
    apply Ascii.eqb_refl. }
  split; [|split; [|split; [|split; [|split; [|split; [|split]]]]]].
  - unfold jobStatusUrl, jobPath. now rewrite !append_assoc.
  - rewrite (split_app "?" (jobPath job) _ Hpath).
    change (split "?" "?output_mode=json") with [""; "output_mode=json"].
    cbn [hd tl]. now rewrite append_empty.
  - unfold jobPath.
    change ("/services/search/jobs/" ++ encodeURIComponent job)
      with ("" ++ String "/" ("services" ++ String "/" ("search" ++ String "/"
              ("jobs" ++ String "/" (encodeURIComponent job))))).
    rewrite !split_cons by reflexivity. now rewrite (split_whole "/" _ Hs).
  - unfold resultsUrl, jobPath. now rewrite !append_assoc.
  - rewrite (split_app "?" (jobPath job ++ "/results"))
      by (rewrite avoids_app, Hpath; reflexivity).
    assert (Hquery : avoids "?" ("output_mode=json&count=" ++ ofZ count
                                 ++ "&offset=" ++ ofZ offset) = true).
    { rewrite !avoids_app, !Hnum by reflexivity. reflexivity. }
    change ("?" ++ ?q) with (String "?" q). cbn [split Ascii.eqb Bool.eqb hd tl].
    rewrite (split_whole "?" _ Hquery). cbn [hd tl]. now rewrite append_empty.
  - unfold jobPath.
    change (("/services/search/jobs/" ++ encodeURIComponent job) ++ "/results")
      with ("" ++ String "/" ("services" ++ String "/" ("search" ++ String "/"
              ("jobs" ++ String "/" (encodeURIComponent job ++ "/results"))))).
    rewrite !split_cons by reflexivity.
    rewrite (split_app "/" (encodeURIComponent job) _ Hs).
    change (split "/" "/results") with [""; "results"].
    cbn [hd tl]. now rewrite append_empty.
  - change ("output_mode=json&count=" ++ ofZ count ++ "&offset=" ++ ofZ offset)
      with ("output_mode=json" ++ String "&" (("count=" ++ ofZ count)
              ++ String "&" ("offset=" ++ ofZ offset))).
    rewrite split_cons by reflexivity.
    rewrite split_cons by (rewrite avoids_app, Hnum by reflexivity; reflexivity).
    rewrite split_whole by (rewrite avoids_app, Hnum by reflexivity; reflexivity).
    reflexivity.
  - apply decode_encodeURIComponent.
Qed.

(** X2. The body of the job creation has exactly the four parameters
    [search], [earliest_time], [latest_time] and [output_mode=json], in
    this order, whatever the query text contains: the text cannot add or
    end a parameter, and it can be read back from its encoding. *)
Theorem createJobBody_fields (search earliest latest : string) :
  map (split "=") (split "&" (createJobBody search earliest latest))
  = [["search"; formEncode search]; ["earliest_time"; formEncode earliest];
     ["latest_time"; formEncode latest]; ["output_mode"; "json"]]
  /\ formDecode (formEncode search) = Some search
  /\ formDecode (formEncode earliest) = Some earliest
  /\ formDecode (formEncode latest) = Some latest.
Proof.
  split; [|repeat split; apply formDecode_formEncode].
  assert (Ha : forall v, avoids "&" (formEncode v) = true).
  { intros v. apply (avoids_single "&=/?# "); [reflexivity|].
    apply formEncode_avoids. }
  assert (He : forall v, avoids "=" (formEncode v) = true).
  { intros v. apply (avoids_single "&=/?# "); [reflexivity|].
    apply formEncode_avoids. }
  unfold createJobBody, formToString. cbn [map fst snd join String.concat].
  change (formEncode "search") with "search".
  change (formEncode "earliest_time") with "earliest_time".
  change (formEncode "latest_time") with "latest_time".
  change (formEncode "output_mode") with "output_mode".
  change (formEncode "json") with "json".
  change (("search" ++ "=" ++ formEncode search) ++ "&" ++ ?rest)
    with (("search=" ++ formEncode search) ++ String "&" rest).
  rewrite split_cons by (rewrite avoids_app, Ha; reflexivity).
  change (("earliest_time" ++ "=" ++ formEncode earliest) ++ "&" ++ ?rest)
    with (("earliest_time=" ++ formEncode earliest) ++ String "&" rest).
  rewrite split_cons by (rewrite avoids_app, Ha; reflexivity).
  change (("latest_time" ++ "=" ++ formEncode latest) ++ "&" ++ ?rest)
    with (("latest_time=" ++ formEncode latest) ++ String "&" rest).
  rewrite split_cons by (rewrite avoids_app, Ha; reflexivity).
  change (split "&" ("output_mode" ++ "=" ++ "json")) with ["output_mode=json"].
  cbn [map].
  change ("search=" ++ formEncode search)
    with ("search" ++ String "=" (formEncode search)).
  change ("earliest_time=" ++ formEncode earliest)
    with ("earliest_time" ++ String "=" (formEncode earliest)).
  change ("latest_time=" ++ formEncode latest)
    with ("latest_time" ++ String "=" (formEncode latest)).
  rewrite !split_cons by reflexivity.
  rewrite !split_whole by apply He.
  reflexivity.
Qed.

(** *** The base URL *)

Fixpoint slashes (k : nat) : string :=
  match k with O => EmptyString | S k' => String "/" (slashes k') end.

Fixpoint endsWithSlash (s : string) : bool :=
  match s with
  | EmptyString => false
  | String c EmptyString => Ascii.eqb c "/"
  | String _ r => endsWithSlash r
  end.

Lemma stripTrailingSlashes_spec (s : string) :
  exists k : nat,
    s = stripTrailingSlashes s ++ slashes k
    /\ endsWithSlash (stripTrailingSlashes s) = false
    /\ (stripTrailingSlashes s = EmptyString -> s = slashes k).
Proof.
  induction s as [|c s (k & Heq & Hend & Hempty)].
  - exists 0. repeat split.
  - cbn [stripTrailingSlashes].
    destruct (Ascii.eqb_spec c "/") as [->|Hc]; cbn [andb].
    + destruct (stripTrailingSlashes s) as [|d r] eqn:Hs; cbn [isEmpty].
      * exists (S k). cbn [append slashes]. rewrite (Hempty eq_refl) at 1.
        repeat split. intros _. now rewrite (Hempty eq_refl) at 1.
      * exists k. cbn [append]. rewrite Heq at 1. repeat split; try discriminate.
        cbn [endsWithSlash]. exact Hend.
    + exists k. cbn [append]. rewrite Heq at 1. repeat split; try discriminate.
      cbn [endsWithSlash].
      destruct (stripTrailingSlashes s) as [|d r]; [|exact Hend].
      now apply Ascii.eqb_neq.
Qed.

(** X3. The base URL of the constructor is the configured URL
    ([instanceSettings.url], else [jsonData.url], else empty) without its
    trailing slashes: nothing else is removed, the base never ends with a
    slash, and stripping it again changes nothing. *)
Theorem base_spec (settingsUrl jsonUrl : option string) :
  (exists k : nat,
     orDefault settingsUrl (orDefault jsonUrl "")
     = base settingsUrl jsonUrl ++ slashes k)
  /\ endsWithSlash (base settingsUrl jsonUrl) = false
  /\ stripTrailingSlashes (base settingsUrl jsonUrl) = base settingsUrl jsonUrl
  /\ (forall url : string, base (Some url) jsonUrl = stripTrailingSlashes url).
Proof.
  unfold base.
  destruct (stripTrailingSlashes_spec (orDefault settingsUrl (orDefault jsonUrl "")))
    as (k & Heq & Hend & _).
  split; [now exists k|]. split; [exact Hend|]. split.
  - set (b := stripTrailingSlashes _) in *. clearbody b. clear Heq.
    induction b as [|c b IH]; [reflexivity|].
    cbn [stripTrailingSlashes].
    destruct b as [|d b'].
    + cbn in *. now rewrite Hend.
    + rewrite IH by exact Hend. cbn [isEmpty]. now rewrite andb_false_r.
  - reflexivity.
Qed.

End UrlFacts.

(* ===================================================================== *)
(** ** Interpolated values, read back *)
(* ===================================================================== *)

Module ReadBack.

Import Interpolation.
Local Open Scope string_scope.

(** Reading a double-quoted literal: [readContent] reads what follows the
    opening quote up to the first quote that no backslash protects, drops
    the protecting backslashes, and returns the content with the text
    after the closing quote; [None] when the literal is not closed. *)
Fixpoint readContent (s : string) : option (string * string) :=
  match s with
  | EmptyString => None
  | String c r =>
      if Ascii.eqb c backslash then
        match r with
        | String d r' =>
            match readContent r' with
            | Some (v, rest) => Some (String d v, rest)
            | None => None
            end
        | EmptyString => None
        end
      else if Ascii.eqb c dquote then Some (EmptyString, r)
      else
        match readContent r with
        | Some (v, rest) => Some (String c v, rest)
        | None => None
        end
  end.

Definition readQuoted (s : string) : option (string * string) :=
  match s with
  | String c r => if Ascii.eqb c dquote then readContent r else None
  | EmptyString => None
  end.

(** [s] without the prefix [p], when it starts with it. *)
Fixpoint dropPrefix (p s : string) : option string :=
  match p, s with
  | EmptyString, _ => Some s
  | String a p', String b s' => if Ascii.eqb a b then dropPrefix p' s' else None
  | String _ _, EmptyString => None
  end.

(** Reading [n] quoted literals separated by [ OR ] and closed by a
    parenthesis at the end of the text. *)
Fixpoint readAlternatives (n : nat) (s : string) : option (list string) :=
  match n with
  | O => None
  | S n' =>
      match readQuoted s with
      | Some (v, rest) =>
          match rest with
          | String ")" EmptyString => Some [v]
          | _ =>
              match dropPrefix " OR " rest with
              | Some more =>
                  match readAlternatives n' more with
                  | Some vs => Some (v :: vs)
                  | None => None
                  end
              | None => None
              end
          end
      | None => None
      end
  end.

(** Reading what the formatter wrote for an array of [n] values: one
    quoted literal, or a parenthesised list of them. *)
Definition readValues (n : nat) (s : string) : option (list string) :=
  match s with
  | String "(" body => readAlternatives n body
  | _ =>
      match readQuoted s with
      | Some (v, EmptyString) => Some [v]
      | _ => None
      end
  end.

Lemma readContent_escaped (v rest : string) :
  readContent (escapeSplunkValue v ++ String dquote rest) = Some (v, rest).
Proof.
  induction v as [|c v IH].
  - reflexivity.
  - cbn [escapeSplunkValue].
    destruct (Ascii.eqb c dquote || Ascii.eqb c backslash) eqn:E.
    + cbn [append readContent].
      change (Ascii.eqb backslash backslash) with true. cbv iota.
      now rewrite IH.
    + apply orb_false_iff in E as [E1 E2].
      cbn [append readContent]. rewrite E2, E1. now rewrite IH.
Qed.

Lemma readQuoted_quoted (v : jsval) (rest : string) :
  readQuoted (quoted v ++ rest) = Some (ToString v, rest).
Proof.
  unfold quoted. cbn [append readQuoted].
  change (Ascii.eqb dquote dquote) with true. cbv iota.
  rewrite UrlFacts.append_assoc. apply readContent_escaped.
Qed.


Lemma join_or_cons (p q : string) (l : list string) :
  join " OR " (p :: q :: l) = p ++ " OR " ++ join " OR " (q :: l).
Proof. reflexivity. Qed.

Lemma readAlternatives_S (n : nat) (s : string) :
  readAlternatives (S n) s
  = match readQuoted s with
    | Some (v, rest) =>
        match rest with
        | String ")" EmptyString => Some [v]
        | _ =>
            match dropPrefix " OR " rest with
            | Some more =>
                match readAlternatives n more with
                | Some vs => Some (v :: vs)
                | None => None
                end
            | None => None
            end
        end
    | None => None
    end.
Proof. reflexivity. Qed.

Lemma readAlternatives_quoted (v : jsval) (l : list jsval) :
  readAlternatives (S (List.length l)) (join " OR " (map quoted (v :: l)) ++ ")")
  = Some (map ToString (v :: l)).
Proof.
  revert v. induction l as [|w l IH]; intros v.
  - cbn [map join String.concat List.length].
    rewrite readAlternatives_S, readQuoted_quoted. reflexivity.
  - cbn [map List.length]. rewrite join_or_cons, UrlFacts.append_assoc.
    rewrite readAlternatives_S, readQuoted_quoted.
    rewrite UrlFacts.append_assoc. specialize (IH w). cbn [map] in IH.
    set (more := join " OR " (quoted w :: map quoted l) ++ ")") in *.
    change (" OR " ++ more)
      with (String " " (String "O" (String "R" (String " " more)))).
    cbn [dropPrefix Ascii.eqb Bool.eqb]. cbv iota.
    rewrite IH. reflexivity.
Qed.

(** X5. The values of a multi-value binding can be read back from the
    text the formatter writes, one by one and in order: no value, whatever
    quotes, backslashes or parentheses it contains, can close its literal,
    add an alternative or end the list. *)
Theorem values_read_back (v : jsval) (l : list jsval) :
  readValues (S (List.length l)) (formatter (JArr (v :: l)))
  = Some (map ToString (v :: l)).
Proof.
  destruct l as [|w l].
  - cbn [formatter map List.length Nat.ltb Nat.leb].
    pose proof (readQuoted_quoted v "") as H.
    rewrite UrlFacts.append_empty in H.
    unfold readValues. unfold quoted at 1. cbn [append].
    change (String dquote (escapeSplunkValue (ToString v) ++ String dquote ""))
      with (quoted v).
    rewrite H. reflexivity.
  - cbn [formatter]. cbn [map List.length Nat.ltb Nat.leb].
    unfold readValues. cbn [append].
    apply (readAlternatives_quoted v (w :: l)).
Qed.

End ReadBack.
(* ===================================================================== *)
(** ** The time bounds sent to the engine *)
(* ===================================================================== *)

Module TimeFacts.

Import Interpolation.
Local Open Scope string_scope.

(** A dot, three characters and a final [Z]. *)
Definition fractionShape (s : string) : bool :=
  match s with
  | String "." (String _ (String _ (String _ (String "Z" EmptyString)))) => true
  | _ => false
  end.

Definition fraction (a b c : ascii) : string :=
  String "." (String a (String b (String c "Z"))).

Definition digits3 (a b c : ascii) : bool :=
  RegExp.isDigit a && RegExp.isDigit b && RegExp.isDigit c.

Lemma fractionShape_inv (s : string) :
  fractionShape s = true -> exists a b c, s = fraction a b c.
Proof.
  destruct s as [|x s]; [discriminate|].
  destruct x as [[] [] [] [] [] [] [] []]; try discriminate.
  destruct s as [|a [|b [|c [|d [|e r]]]]]; try discriminate;
    destruct d as [[] [] [] [] [] [] [] []]; try discriminate.
  intros _. now exists a, b, c.
Qed.

(** One step of [dropMillis], the recursive call being [rec]. *)
Definition dropMillisStep (rec : string -> string) (s : string) : string :=
  match s with
  | String "." (String a (String b (String c (String "Z" EmptyString)))) =>
      if RegExp.isDigit a && RegExp.isDigit b && RegExp.isDigit c then "Z" else s
  | String c r => String c (rec r)
  | EmptyString => EmptyString
  end.

Lemma dropMillis_step (s : string) : dropMillis s = dropMillisStep dropMillis s.
Proof. destruct s; reflexivity. Qed.

Lemma dropMillisStep_cons (rec : string -> string) (x : ascii) (r : string) :
  fractionShape (String x r) = false ->
  dropMillisStep rec (String x r) = String x (rec r).
Proof.
  destruct x as [[] [] [] [] [] [] [] []]; try reflexivity.
  destruct r as [|a [|b [|c [|d [|e r]]]]]; try reflexivity;
    destruct d as [[] [] [] [] [] [] [] []]; try reflexivity.
  discriminate.
Qed.

Lemma dropMillis_cons (x : ascii) (r : string) :
  fractionShape (String x r) = false ->
  dropMillis (String x r) = String x (dropMillis r).
Proof.
  intros H. rewrite dropMillis_step. now apply dropMillisStep_cons.
Qed.

Lemma dropMillis_fraction (a b c : ascii) :
  dropMillis (fraction a b c)
  = if digits3 a b c then "Z" else fraction a b c.
Proof. reflexivity. Qed.

Lemma fractionShape_long (x : ascii) (p : string) (a b c : ascii) :
  fractionShape (String x (p ++ fraction a b c)) = false.
Proof.
  destruct x as [[] [] [] [] [] [] [] []]; try reflexivity.
  destruct p as [|p1 [|p2 [|p3 [|p4 [|p5 p]]]]]; try reflexivity;
    cbn [append fraction].
  - destruct c as [[] [] [] [] [] [] [] []]; reflexivity.
  - destruct b as [[] [] [] [] [] [] [] []]; reflexivity.
  - destruct a as [[] [] [] [] [] [] [] []]; reflexivity.
  - destruct p4 as [[] [] [] [] [] [] [] []]; reflexivity.
  - destruct p4 as [[] [] [] [] [] [] [] []]; reflexivity.
Qed.

Lemma dropMillis_suffix (p : string) (a b c : ascii) :
  digits3 a b c = true -> dropMillis (p ++ fraction a b c) = p ++ "Z".
Proof.
  intros Hd. induction p as [|x p IH].
  - cbn [append]. now rewrite dropMillis_fraction, Hd.
  - cbn [append]. rewrite dropMillis_cons by apply fractionShape_long.
    now rewrite IH.
Qed.

Lemma dropMillis_cases (s : string) :
  dropMillis s = s
  \/ exists (p : string) (a b c : ascii),
       s = p ++ fraction a b c /\ digits3 a b c = true /\ dropMillis s = p ++ "Z".
Proof.
  induction s as [|x s IH]; [now left|].
  destruct (fractionShape (String x s)) eqn:Hs.
  - apply fractionShape_inv in Hs as (a & b & c & ->).
    rewrite dropMillis_fraction. destruct (digits3 a b c) eqn:Hd; [|now left].
    right. exists "", a, b, c. repeat split. exact Hd.
  - rewrite dropMillis_cons by exact Hs.
    destruct IH as [->|(p & a & b & c & -> & Hd & ->)]; [now left|].
    right. exists (String x p), a, b, c. repeat split. exact Hd.
Qed.

(** The digits of a padded number. *)
Lemma pad_digit (n : Z) :
  RegExp.isDigit (ascii_of_nat (Z.to_nat (48 + n mod 10))) = true.
Proof.
  pose proof (Z.mod_pos_bound n 10 ltac:(lia)) as H.
  assert (Hc : exists k : nat, (k < 10)%nat /\ Z.to_nat (48 + n mod 10) = (48 + k)%nat).
  { exists (Z.to_nat (n mod 10)). split; lia. }
  destruct Hc as (k & Hk & ->).
  do 10 (destruct k as [|k]; [reflexivity|]). lia.
Qed.

Lemma pad3_fraction (n : Z) :
  exists a b c, JsDate.pad 3 n = String a (String b (String c ""))
                /\ digits3 a b c = true.
Proof.
  eexists _, _, _. split; [reflexivity|].
  unfold digits3. now rewrite !pad_digit.
Qed.

Lemma suffix_app (a rest suffix : string) :
  (exists p : string, rest = p ++ suffix) ->
  exists p : string, a ++ rest = p ++ suffix.
Proof.
  intros [p ->]. exists (a ++ p). now rewrite UrlFacts.append_assoc.
Qed.

(** A timestamp of [toISOString] always ends with a fraction of three
    digits. *)
Lemma toISOString_fraction (t : Z) :
  exists (p : string) (a b c : ascii),
    JsDate.toISOString t = p ++ fraction a b c /\ digits3 a b c = true.
Proof.
  destruct (pad3_fraction ((t mod 86400000) mod 1000)) as (a & b & c & Hpad & Hd).
  assert (H : exists p : string, JsDate.toISOString t = p ++ fraction a b c).
  { unfold JsDate.toISOString.
    destruct (JsDate.civilFromDays (t / 86400000)) as [[y m] d].
    cbv zeta. rewrite Hpad. do 11 apply suffix_app. now exists "". }
  destruct H as [p Hp]. now exists p, a, b, c.
Qed.

(** X6. The time bounds of a search are the ISO timestamps of the range
    without their millisecond fraction: a text that ends with a dot, three
    digits and [Z] loses the dot and the digits, every other text is left
    as it is, and nothing before the fraction is touched.  The timestamp
    that [toISOString] gives for the time value of a valid date always has
    such a fraction, so the bound is the timestamp to the second, cut and
    not rounded, also for the years before 0 and after 9999. *)
Theorem toSplunkTimeISO_drops_fraction :
  (forall (P : DataSource.Platform) (d : Z) (p : string) (a b c : ascii),
     DataSource.toISOString P d = p ++ fraction a b c ->
     digits3 a b c = true ->
     DataSource.toSplunkTimeISO P d = p ++ "Z")
  /\ (forall (P : DataSource.Platform) (d : Z),
        DataSource.toSplunkTimeISO P d = DataSource.toISOString P d
        \/ exists (p : string) (a b c : ascii),
             DataSource.toISOString P d = p ++ fraction a b c
             /\ digits3 a b c = true
             /\ DataSource.toSplunkTimeISO P d = p ++ "Z")
  /\ (forall t : Z,
        JsDate.validTime t = true ->
        exists (p : string) (a b c : ascii),
          JsDate.toISOString t = p ++ fraction a b c
          /\ digits3 a b c = true
          /\ DataSource.toSplunkTimeISO Scripted.platform t = p ++ "Z")
  /\ JsDate.toISOString 1700000000999 = "2023-11-14T22:13:20.999Z"
  /\ DataSource.toSplunkTimeISO Scripted.platform 1700000000999
     = "2023-11-14T22:13:20Z"
  /\ JsDate.toISOString 253402300800000 = "+010000-01-01T00:00:00.000Z"
  /\ DataSource.toSplunkTimeISO Scripted.platform 253402300800000
     = "+010000-01-01T00:00:00Z"
  /\ JsDate.toISOString (-62167219200001) = "-000001-12-31T23:59:59.999Z"
  /\ DataSource.toSplunkTimeISO Scripted.platform (-62167219200001)
     = "-000001-12-31T23:59:59Z".
Proof.
  split; [|split; [|split]].
  - intros P d p a b c Hs Hd. unfold DataSource.toSplunkTimeISO.
    rewrite Hs. now apply dropMillis_suffix.
  - intros P d. unfold DataSource.toSplunkTimeISO. apply dropMillis_cases.
  - intros t _. destruct (toISOString_fraction t) as (p & a & b & c & Hp & Hd).
    exists p, a, b, c. split; [exact Hp|]. split; [exact Hd|].
    unfold DataSource.toSplunkTimeISO.
    change (DataSource.toISOString Scripted.platform t) with (JsDate.toISOString t).
    rewrite Hp. now apply dropMillis_suffix.
  - repeat split; vm_compute; reflexivity.
Qed.

End TimeFacts.

(* ===================================================================== *)
(** ** The time-range guardrail *)
(* ===================================================================== *)

Module RangeFacts.

Import DataSource.
Local Open Scope Z_scope.

(** [this.jsonData.maxRangeSeconds ?? 24 * 60 * 60]. *)
Definition rangeCap (opts : SplunkDataSourceOptions) : Q :=
  orDefault (maxRangeSeconds opts) (24 * 60 * 60)%Q.

(** The span of the range in milliseconds. *)
Definition span (rng : TimeRange) : Z := to rng - from rng.

(** The range is refused: safe mode is on and the span is longer than the
    whole seconds of the cap, both in milliseconds. *)
Definition refused (opts : SplunkDataSourceOptions) (rng : TimeRange) : bool :=
  isSet (safeMode opts) && (Qfloor (rangeCap opts) * 1000 <? span rng).





Section Facts.

Variable P : Platform.


End Facts.

End RangeFacts.

Module RangeExamples.

Import DataSource Scripted RangeFacts.

(** A cap of one second and a half is not rounded by the code, and
    behaves as a cap of one second: a range of 1200 ms, whose span in
    whole seconds is 2, is refused, and the message names the cap as
    configured; a range of 1000 ms passes. *)
Example range_fractional_cap :
  let opts := mkOptions (Some true) (Some 1.5%Q) None None None None None None in
  let req ms := mkRequest platform (mkRange 0 ms) [] JUndefined in
  refused opts (mkRange 0 1200) = true
  /\ fst (query platform 10 opts (req 1200%Z) (start (mkWorld [] [] [] 7)))
     = Ret [mkDataFrame "guardrails" [("time", FTtime); ("message", FTstring)]
              [[("time", JNum 7);
                ("message",
                 JStr "Time range (2s) exceeds the configured cap (1.5s).")]]]
  /\ refused opts (mkRange 0 1000) = false
  /\ fst (query platform 10 opts (req 1000%Z) (start (mkWorld [] [] [] 7)))
     = Ret [].
Proof. cbv zeta. repeat split; vm_compute; reflexivity. Qed.

End RangeExamples.

(* ===================================================================== *)
(** ** The requests of one target *)
(* ===================================================================== *)

Module ProtocolFacts.

Import DataSource JobFacts PaginationFacts.

(** [res.results ?? []]. *)
Definition pageRows (res : SplunkResultsData) : list record :=
  orDefault (results res) [].

(** The number of rows a fetch brought. *)
Definition replyRows (r : reply SplunkResultsData) : Z :=
  match r with
  | Resolved res => lengthZ (pageRows res)
  | Rejected _ => 0%Z
  end.

(** Fetches of one job with one page size, each at the offset where the
    one before it ended. *)
Fixpoint fetchEvents (job : string) (pageSize offset : Z)
  (rs : list (reply SplunkResultsData)) : list event :=
  match rs with
  | [] => []
  | r :: rest =>
      EvResults job pageSize offset r
      :: fetchEvents job pageSize (offset + replyRows r)%Z rest
  end.

(** What the table gets for a fetched row. *)
Definition mapped (out r : record) : Prop :=
  exists t : Z,
    out = [("time", JNum t); ("host", firstPresent r hostFields);
           ("message", firstPresent r messageFields)].

(** The job id a creation reply carries, if any. *)
Definition createdJob (r : reply SplunkJobCreateData) : option string :=
  match r with
  | Resolved d =>
      match sid d with
      | Some s => if isEmpty s then None else Some s
      | None => None
      end
  | Rejected _ => None
  end.

(** The table [table] with the rows [added] after its own. *)
Definition extended (table : DataFrame) (added : list record) : DataFrame :=
  mkDataFrame (df_refId table) (df_fields table) (df_rows table ++ added).

(** How the pagination ends, for the replies [rs] to its fetches. *)
Inductive pagesResult (fuel : nat) (table : DataFrame)
  (rs : list (reply SplunkResultsData)) : outcome DataFrame -> Prop :=
| PagesDone (pages : list SplunkResultsData) (added : list record) :
    rs = map Resolved pages ->
    Forall2 mapped added (flat_map pageRows pages) ->
    pagesResult fuel table rs (Ret (extended table added))
| PagesRejected (pages : list SplunkResultsData) (e : exn) :
    rs = map Resolved pages ++ [Rejected e] ->
    pagesResult fuel table rs (Throw e)
| PagesOutOfFuel :
    List.length rs = fuel ->
    pagesResult fuel table rs OutOfFuel.

Section Facts.

Variable P : Platform.

Lemma addRows_mapped (rows : list record) (table : DataFrame) (st : St P) :
  exists (added : list record) (st' : St P),
    addRows P rows table st = (Ret (extended table added), st')
    /\ Forall2 mapped added rows
    /\ trace P st' = trace P st.
Proof.
  revert table st. induction rows as [|r rows IH]; intros table st.
  - exists [], st. unfold extended. cbn. rewrite app_nil_r.
    destruct table; repeat split. constructor.
  - cbn [addRows]. unfold bind at 1.
    destruct (mapRow_run P r st) as (t & st1 & Hrun & _ & Htr). rewrite Hrun.
    cbv beta iota.
    match goal with
    | |- context [addRows P rows ?tb ?s] =>
        destruct (IH tb s) as (added & st2 & Hrun2 & Hmap & Htr2);
        rewrite Hrun2
    end.
    exists ([("time", JNum t); ("host", rowHost r); ("message", rowMessage r)]
            :: added), st2.
    unfold extended. cbn [df_refId df_fields df_rows].
    rewrite <- app_assoc. cbn [app].
    repeat split; [|congruence].
    constructor; [|exact Hmap].
    exists t. now rewrite rowHost_firstPresent, rowMessage_firstPresent.
Qed.

Lemma stopsFetching_dec (pageSize maxRows totalAdded : Z) (rows : list record) :
  stopsFetching pageSize maxRows totalAdded rows
  \/ ~ stopsFetching pageSize maxRows totalAdded rows.
Proof.
  unfold stopsFetching. destruct rows as [|x rows']; [now left; left|].
  destruct (Z_lt_le_dec (lengthZ (x :: rows')) pageSize);
    [left; right; right; lia|].
  destruct (Z_lt_le_dec 0 maxRows);
    [destruct (Z_lt_le_dec (totalAdded + lengthZ (x :: rows')) maxRows)|].
  - right. intros [H|[H|H]]; [discriminate | lia | lia].
  - left; right; left. lia.
  - right. intros [H|[H|H]]; [discriminate | lia | lia].
Qed.

(** The pagination as a whole: its fetches and what it makes of them. *)
Lemma pageLoop_pages (fuel : nat) (job : string) (pageSize maxRows : Z)
  (offset totalAdded : Z) (table : DataFrame) (st : St P) :
  exists rs : list (reply SplunkResultsData),
    trace P (snd (pageLoop P fuel job pageSize maxRows offset totalAdded table st))
    = trace P st ++ fetchEvents job pageSize offset rs
    /\ pagesResult fuel table rs
         (fst (pageLoop P fuel job pageSize maxRows offset totalAdded table st)).
Proof.
  revert offset totalAdded table st.
  induction fuel as [|fuel IH]; intros offset totalAdded table st.
  - exists []. cbn. rewrite app_nil_r. split; [reflexivity|]. now constructor.
  - destruct (pageLoop_step P fuel job pageSize maxRows offset totalAdded table st)
      as (r & w & Hreq & Hstep).
    cbv zeta in Hstep. destruct r as [res|e].
    2:{ rewrite Hstep. exists [Rejected e]. cbn [fst snd trace fetchEvents].
        split; [reflexivity|]. now apply (PagesRejected _ _ _ [] e). }
    destruct Hstep as (table1 & st2 & Hadd & Htr & Hstop & Hgo).
    fold (pageRows res) in *.
    match type of Hadd with
    | addRows P _ table ?s = _ =>
        destruct (addRows_mapped (pageRows res) table s)
          as (added & st3 & Hadd' & Hmap & _)
    end.
    rewrite Hadd in Hadd'. injection Hadd' as -> ->.
    destruct (stopsFetching_dec pageSize maxRows totalAdded (pageRows res))
      as [Hs|Hn].
    + rewrite (Hstop Hs). exists [Resolved res].
      cbn [fst snd fetchEvents]. rewrite Htr. cbn [trace].
      split; [reflexivity|].
      apply (PagesDone _ _ _ [res] added); [reflexivity|].
      cbn [flat_map]. now rewrite app_nil_r.
    + rewrite (Hgo Hn).
      destruct (IH (offset + lengthZ (pageRows res))%Z
                   (totalAdded + lengthZ (pageRows res))%Z
                   (extended table added) st3) as (rs & Htrace & Hres).
      exists (Resolved res :: rs). split.
      * rewrite Htrace, Htr. cbn [trace fetchEvents replyRows].
        now rewrite <- app_assoc.
      * inversion Hres as [pages more Hrs Hmore Ho|pages e Hrs Ho|Hlen Ho].
        -- replace (extended (extended table added) more)
             with (extended table (added ++ more))
             by (unfold extended; cbn [df_refId df_fields df_rows];
                 now rewrite app_assoc).
           apply (PagesDone _ _ _ (res :: pages)); [now rewrite Hrs|].
           cbn [flat_map]. now apply Forall2_app.
        -- apply (PagesRejected _ _ _ (res :: pages)). now rewrite Hrs.
        -- apply PagesOutOfFuel. cbn [List.length]. now rewrite Hlen.
Qed.

(** One job creation: the request is recorded with its reply, and only a
    reply that carries a job id lets the call return. *)
Lemma createSearchJob_run (search earliest latest : string) (st : St P) :
  createSearchJob P search earliest latest st
  = let (r, w) := postJob P search earliest latest (world P st) in
    (match createdJob r with
     | Some job => Ret job
     | None => Throw (match r with Rejected e => e | Resolved _ => createJobError end)
     end,
     mkSt P w (trace P st ++ [EvCreateJob search earliest latest r])).
Proof.
  unfold createSearchJob.
  destruct (postJob P search earliest latest (world P st)) as [[d|e] w];
    [|reflexivity].
  unfold bind, record_event, await, ret, throw, createdJob.
  destruct (sid d) as [s|]; [destruct (isEmpty s)|]; reflexivity.
Qed.

(** The [try] block of a target, step by step. *)
Lemma runTarget_run (fuel : nat) (opts : SplunkDataSourceOptions)
  (rng : TimeRange) (ref q : string) (st : St P) :
  runTarget P fuel opts rng ref q st
  = let earliest := toSplunkTimeISO P (from rng) in
    let latest := toSplunkTimeISO P (to rng) in
    let (r, w) := postJob P q earliest latest (world P st) in
    let st1 := mkSt P w (trace P st ++ [EvCreateJob q earliest latest r]) in
    match createdJob r with
    | None =>
        (Throw (match r with Rejected e => e | Resolved _ => createJobError end),
         st1)
    | Some job =>
        match pollLoop P job (effPollMs opts) (pollBudget (effMaxPolls opts)) st1 with
        | (Ret _, st2) =>
            pageLoop P fuel job (effPageSize opts) (effMaxRows opts) 0 0
                     (emptyTable ref) st2
        | (Throw e, st2) => (Throw e, st2)
        | (OutOfFuel, st2) => (OutOfFuel, st2)
        | (OutsideModel, st2) => (OutsideModel, st2)
        end
    end.
Proof.
  unfold runTarget, bind, waitForJob. rewrite createSearchJob_run. cbv zeta.
  destruct (postJob P q (toSplunkTimeISO P (from rng))
              (toSplunkTimeISO P (to rng)) (world P st)) as [r w].
  destruct (createdJob r); reflexivity.
Qed.

(** X8. The requests of one target, in order: one job creation with the
    query text and the two time bounds; when the reply carries no job id
    nothing else is requested and the target fails; otherwise status
    checks of that job with the sleeps between them, then page fetches of
    that job with the clamped page size, the first at offset 0 and each
    next one where the page before it ended.  No page is fetched unless
    the last status check reported completion. *)
Theorem runTarget_protocol (fuel : nat) (opts : SplunkDataSourceOptions)
  (rng : TimeRange) (ref q : string) (st : St P) :
  let earliest := toSplunkTimeISO P (from rng) in
  let latest := toSplunkTimeISO P (to rng) in
  let r := fst (postJob P q earliest latest (world P st)) in
  let run := runTarget P fuel opts rng ref q st in
  match createdJob r with
  | None =>
      trace P (snd run) = trace P st ++ [EvCreateJob q earliest latest r]
      /\ exists e : exn, fst run = Throw e
  | Some job =>
      exists (checks : list (reply SplunkJobStatusData))
             (rs : list (reply SplunkResultsData)),
        trace P (snd run)
        = trace P st
          ++ EvCreateJob q earliest latest r
             :: flat_map (pollEvents job (effPollMs opts)) checks
             ++ fetchEvents job (effPageSize opts) 0 rs
        /\ (rs = []
            \/ exists (before : list (reply SplunkJobStatusData))
                      (d : SplunkJobStatusData),
                 checks = before ++ [Resolved d]
                 /\ jobDone d = true
                 /\ forallb pending before = true)
  end.
Proof.
  cbv zeta. rewrite runTarget_run. cbv zeta.
  destruct (postJob P q (toSplunkTimeISO P (from rng))
              (toSplunkTimeISO P (to rng)) (world P st)) as [r w].
  cbn [fst]. destruct (createdJob r) as [job|].
  2:{ cbn [snd trace fst]. split; [reflexivity|]. eexists. reflexivity. }
  set (st1 := mkSt P w _).
  destruct (pollLoop_spec P job (effPollMs opts) (pollBudget (effMaxPolls opts)) st1)
    as (checks & Htr & _ & Hres).
  destruct (pollLoop P job (effPollMs opts) (pollBudget (effMaxPolls opts)) st1)
    as [o st2].
  cbn [fst snd] in *. exists checks.
  assert (Hquiet : trace P st2
                   = trace P st
                     ++ EvCreateJob q (toSplunkTimeISO P (from rng))
                          (toSplunkTimeISO P (to rng)) r
                        :: flat_map (pollEvents job (effPollMs opts)) checks
                        ++ fetchEvents job (effPageSize opts) 0 []).
  { rewrite Htr. subst st1. cbn [trace fetchEvents].
    now rewrite app_nil_r, <- app_assoc. }
  inversion Hres as [before d Hc Hd Hb Ho|Hl Hb Ho|before e Hc Hb Ho]; subst o.
  - destruct (pageLoop_pages fuel job (effPageSize opts) (effMaxRows opts) 0 0
                (emptyTable ref) st2) as (rs & Htrace & _).
    exists rs. split.
    + rewrite Htrace, Htr. subst st1. cbn [trace].
      rewrite <- !app_assoc. reflexivity.
    + right. now exists before, d.
  - exists []. split; [exact Hquiet | now left].
  - exists []. split; [exact Hquiet | now left].
Qed.

Definition isFetch (ev : event) : bool :=
  match ev with EvResults _ _ _ _ => true | _ => false end.

Lemma pollEvents_no_fetch (job : string) (pollMs : Z)
  (checks : list (reply SplunkJobStatusData)) :
  existsb isFetch (flat_map (pollEvents job pollMs) checks) = false.
Proof.
  induction checks as [|r checks IH]; [reflexivity|].
  cbn [flat_map]. rewrite existsb_app, IH. unfold pollEvents.
  destruct (pending r); reflexivity.
Qed.

(** X9. The table of a target.  When the [try] block of a target
    returns, its table carries the target's [refId] and the fields
    [time], [host] and [message], and its rows are the rows of the pages
    that were fetched during the call, page after page and row after row:
    none is dropped, repeated or reordered.  Each row keeps as host the
    first of [host], [sourceHost], [hosts] that is neither [null] nor
    [undefined], and as message the first such of [_raw], [message],
    [_msg] (the empty string when there is none). *)
Theorem runTarget_table (fuel : nat) (opts : SplunkDataSourceOptions)
  (rng : TimeRange) (ref q : string) (st : St P) (table : DataFrame) :
  fst (runTarget P fuel opts rng ref q st) = Ret table ->
  df_refId table = ref
  /\ df_fields table = [("time", FTtime); ("host", FTstring); ("message", FTstring)]
  /\ exists (job : string) (before : list event) (pages : list SplunkResultsData),
       trace P (snd (runTarget P fuel opts rng ref q st))
       = trace P st ++ before
         ++ fetchEvents job (effPageSize opts) 0 (map Resolved pages)
       /\ existsb isFetch before = false
       /\ Forall2 mapped (df_rows table) (flat_map pageRows pages).
Proof.
  rewrite runTarget_run. cbv zeta.
  destruct (postJob P q (toSplunkTimeISO P (from rng))
              (toSplunkTimeISO P (to rng)) (world P st)) as [r w].
  destruct (createdJob r) as [job|]; [|discriminate].
  set (st1 := mkSt P w _).
  destruct (pollLoop_spec P job (effPollMs opts) (pollBudget (effMaxPolls opts)) st1)
    as (checks & Htr & _ & _).
  destruct (pollLoop P job (effPollMs opts) (pollBudget (effMaxPolls opts)) st1)
    as [o st2].
  cbn [fst snd] in *. destruct o as [[]|e| |]; try discriminate.
  destruct (pageLoop_pages fuel job (effPageSize opts) (effMaxRows opts) 0 0
              (emptyTable ref) st2) as (rs & Htrace & Hpages).
  intros Hrun. rewrite Hrun in Hpages.
  inversion Hpages as [pages added Hrs Hmap Ho| |]; subst rs table.
  cbn [extended emptyTable df_refId df_fields df_rows app].
  split; [reflexivity|]. split; [reflexivity|].
  eexists job, (_ :: flat_map (pollEvents job (effPollMs opts)) checks), pages.
  split; [|split; [|exact Hmap]].
  - rewrite Htrace, Htr. subst st1. cbn [trace].
    rewrite <- !app_assoc. reflexivity.
  - cbn [existsb isFetch orb]. apply pollEvents_no_fetch.
Qed.

End Facts.

End ProtocolFacts.

Module ProtocolExamples.

Import DataSource Scripted ProtocolFacts.

(** A run of [runTarget_table]: two pages of a page size of two, three
    rows, none with a time of its own. *)
Lemma runTarget_table_run :
  let opts := mkOptions None None None (Some 2%Z) None None None None in
  let w := mkWorld [created "sid1"] [doneFlag true]
             [page [[("host", JStr "a"); ("_raw", JStr "m1")];
                    [("sourceHost", JStr "b"); ("message", JStr "m2")]];
              page [[("_msg", JStr "m3")]]] 0 in
  let run := runTarget platform 5 opts (mkRange 0 60000) "A" "search index=main"
               (start w) in
  let table :=
    mkDataFrame "A" [("time", FTtime); ("host", FTstring); ("message", FTstring)]
      [[("time", JNum 0); ("host", JStr "a"); ("message", JStr "m1")];
       [("time", JNum 1); ("host", JStr "b"); ("message", JStr "m2")];
       [("time", JNum 2); ("host", JStr ""); ("message", JStr "m3")]] in
  fst run = Ret table
  /\ exists (job : string) (before : list event) (pages : list SplunkResultsData),
       trace platform (snd run)
       = before ++ fetchEvents job 2 0 (map Resolved pages)
       /\ existsb isFetch before = false
       /\ Forall2 mapped (df_rows table) (flat_map pageRows pages).
Proof.
  cbv zeta. split; [vm_compute; reflexivity|].
  match goal with
  | |- context [runTarget platform ?f ?o ?rng ?ref ?q ?s] =>
      destruct (runTarget_table platform f o rng ref q s _
                  ltac:(vm_compute; reflexivity))
        as (_ & _ & job & before & pages & Htr & Hb & Hmap)
  end.
  exists job, before, pages. repeat split; assumption.
Defined.

End ProtocolExamples.

(* ===================================================================== *)
(** ** An engine that serves a result set page by page *)
(* ===================================================================== *)

(** An environment whose job always exists and is complete at the first
    check, and whose result set is fixed: a fetch answers at most [count]
    rows of it from [offset] on, and is rejected when [count] or [offset]
    is negative.  The clock advances by one millisecond per reading and by
    the delay of each timer. *)

Module Engine.

Import DataSource.

Record world : Type := mkWorld { resultSet : list record; clock : Z }.

Definition theJob : string := "1".

Definition postJob (search earliest latest : string) (w : world)
  : reply SplunkJobCreateData * world :=
  (Resolved (mkCreateData (Some theJob)), w).

Definition getJobStatus (job : string) (w : world)
  : reply SplunkJobStatusData * world :=
  (Resolved (mkStatusData (Some [mkEntry (Some (mkContent (Some true) None))])), w).

Definition getResults (job : string) (count offset : Z) (w : world)
  : reply SplunkResultsData * world :=
  (if (count <? 0)%Z || (offset <? 0)%Z
   then Rejected (Rejection (Some "Bad Request"))
   else Resolved (mkResultsData
                    (Some (firstn (Z.to_nat count)
                             (skipn (Z.to_nat offset) (resultSet w))))
                    None),
   w).

Definition Date_now (w : world) : Z * world :=
  (clock w, mkWorld (resultSet w) (clock w + 1)).

Definition setTimeout (ms : Z) (w : world) : world :=
  mkWorld (resultSet w) (clock w + ms).

Definition platform : Platform :=
  mkPlatform world jsval JUndefined Scripted.templateReplace
             JsDate.toISOString JsNumber.toString JsDate.parse Date_now setTimeout
             postJob getJobStatus getResults.

Definition start (rows : list record) (t : Z) : St platform :=
  mkSt platform (mkWorld rows t) [].

End Engine.

Module EngineFacts.

Import DataSource PaginationFacts ProtocolFacts.

(** The number of rows a target gets of a result set of [n] rows: all of
    them without a row cap; with a row cap, the rows of the pages it takes
    to reach the cap. *)
Definition served (opts : SplunkDataSourceOptions) (n : nat) : nat :=
  let ps := effPageSize opts in
  let mr := effMaxRows opts in
  if (mr =? 0)%Z then n
  else Nat.min n (Z.to_nat (ps * ((mr + ps - 1) / ps))).

Lemma engine_honoursCount : honoursCount Engine.platform.
Proof.
  intros job count offset w. cbn.
  destruct ((count <? 0)%Z || (offset <? 0)%Z) eqn:E; [exact I|].
  apply orb_false_iff in E as [E _]. cbn. unfold lengthZ.
  rewrite length_firstn. lia.
Qed.

Lemma rowTime_resultSet (r : record) (st : St Engine.platform) :
  Engine.resultSet (world Engine.platform (snd (rowTime Engine.platform r st)))
  = Engine.resultSet (world Engine.platform st).
Proof.
  rewrite rowTime_run.
  destruct (Date_parse Engine.platform _) as [t|]; [destruct (t =? 0)%Z|]; reflexivity.
Qed.

Lemma addRows_resultSet (rows : list record) (table : DataFrame)
  (st : St Engine.platform) :
  Engine.resultSet (world Engine.platform (snd (addRows Engine.platform rows table st)))
  = Engine.resultSet (world Engine.platform st).
Proof.
  revert table st. induction rows as [|r rows IH]; intros table st;
    [reflexivity|].
  cbn [addRows]. unfold bind at 1.
  destruct (mapRow_run Engine.platform r st) as (t & st1 & Hrun & Htime & _).
  rewrite Hrun. cbv beta iota. rewrite IH.
  pose proof (rowTime_resultSet r st) as H. now rewrite Htime in H.
Qed.

Lemma firstn_same {A : Type} (a b : nat) (l : list A) :
  Nat.min a (List.length l) = Nat.min b (List.length l) ->
  firstn a l = firstn b l.
Proof.
  revert a b. induction l as [|x l IH]; intros a b H.
  - now rewrite !firstn_nil.
  - destruct a as [|a], b as [|b]; cbn in *; try lia; try reflexivity.
    f_equal. apply IH. lia.
Qed.

Lemma firstn_add {A : Type} (a b : nat) (l : list A) :
  firstn (a + b) l = firstn a l ++ firstn b (skipn a l).
Proof.
  revert l. induction a as [|a IH]; intros l; [reflexivity|].
  destruct l as [|x l]; cbn; [now rewrite firstn_nil|]. now rewrite IH.
Qed.

Lemma Forall2_nil_inv {A B : Type} (R : A -> B -> Prop) (l : list A) :
  Forall2 R l [] -> l = [].
Proof. now inversion 1. Qed.

(** The pagination against the engine, from a page boundary on. *)
Lemma pageLoop_engine (rows : list record) (job : string) (ps mr : Z)
  (K : nat) (c : Z) :
  (1 <= ps)%Z -> (0 <= mr)%Z ->
  (ps * c <= mr + ps - 1 < ps * c + ps)%Z ->
  K = (if (mr =? 0)%Z then List.length rows
       else Nat.min (List.length rows) (Z.to_nat (ps * c))) ->
  forall (fuel o : nat) (k : Z) (table : DataFrame) (st : St Engine.platform),
    Engine.resultSet (world Engine.platform st) = rows ->
    List.length rows - o < fuel ->
    Z.of_nat o = (ps * k)%Z ->
    mr = 0%Z \/ (Z.of_nat o < mr)%Z ->
    exists added : list record,
      fst (pageLoop Engine.platform fuel job ps mr (Z.of_nat o) (Z.of_nat o) table st)
      = Ret (extended table added)
      /\ Forall2 mapped added (firstn (K - o) (skipn o rows)).
Proof.
  intros Hps Hmr Hc HK.
  induction fuel as [|fuel IH]; intros o k table st Hrows Hfuel Hk Hinv; [lia|].
  destruct (pageLoop_step Engine.platform fuel job ps mr (Z.of_nat o) (Z.of_nat o) table st)
    as (r & w & Hreq & Hstep).
  cbn in Hreq. unfold Engine.getResults in Hreq.
  replace ((ps <? 0)%Z || (Z.of_nat o <? 0)%Z) with false in Hreq
    by (symmetry; apply orb_false_iff; split; lia).
  injection Hreq as <- <-. cbv zeta in Hstep.
  destruct Hstep as (table1 & st2 & Hadd & _ & Hstop & Hgo).
  cbn [results orDefault] in *. rewrite Hrows, Nat2Z.id in *.
  set (page := firstn (Z.to_nat ps) (skipn o rows)) in *.
  match type of Hadd with
  | addRows Engine.platform _ table ?s = _ =>
      destruct (addRows_mapped Engine.platform page table s)
        as (added & st3 & Hadd' & Hmap & _);
      pose proof (addRows_resultSet page table s) as Hkeep
  end.
  rewrite Hadd in Hadd', Hkeep. injection Hadd' as -> ->.
  cbn [snd world] in Hkeep.
  assert (Hlen : List.length page
                 = Nat.min (Z.to_nat ps) (List.length rows - o)).
  { subst page. now rewrite length_firstn, length_skipn. }
  assert (HlenZ : lengthZ page = Z.of_nat (List.length page)) by reflexivity.
  assert (Hskip : List.length (skipn o rows) = List.length rows - o)
    by apply length_skipn.
  destruct (stopsFetching_dec ps mr (Z.of_nat o) page) as [Hs|Hn].
  - rewrite (Hstop Hs). exists added. split; [reflexivity|].
    replace (firstn (K - o) (skipn o rows)) with page; [exact Hmap|].
    subst page. apply firstn_same. rewrite Hskip.
    destruct Hs as [Hs|[[Hs1 Hs2]|Hs]].
    + rewrite Hs in Hlen. cbn [List.length] in Hlen.
      assert (List.length rows <= o) by lia.
      assert (K <= List.length rows)
        by (rewrite HK; destruct (mr =? 0)%Z; lia).
      lia.
    + destruct Hinv as [Hinv|Hinv]; [lia|].
      assert (Hkc : (k < c)%Z) by nia.
      assert (Hck : (c < k + 2)%Z) by nia.
      assert (c = (k + 1)%Z) by lia. subst c.
      replace (mr =? 0)%Z with false in HK by (symmetry; apply Z.eqb_neq; lia).
      assert (Heq : (ps * (k + 1) = Z.of_nat o + ps)%Z) by lia.
      rewrite Heq in HK. lia.
    + assert (Hn : List.length rows - o < Z.to_nat ps) by lia.
      destruct (mr =? 0)%Z eqn:E.
      * lia.
      * apply Z.eqb_neq in E. destruct Hinv as [Hinv|Hinv]; [lia|].
        assert (Z.of_nat o < ps * c)%Z by lia.
        assert (Hkc : (k < c)%Z) by nia.
        assert (ps * (k + 1) <= ps * c)%Z by nia.
        lia.
  - rewrite (Hgo Hn).
    assert (Hfull : List.length page = Z.to_nat ps).
    { unfold stopsFetching in Hn. destruct page as [|x page'] eqn:Hp.
      - exfalso. apply Hn. now left.
      - rewrite <- Hp in *.
        destruct (Z_lt_le_dec (lengthZ page) ps); [exfalso; apply Hn; now right; right|].
        lia. }
    assert (Hcap : mr = 0%Z \/ (Z.of_nat o + ps < mr)%Z).
    { destruct (Z.eq_dec mr 0); [now left|]. right.
      destruct (Z_lt_le_dec (Z.of_nat o + ps) mr); trivial.
      exfalso. apply Hn. right; left. lia. }
    replace (Z.of_nat o + lengthZ page)%Z with (Z.of_nat (o + Z.to_nat ps)) by lia.
    destruct (IH (o + Z.to_nat ps) (k + 1)%Z (extended table added) st3)
      as (more & Hrun & Hmore); try lia.
    { now rewrite Hkeep. }
    exists (added ++ more). split.
    + rewrite Hrun. f_equal. unfold extended. cbn [df_refId df_fields df_rows].
      now rewrite app_assoc.
    + assert (HKo : Z.to_nat ps <= K - o).
      { rewrite HK. destruct (mr =? 0)%Z eqn:E; [lia|].
        apply Z.eqb_neq in E. destruct Hcap as [Hcap|Hcap]; [lia|].
        assert (Z.of_nat o + ps < ps * c + ps)%Z by lia.
        assert (Hkc : (k < c)%Z) by nia.
        assert (ps * (k + 1) <= ps * c)%Z by nia.
        lia. }
      replace (K - o) with (Z.to_nat ps + (K - (o + Z.to_nat ps))) by lia.
      rewrite firstn_add. apply Forall2_app; [exact Hmap|].
      rewrite skipn_skipn.
      replace (Z.to_nat ps + o) with (o + Z.to_nat ps) by lia. exact Hmore.
Qed.

(** X10. Against an engine that serves a fixed result set page by page,
    the [try] block of a target returns a table with the first rows of the
    result set, each once and in the order of the result set: all rows
    when the row cap is 0, else the rows of as many whole pages as it
    takes to reach the cap (the cap rounded up to a multiple of the page
    size), or all rows when there are fewer. *)
Theorem runTarget_engine (opts : SplunkDataSourceOptions) (rng : TimeRange)
  (ref q : string) (rows : list record) (t0 : Z) (fuel : nat) :
  List.length rows < fuel ->
  exists table : DataFrame,
    fst (runTarget Engine.platform fuel opts rng ref q (Engine.start rows t0)) = Ret table
    /\ df_refId table = ref
    /\ Forall2 mapped (df_rows table)
                      (firstn (served opts (List.length rows)) rows).
Proof.
  intros Hfuel. rewrite runTarget_run. cbv zeta.
  cbn [Engine.postJob Engine.platform Engine.start postJob world fst snd createdJob sid isEmpty Engine.theJob].
  assert (Hpolls : exists n, pollBudget (effMaxPolls opts) = S n).
  { exists (pollBudget (effMaxPolls opts) - 1).
    pose proof (JobFacts.pollBudget_positive opts). lia. }
  destruct Hpolls as (n & ->). rewrite JobFacts.pollLoop_step.
  cbn [getJobStatus Engine.platform Engine.getJobStatus world].
  change (jobDone _) with true. cbv iota zeta.
  set (st2 := mkSt Engine.platform _ _).
  assert (Hps : (1 <= effPageSize opts)%Z) by (unfold effPageSize; lia).
  assert (Hmr : (0 <= effMaxRows opts)%Z) by (unfold effMaxRows; lia).
  set (ps := effPageSize opts) in *. set (mr := effMaxRows opts) in *.
  pose proof (Z.div_mod (mr + ps - 1) ps ltac:(lia)) as Hdiv.
  pose proof (Z.mod_pos_bound (mr + ps - 1) ps ltac:(lia)) as Hmod.
  destruct (pageLoop_engine rows "1" ps mr (served opts (List.length rows))
              ((mr + ps - 1) / ps) Hps Hmr ltac:(lia) eq_refl
              fuel 0 0%Z (emptyTable ref) st2 eq_refl ltac:(lia) ltac:(lia))
    as (added & Hrun & Hmap).
  { destruct (Z.eq_dec mr 0); [now left|right; lia]. }
  exists (extended (emptyTable ref) added).
  split; [exact Hrun|]. split; [reflexivity|].
  cbn [extended emptyTable df_rows app]. rewrite Nat.sub_0_r in Hmap. exact Hmap.
Qed.

(** X11. What the row cap bounds.  When the engine answers no more rows
    than a fetch asks for and the row cap is positive, the table of a
    target has fewer than [maxRows + pageSize] rows (both clamped): the
    cap is checked after a whole page was added, so it can be exceeded by
    less than one page. *)
Theorem runTarget_rows_bound (P : Platform) (fuel : nat)
  (opts : SplunkDataSourceOptions) (rng : TimeRange) (ref q : string)
  (st : St P) (table : DataFrame) :
  honoursCount P ->
  (0 < effMaxRows opts)%Z ->
  fst (runTarget P fuel opts rng ref q st) = Ret table ->
  (lengthZ (df_rows table) < effMaxRows opts + effPageSize opts)%Z.
Proof.
  intros Hhon Hcap. rewrite runTarget_run. cbv zeta.
  destruct (postJob P q _ _ (world P st)) as [r w].
  destruct (createdJob r) as [job|]; [|discriminate].
  destruct (pollLoop P job _ _ _) as [[[]|e| |] st2]; try discriminate.
  destruct (pageLoop P fuel job (effPageSize opts) (effMaxRows opts) 0 0
              (emptyTable ref) st2) as [o st3] eqn:Hrun.
  cbn [fst]. intros ->.
  destruct (pageLoop_rows_bound P fuel job _ _ 0 0 _ _ _ _ Hhon Hcap Hcap Hrun)
    as (added & Hrows & Hbound).
  rewrite Hrows. cbn [emptyTable df_rows app]. lia.
Qed.

End EngineFacts.

Module EngineExamples.

Import DataSource PaginationFacts ProtocolFacts EngineFacts.

(** Five rows that differ in their host. *)
Definition fiveRows : list record :=
  map (fun h => [("host", JStr h)]) ["a"; "b"; "c"; "d"; "e"].

(** A row cap of three and a page size of two. *)
Definition capThree : SplunkDataSourceOptions :=
  mkOptions None None (Some 3%Z) (Some 2%Z) None None None None.

(** A run of [runTarget_engine]: with a cap of three rows and pages of
    two, the target gets the first four of five rows. *)
Lemma runTarget_engine_run :
  served capThree 5 = 4
  /\ exists table : DataFrame,
       fst (runTarget Engine.platform 6 capThree (mkRange 0 60000) "A"
              "search index=main" (Engine.start fiveRows 0))
       = Ret table
       /\ df_refId table = "A"
       /\ Forall2 mapped (df_rows table) (firstn 4 fiveRows).
Proof.
  split; [reflexivity|].
  apply (runTarget_engine capThree (mkRange 0 60000) "A" "search index=main"
           fiveRows 0 6).
  cbn. lia.
Defined.

(** A run of [runTarget_rows_bound] on the same input: four rows, fewer
    than the cap and the page size together. *)
Lemma runTarget_rows_bound_run :
  honoursCount Engine.platform
  /\ exists table : DataFrame,
       fst (runTarget Engine.platform 6 capThree (mkRange 0 60000) "A"
              "search index=main" (Engine.start fiveRows 0))
       = Ret table
       /\ lengthZ (df_rows table) = 4%Z
       /\ (lengthZ (df_rows table) < effMaxRows capThree + effPageSize capThree)%Z.
Proof.
  split; [exact engine_honoursCount|].
  eexists. split; [vm_compute; reflexivity|]. split; [reflexivity|].
  apply (runTarget_rows_bound Engine.platform 6 capThree (mkRange 0 60000) "A"
           "search index=main" (Engine.start fiveRows 0) _ engine_honoursCount);
    [reflexivity | vm_compute; reflexivity].
Defined.

End EngineExamples.

(* ===================================================================== *)
(** ** One frame per target *)
(* ===================================================================== *)

Module FrameFacts.

Import DataSource Guardrails PaginationFacts JobFacts QueryFacts ProtocolFacts.

Definition tableFields : list (string * FieldType) :=
  [("time", FTtime); ("host", FTstring); ("message", FTstring)].

Lemma isQueryDangerous_message (q : option string)
  (opts : SplunkDataSourceOptions) (msg : string) :
  isQueryDangerous q opts = Ret (Some msg) ->
  msg = emptyMessage \/ msg = riskyMessage.
Proof.
  unfold isQueryDangerous.
  destruct (String.length _ =? 0)%nat; [intros H; injection H as <-; now left|].
  destruct (isSet _); [discriminate|].
  destruct (compileBannedRegex opts) as [[re|]|e| |]; try discriminate.
  destruct (RegExp.test re _); [|discriminate].
  intros H; injection H as <-; now right.
Qed.

Section Facts.

Variable P : Platform.

(** The frame [query] pushes for a target: a warning with the reason when
    the guardrails block the query text; else the table of the target, or
    an error frame with the message of what the [try] block threw
    ([Query failed] when it has none). *)
Definition frameOf (opts : SplunkDataSourceOptions) (req : DataQueryRequest P)
  (frame : DataFrame) (target : SplunkQuery) : Prop :=
  match isQueryDangerous (Some (finalText P req target)) opts with
  | Ret (Some reason) =>
      exists now : Z, frame = diagnosticFrame (refId target) "warning" now reason
  | Ret None =>
      (df_refId frame = refId target /\ df_fields frame = tableFields)
      \/ exists (now : Z) (e : exn),
           frame = diagnosticFrame (refId target) "error" now
                     (orDefault (exnMessage e) "Query failed")
  | _ => False
  end.

Lemma runTarget_fields (fuel : nat) (opts : SplunkDataSourceOptions)
  (rng : TimeRange) (ref q : string) (st : St P) (table : DataFrame) :
  fst (runTarget P fuel opts rng ref q st) = Ret table ->
  df_fields table = tableFields.
Proof.
  rewrite runTarget_run. cbv zeta.
  destruct (postJob P q _ _ (world P st)) as [r w].
  destruct (createdJob r) as [job|]; [|discriminate].
  destruct (pollLoop P job _ _ _) as [[[]|e| |] st2]; try discriminate.
  destruct (pageLoop_pages P fuel job (effPageSize opts) (effMaxRows opts) 0 0
              (emptyTable ref) st2) as (rs & _ & Hpages).
  intros Hrun. rewrite Hrun in Hpages.
  inversion Hpages as [pages added Hrs Hmap Ho| |]. reflexivity.
Qed.

(** The frames of the targets [todo], none of them hidden, made one after
    the other from the state [st] on: each is the warning of the guardrail
    evaluation, or what the [try] block of the target returned, or the
    error frame of what it threw, in the state the targets before it
    left. *)
Inductive framesOf (fuel : nat) (opts : SplunkDataSourceOptions)
  (req : DataQueryRequest P)
  : St P -> list SplunkQuery -> list DataFrame -> St P -> Prop :=
| FramesNone (st : St P) : framesOf fuel opts req st [] [] st
| FramesWarning (st st1 st' : St P) (target : SplunkQuery)
    (rest : list SplunkQuery) (reason : string) (now : Z)
    (frames : list DataFrame) :
    isQueryDangerous (Some (finalText P req target)) opts = Ret (Some reason) ->
    dateNow P st = (Ret now, st1) ->
    framesOf fuel opts req st1 rest frames st' ->
    framesOf fuel opts req st (target :: rest)
      (diagnosticFrame (refId target) "warning" now reason :: frames) st'
| FramesTable (st st1 st' : St P) (target : SplunkQuery)
    (rest : list SplunkQuery) (table : DataFrame) (frames : list DataFrame) :
    isQueryDangerous (Some (finalText P req target)) opts = Ret None ->
    runTarget P fuel opts (range P req) (refId target) (finalText P req target) st
    = (Ret table, st1) ->
    framesOf fuel opts req st1 rest frames st' ->
    framesOf fuel opts req st (target :: rest) (table :: frames) st'
| FramesError (st st1 st2 st' : St P) (target : SplunkQuery)
    (rest : list SplunkQuery) (e : exn) (now : Z) (frames : list DataFrame) :
    isQueryDangerous (Some (finalText P req target)) opts = Ret None ->
    runTarget P fuel opts (range P req) (refId target) (finalText P req target) st
    = (Throw e, st1) ->
    dateNow P st1 = (Ret now, st2) ->
    framesOf fuel opts req st2 rest frames st' ->
    framesOf fuel opts req st (target :: rest)
      (diagnosticFrame (refId target) "error" now
         (orDefault (exnMessage e) "Query failed") :: frames) st'.

Lemma queryTargets_frames (fuel : nat) (opts : SplunkDataSourceOptions)
  (req : DataQueryRequest P) (todo : list SplunkQuery)
  (frames : list DataFrame) (st : St P) :
  (0 < effMaxRows opts)%Z ->
  (Z.to_nat (effMaxRows opts) < fuel)%nat ->
  Forall (fun target =>
            exists validation : option string,
              isQueryDangerous (Some (finalText P req target)) opts = Ret validation)
         (visible todo) ->
  exists (new : list DataFrame) (st' : St P),
    queryTargets P fuel opts req todo frames st = (Ret (frames ++ new), st')
    /\ framesOf fuel opts req st (visible todo) new st'
    /\ Forall2 (frameOf opts req) new (visible todo).
Proof.
  intros Hcap Hfuel. revert frames st.
  induction todo as [|target rest IH]; intros frames st Hall.
  - exists [], st. cbn. rewrite app_nil_r.
    split; [reflexivity|]. split; constructor.
  - cbn [queryTargets visible filter] in *. fold (visible rest) in *.
    destruct (isSet (hide target)) eqn:Hh; cbn [negb] in Hall.
    + now apply IH.
    + inversion Hall as [|x l [validation Hv] Hrest]; subst.
      fold (finalText P req target). unfold bind at 1, lift. rewrite Hv.
      destruct validation as [reason|].
      * assert (Ht : truthy (Some reason) = true)
          by (destruct (isQueryDangerous_message _ _ _ Hv) as [->| ->];
              reflexivity).
        rewrite Ht. unfold bind. rewrite MonadFacts.dateNow_run.
        match goal with
        | |- context [queryTargets P fuel opts req rest ?fr ?s] =>
            destruct (IH fr s Hrest) as (new & st' & Hrun & Hof & Hfr)
        end.
        rewrite Hrun. eexists (_ :: new), st'. rewrite <- app_assoc.
        split; [reflexivity|]. split.
        -- eapply FramesWarning;
             [exact Hv | apply MonadFacts.dateNow_run | exact Hof].
        -- constructor; [|exact Hfr].
           unfold frameOf. rewrite Hv. eexists. reflexivity.
      * cbn [truthy]. unfold bind, tryCatch.
        destruct (runTarget_returns P fuel opts (range P req) (refId target)
                    (finalText P req target) st Hcap Hfuel)
          as [(table & st1 & Hrun & Href)|(e & st1 & Hrun)]; rewrite Hrun.
        -- match goal with
           | |- context [queryTargets P fuel opts req rest ?fr ?s] =>
               destruct (IH fr s Hrest) as (new & st' & Hrun' & Hof & Hfr)
           end.
           rewrite Hrun'. eexists (_ :: new), st'. rewrite <- app_assoc.
           split; [reflexivity|]. split.
           ++ eapply FramesTable; [exact Hv | exact Hrun | exact Hof].
           ++ constructor; [|exact Hfr].
              unfold frameOf. rewrite Hv. left. split; [exact Href|].
              apply (runTarget_fields fuel opts (range P req) (refId target)
                       (finalText P req target) st).
              now rewrite Hrun.
        -- rewrite MonadFacts.dateNow_run. unfold ret.
           match goal with
           | |- context [queryTargets P fuel opts req rest ?fr ?s] =>
               destruct (IH fr s Hrest) as (new & st' & Hrun' & Hof & Hfr)
           end.
           rewrite Hrun'. eexists (_ :: new), st'. rewrite <- app_assoc.
           split; [reflexivity|]. split.
           ++ eapply FramesError;
                [exact Hv | exact Hrun | apply MonadFacts.dateNow_run | exact Hof].
           ++ constructor; [|exact Hfr].
              unfold frameOf. rewrite Hv. right. eexists _, e. reflexivity.
Qed.

(** X12. One frame per target.  When the time range passes its guardrail,
    the row cap is positive (so that pagination ends) and the guardrail
    evaluation returns for every target that is not hidden, [query]
    returns exactly one frame for each such target, in the order of the
    targets and none for a hidden one.  The frame of a target whose query
    text the guardrails block is the warning frame with the reason and
    the clock reading; else it is the table that the [try] block of the
    target returned, or, when the [try] block threw, the error frame with
    the message of what it threw ([Query failed] when it has none) and
    the clock reading.  Each target starts in the state the targets
    before it left: a failing target does not keep the targets after it
    from being processed.  A table carries the [refId] of its target and
    the fields [time], [host] and [message]. *)
Theorem query_frames (fuel : nat) (opts : SplunkDataSourceOptions)
  (req : DataQueryRequest P) (st : St P) :
  rangeAllowed opts (range P req) = true ->
  (0 < effMaxRows opts)%Z ->
  (Z.to_nat (effMaxRows opts) < fuel)%nat ->
  Forall (fun target =>
            exists validation : option string,
              isQueryDangerous (Some (finalText P req target)) opts = Ret validation)
         (visible (targets P req)) ->
  exists (frames : list DataFrame) (st' : St P),
    query P fuel opts req st = (Ret frames, st')
    /\ framesOf fuel opts req st (visible (targets P req)) frames st'
    /\ Forall2 (frameOf opts req) frames (visible (targets P req)).
Proof.
  intros Hrange Hcap Hfuel Hall. unfold query. rewrite Hrange.
  destruct (queryTargets_frames fuel opts req (targets P req) [] st Hcap Hfuel Hall)
    as (new & st' & Hrun & Hof & Hfr).
  exists new, st'. split; [exact Hrun|]. split; [exact Hof | exact Hfr].
Qed.

End Facts.

End FrameFacts.

Module FrameExamples.

Import DataSource Guardrails Scripted QueryFacts FrameFacts.

(** A run of [query_frames]: a hidden target, a target with a blank query,
    a target whose job creation is rejected and a target that gets its
    table. *)
Lemma query_frames_run :
  let req := mkRequest platform (mkRange 0 60000)
               [mkQuery "A" (Some "search a") (Some true);
                mkQuery "B" (Some "   ") None;
                mkQuery "C" (Some "search c") None;
                mkQuery "D" (Some "search d") None] JUndefined in
  let w := mkWorld [Rejected (Rejection None); created "sid1"]
                   [doneFlag true] [page (rowsOf 1)] 0 in
  map refId (visible (targets platform req)) = ["B"; "C"; "D"]
  /\ exists (frames : list DataFrame) (st' : St platform),
       query platform 2001 noOptions req (start w) = (Ret frames, st')
       /\ framesOf platform 2001 noOptions req (start w)
                   (visible (targets platform req)) frames st'
       /\ Forall2 (frameOf platform noOptions req) frames
                  (visible (targets platform req))
       /\ frames
          = [diagnosticFrame "B" "warning" 0 emptyMessage;
             diagnosticFrame "C" "error" 1 "Query failed";
             mkDataFrame "D" tableFields
               [[("time", JNum 2); ("host", JStr "h"); ("message", JStr "")]]].
Proof.
  cbv zeta. split; [reflexivity|].
  match goal with
  | |- context [query platform ?f ?o ?r ?s] =>
      destruct (query_frames platform f o r s)
        as (frames & st' & Hrun & Hof & Hfr)
  end.
  - reflexivity.
  - reflexivity.
  - vm_compute. reflexivity.
  - repeat constructor; eexists; vm_compute; reflexivity.
  - exists frames, st'. split; [exact Hrun|]. split; [exact Hof|].
    split; [exact Hfr|].
    assert (H : fst (query platform 2001 noOptions
                       (mkRequest platform (mkRange 0 60000)
                          [mkQuery "A" (Some "search a") (Some true);
                           mkQuery "B" (Some "   ") None;
                           mkQuery "C" (Some "search c") None;
                           mkQuery "D" (Some "search d") None] JUndefined)
                       (start (mkWorld [Rejected (Rejection None); created "sid1"]
                                 [doneFlag true] [page (rowsOf 1)] 0)))
                = Ret frames) by now rewrite Hrun.
    vm_compute in H. injection H as <-. reflexivity.
Defined.

End FrameExamples.

(* ===================================================================== *)
(** ** The requests of a variable query, and the time spent waiting *)
(* ===================================================================== *)

Module VariableFacts.

Import DataSource Guardrails JobFacts PaginationFacts MetricFindFacts ProtocolFacts.

(** The time slept in a trace, in milliseconds. *)
Definition slept (tr : list event) : Z :=
  fold_right (fun ev acc => match ev with EvSleep ms => ms + acc | _ => acc end)%Z
             0%Z tr.

Lemma slept_app (a b : list event) : slept (a ++ b) = (slept a + slept b)%Z.
Proof.
  induction a as [|ev a IH]; [reflexivity|].
  cbn [app slept fold_right]. fold (slept (a ++ b)). fold (slept a).
  rewrite IH. destruct ev; lia.
Qed.

Lemma slept_pollEvents (job : string) (pollMs : Z)
  (checks : list (reply SplunkJobStatusData)) :
  slept (flat_map (pollEvents job pollMs) checks)
  = (pollMs * Z.of_nat (List.length (filter pending checks)))%Z.
Proof.
  induction checks as [|r checks IH]; [cbn; lia|].
  cbn [flat_map filter]. rewrite slept_app, IH. unfold pollEvents.
  destruct (pending r); cbn [slept fold_right List.length]; lia.
Qed.

Lemma statusChecks_app (a b : list event) :
  statusChecks (a ++ b) = statusChecks a + statusChecks b.
Proof. unfold statusChecks. now rewrite filter_app, length_app. Qed.

Lemma filter_all {A : Type} (f : A -> bool) (l : list A) :
  forallb f l = true -> filter f l = l.
Proof.
  induction l as [|x l IH]; [reflexivity|]. cbn.
  intros H. apply andb_true_iff in H as [Hx Hl]. now rewrite Hx, IH.
Qed.

Section Facts.

Variable P : Platform.

(** In the events of the poll loop a sleep lasts the poll interval and
    comes right after a status check. *)
Lemma pollEvents_sleep_after_check (job : string) (pollMs : Z)
  (checks : list (reply SplunkJobStatusData)) (i : nat) (ms : Z) :
  nth_error (flat_map (pollEvents job pollMs) checks) i = Some (EvSleep ms) ->
  ms = pollMs
  /\ exists (j : nat) (r : reply SplunkJobStatusData),
       i = S j
       /\ nth_error (flat_map (pollEvents job pollMs) checks) j
          = Some (EvJobStatus job r).
Proof.
  revert i. induction checks as [|r checks IH]; intros i Hi.
  - destruct i; discriminate.
  - cbn [flat_map] in *. unfold pollEvents in *.
    destruct i as [|i]; [discriminate|].
    destruct (pending r).
    + destruct i as [|i].
      * cbn in Hi. injection Hi as <-. split; [reflexivity|].
        exists 0, r. split; reflexivity.
      * cbn in Hi. destruct (IH i Hi) as (Hms & j & r' & Hj & Hr).
        split; [exact Hms|]. exists (S (S j)), r'. split; [lia|exact Hr].
    + cbn in Hi. destruct (IH i Hi) as (Hms & j & r' & Hj & Hr).
      split; [exact Hms|]. exists (S j), r'. split; [lia|exact Hr].
Qed.

(** X13. The time [waitForJob] spends sleeping.  Every sleep lasts the
    effective poll interval (at least 100 ms) and comes right after a
    status check, and there are at most as many checks as the effective
    budget rounded up.  A call that returns has slept once less than it
    has checked.  The number of sleeps equals the number of checks only
    when the budget is exhausted: a job that never completes is given up
    after the sleep that follows the last check. *)
Theorem waitForJob_sleeps (opts : SplunkDataSourceOptions) (job : string)
  (st : St P) :
  let run := waitForJob P opts job st in
  let budget := Qceiling (effMaxPolls opts) in
  exists (new : list event) (checks sleeps : nat),
    trace P (snd run) = trace P st ++ new
    /\ (forall (i : nat) (ms : Z),
          nth_error new i = Some (EvSleep ms) ->
          ms = effPollMs opts
          /\ exists (j : nat) (r : reply SplunkJobStatusData),
               i = S j /\ nth_error new j = Some (EvJobStatus job r))
    /\ statusChecks new = checks
    /\ slept new = (effPollMs opts * Z.of_nat sleeps)%Z
    /\ (100 <= effPollMs opts)%Z
    /\ (Z.of_nat checks <= budget)%Z
    /\ budget = Z.max 1 (Qceiling (orDefault (maxPolls opts) 30%Q))
    /\ (S sleeps = checks \/ sleeps = checks)
    /\ (fst run = Ret tt -> S sleeps = checks)
    /\ (sleeps = checks ->
        Z.of_nat checks = budget /\ fst run = Throw pollTimeoutError).
Proof.
  cbv zeta. unfold waitForJob.
  destruct (pollBudget_positive opts) as [Hbudget Hpos].
  destruct (pollLoop_spec P job (effPollMs opts) (pollBudget (effMaxPolls opts)) st)
    as (checks & Htr & Hlen & Hres).
  exists (flat_map (pollEvents job (effPollMs opts)) checks),
    (List.length checks), (List.length (filter pending checks)).
  split; [exact Htr|].
  split; [intros i ms; apply pollEvents_sleep_after_check|].
  split; [apply statusChecks_pollEvents|].
  split; [apply slept_pollEvents|].
  split; [unfold effPollMs; lia|]. split; [lia|].
  split; [apply effMaxPolls_ceiling|].
  assert (Hlast : forall before last,
             checks = before ++ [last] -> pending last = false ->
             forallb pending before = true ->
             S (List.length (filter pending checks)) = List.length checks).
  { intros before last -> Hl Hb.
    rewrite filter_app, (filter_all _ _ Hb), !length_app. cbn [filter].
    rewrite Hl. cbn [List.length]. lia. }
  inversion Hres as [before d Hc Hd Hb Ho|Hl Hb Ho|before e Hc Hb Ho].
  - assert (Hs := Hlast before (Resolved d) Hc ltac:(cbn; now rewrite Hd) Hb).
    split; [now left|]. split; [trivial|]. lia.
  - rewrite (filter_all _ _ Hb).
    split; [now right|]. split; [discriminate|]. intros _. split; [lia|reflexivity].
  - assert (Hs := Hlast before (Rejected e) Hc eq_refl Hb).
    split; [now left|]. split; [trivial|]. lia.
Qed.

(** A variable query, step by step. *)
Lemma metricFindQuery_run (opts : SplunkDataSourceOptions)
  (query : string + SplunkQuery) (st : St P) (validation : option string) :
  let qText := interpolateSPL P (rawText query) (emptyScopedVars P) in
  isQueryDangerous (Some qText) opts = Ret validation ->
  metricFindQuery P opts query st
  = match validation with
    | Some _ => (Ret [], st)
    | None =>
        let (r, w) := postJob P qText "-15m" "now" (world P st) in
        let st1 := mkSt P w (trace P st ++ [EvCreateJob qText "-15m" "now" r]) in
        match createdJob r with
        | None => (Ret [], st1)
        | Some job =>
            match pollLoop P job (effPollMs opts) (pollBudget (effMaxPolls opts)) st1
            with
            | (Ret _, st2) =>
                let (rf, w3) := getResults P job 500 0 (world P st2) in
                (Ret (match rf with
                      | Resolved res => metricValues res
                      | Rejected _ => []
                      end),
                 mkSt P w3 (trace P st2 ++ [EvResults job 500 0 rf]))
            | (Throw _, st2) => (Ret [], st2)
            | (OutOfFuel, st2) => (OutOfFuel, st2)
            | (OutsideModel, st2) => (OutsideModel, st2)
            end
        end
    end.
Proof.
  cbv zeta. intros Hv. unfold metricFindQuery. fold (rawText query).
  unfold bind at 1, lift. rewrite Hv.
  destruct validation as [reason|].
  { replace (truthy (Some reason)) with true; [reflexivity|].
    unfold isQueryDangerous in Hv.
    destruct (String.length _ =? 0)%nat; [now injection Hv as <-|].
    destruct (isSet _); [discriminate|].
    destruct (compileBannedRegex opts) as [[re|]|e| |]; try discriminate.
    destruct (RegExp.test re _); [now injection Hv as <-|discriminate]. }
  cbn [truthy]. unfold tryCatch, bind, waitForJob. rewrite createSearchJob_run.
  destruct (postJob P _ "-15m" "now" (world P st)) as [r w].
  destruct (createdJob r) as [job|]; [|reflexivity].
  destruct (pollLoop P job _ _ _) as [[[]|e| |] st2]; try reflexivity.
  rewrite fetchResults_run.
  destruct (getResults P job 500 0 (world P st2)) as [[res|e] w3]; reflexivity.
Qed.

(** X14. The requests of a variable query.  When the guardrails block the
    query text, [metricFindQuery] returns the empty list and requests
    nothing.  Otherwise it creates one job with the time window [-15m] to
    [now], polls it, and fetches at most one page, of 500 rows at offset
    0: it never asks for a second page.  It returns the values of that
    page, and the empty list when the job creation, the polling or the
    fetch failed. *)
Theorem metricFindQuery_protocol (opts : SplunkDataSourceOptions)
  (query : string + SplunkQuery) (st : St P) (validation : option string) :
  let qText := interpolateSPL P (rawText query) (emptyScopedVars P) in
  let run := metricFindQuery P opts query st in
  let r := fst (postJob P qText "-15m" "now" (world P st)) in
  let created := EvCreateJob qText "-15m" "now" r in
  isQueryDangerous (Some qText) opts = Ret validation ->
  match validation with
  | Some _ => run = (Ret [], st)
  | None =>
      match createdJob r with
      | None => fst run = Ret [] /\ trace P (snd run) = trace P st ++ [created]
      | Some job =>
          exists checks : list (reply SplunkJobStatusData),
            let polls := flat_map (pollEvents job (effPollMs opts)) checks in
            (fst run = Ret [] /\ trace P (snd run) = trace P st ++ created :: polls)
            \/ exists rf : reply SplunkResultsData,
                 trace P (snd run)
                 = trace P st ++ created :: polls ++ [EvResults job 500 0 rf]
                 /\ fst run
                    = Ret (match rf with
                           | Resolved res => metricValues res
                           | Rejected _ => []
                           end)
      end
  end.
Proof.
  cbv zeta. intros Hv. rewrite (metricFindQuery_run opts query st validation Hv).
  destruct validation as [reason|]; [reflexivity|].
  set (q := interpolateSPL P (rawText query) (emptyScopedVars P)).
  destruct (postJob P q "-15m" "now" (world P st)) as [r w]. cbn [fst].
  destruct (createdJob r) as [job|]; [|split; reflexivity].
  set (st1 := mkSt P w _).
  destruct (pollLoop_spec P job (effPollMs opts) (pollBudget (effMaxPolls opts)) st1)
    as (checks & Htr & _ & Hres).
  destruct (pollLoop P job (effPollMs opts) (pollBudget (effMaxPolls opts)) st1)
    as [o st2].
  cbn [fst snd] in Htr, Hres. exists checks.
  assert (Hst2 : trace P st2
                 = trace P st
                   ++ EvCreateJob q "-15m" "now" r
                      :: flat_map (pollEvents job (effPollMs opts)) checks).
  { rewrite Htr. subst st1. cbn [trace]. now rewrite <- app_assoc. }
  destruct o as [[]|e| |]; [|left; split; [reflexivity | exact Hst2]| |];
    [|inversion Hres|inversion Hres].
  right. destruct (getResults P job 500 0 (world P st2)) as [rf w3].
  exists rf. split; [|reflexivity].
  cbn [snd trace]. rewrite Hst2, <- app_assoc. reflexivity.
Qed.

End Facts.

End VariableFacts.

Module VariableExamples.

Import DataSource Guardrails Scripted MetricFindFacts VariableFacts.

(** A run of [metricFindQuery_protocol]: the guardrails pass and the page
    fetch is rejected. *)
Lemma metricFindQuery_protocol_run :
  let w := mkWorld [created "sid1"] [state "RUNNING"; doneFlag true]
                   [Rejected (Rejection (Some "timeout"))] 0 in
  let run := metricFindQuery platform noOptions (inl "search index=main")
               (start w) in
  isQueryDangerous (Some "search index=main") noOptions = Ret None
  /\ fst run = Ret []
  /\ map JobFacts.isSleep (trace platform (snd run))
     = [None; None; Some 1000%Z; None; None]
  /\ exists checks : list (reply SplunkJobStatusData),
       (fst run = Ret []
        /\ trace platform (snd run)
           = EvCreateJob "search index=main" "-15m" "now" (created "sid1")
             :: flat_map (JobFacts.pollEvents "sid1" 1000) checks)
       \/ exists rf : reply SplunkResultsData,
            trace platform (snd run)
            = EvCreateJob "search index=main" "-15m" "now" (created "sid1")
              :: flat_map (JobFacts.pollEvents "sid1" 1000) checks
                 ++ [EvResults "sid1" 500 0 rf]
            /\ fst run
               = Ret (match rf with
                      | Resolved res => metricValues res
                      | Rejected _ => []
                      end).
Proof.
  cbv zeta. split; [reflexivity|]. split; [vm_compute; reflexivity|].
  split; [vm_compute; reflexivity|].
  exact (metricFindQuery_protocol platform noOptions (inl "search index=main")
           (start (mkWorld [created "sid1"] [state "RUNNING"; doneFlag true]
                     [Rejected (Rejection (Some "timeout"))] 0))
           None eq_refl).
Defined.

End VariableExamples.

(* ===================================================================== *)
(** ** The guardrails and the case of letters *)
(* ===================================================================== *)

Module CaseFacts.

Import RegExp RegExpFacts Guardrails.

(** Two texts that differ in the case of their letters only. *)
Definition caseVariant (a b : string) : Prop :=
  map canonicalize (list_ascii_of_string a)
  = map canonicalize (list_ascii_of_string b).

(** The character tests of the matcher and of [trim] on two characters. *)
Definition classesAgree (c d : ascii) : bool :=
  Bool.eqb (isWordChar c) (isWordChar d)
  && Bool.eqb (isWhiteSpace c) (isWhiteSpace d)
  && Bool.eqb (isDigit c) (isDigit d)
  && Bool.eqb (isLineTerminator c) (isLineTerminator d).

Definition allChars : list ascii := map ascii_of_nat (seq 0 256).

Lemma allChars_complete (c : ascii) : In c allChars.
Proof.
  unfold allChars. apply in_map_iff. exists (nat_of_ascii c).
  split; [apply ascii_nat_embedding|]. apply in_seq.
  pose proof (nat_ascii_bounded c). lia.
Qed.

Lemma canonicalize_classes_all :
  forallb (fun c =>
             forallb (fun d =>
                        if Ascii.eqb (canonicalize c) (canonicalize d)
                        then classesAgree c d else true)
                     allChars)
          allChars = true.
Proof. vm_compute. reflexivity. Qed.

Lemma canonicalize_classes (c d : ascii) :
  canonicalize c = canonicalize d -> classesAgree c d = true.
Proof.
  intros H.
  pose proof (proj1 (forallb_forall _ _) canonicalize_classes_all c
                (allChars_complete c)) as Hc.
  pose proof (proj1 (forallb_forall _ _) Hc d (allChars_complete d)) as Hd.
  cbv beta in Hd. rewrite H, Ascii.eqb_refl in Hd. exact Hd.
Qed.

Lemma classes_inv (c d : ascii) :
  classesAgree c d = true ->
  isWordChar c = isWordChar d /\ isWhiteSpace c = isWhiteSpace d
  /\ isDigit c = isDigit d /\ isLineTerminator c = isLineTerminator d.
Proof.
  unfold classesAgree. intros H.
  repeat (apply andb_true_iff in H as [H ?]).
  repeat split; now apply Bool.eqb_prop.
Qed.

Lemma inClass_case (k : charclass) (c d : ascii) :
  canonicalize c = canonicalize d -> inClass k c = inClass k d.
Proof.
  intros H. apply canonicalize_classes, classes_inv in H as (Hw & Hs & Hd & Hl).
  destruct k; cbn; congruence.
Qed.

Section SameLetters.

Variables s t : list ascii.
Hypothesis Hst : map canonicalize s = map canonicalize t.

Lemma case_length : List.length s = List.length t.
Proof. now rewrite <- (length_map canonicalize s), Hst, length_map. Qed.

Lemma case_nth (i : nat) :
  match nth_error s i, nth_error t i with
  | Some c, Some d => canonicalize c = canonicalize d
  | None, None => True
  | _, _ => False
  end.
Proof.
  pose proof (f_equal (fun l => nth_error l i) Hst) as H. cbv beta in H.
  rewrite !nth_error_map in H.
  destruct (nth_error s i), (nth_error t i); cbn in H; try discriminate; trivial.
  now injection H.
Qed.

Lemma wordAt_case (e : nat) : wordAt s e = wordAt t e.
Proof.
  unfold wordAt. pose proof (case_nth e) as H.
  destruct (nth_error s e) as [c|], (nth_error t e) as [d|]; try easy.
  now apply canonicalize_classes, classes_inv in H.
Qed.

Lemma holds_case (a : assertion) (e : nat) : holds a s e = holds a t e.
Proof.
  destruct a; cbn; trivial.
  - now rewrite case_length.
  - unfold isWordBoundary, wordBefore. destruct e; now rewrite !wordAt_case.
  - unfold isWordBoundary, wordBefore. destruct e; now rewrite !wordAt_case.
Qed.

Lemma star_ext (m m' : nat -> nat -> bool) (fuel i j : nat) :
  (forall a b : nat, m a b = m' a b) -> star m fuel i j = star m' fuel i j.
Proof.
  intros H. revert i. induction fuel as [|fuel IH]; intros i; cbn;
    destruct (i =? j)%nat; trivial.
  apply existsb_eq. intros k _. now rewrite H, IH.
Qed.

Lemma matchb_case (r : regex) (i j : nat) :
  matchb true r s i j = matchb true r t i j.
Proof.
  revert i j. induction r as [|c|k|a|r1 IH1 r2 IH2|r1 IH1 r2 IH2|r IH|r IH|r IH|cap r IH];
    intros i j; cbn [matchb].
  - reflexivity.
  - destruct (S i =? j)%nat; trivial. pose proof (case_nth i) as H.
    destruct (nth_error s i) as [x|], (nth_error t i) as [y|]; try easy.
    unfold sameChar. now rewrite H.
  - destruct (S i =? j)%nat; trivial. pose proof (case_nth i) as H.
    destruct (nth_error s i) as [x|], (nth_error t i) as [y|]; try easy.
    now apply inClass_case.
  - now rewrite holds_case.
  - apply existsb_eq. intros k _. now rewrite IH1, IH2.
  - now rewrite IH1, IH2.
  - now apply star_ext.
  - apply existsb_eq. intros k _. rewrite IH. now rewrite (star_ext _ _ _ _ _ IH).
  - now rewrite IH.
  - apply IH.
Qed.

End SameLetters.

Lemma test_case (re : RegExpObject) (a b : string) :
  ignoreCase re = true -> caseVariant a b -> test re a = test re b.
Proof.
  intros Hic H. unfold test. rewrite Hic.
  unfold spans. rewrite (case_length _ _ H).
  apply existsb_eq. intros ij _. now apply matchb_case.
Qed.

Lemma caseVariant_cons (c d : ascii) (a b : string) :
  caseVariant (String c a) (String d b)
  <-> canonicalize c = canonicalize d /\ caseVariant a b.
Proof.
  unfold caseVariant. cbn [list_ascii_of_string map]. split.
  - intros H. now injection H.
  - intros [-> ->]. reflexivity.
Qed.

Lemma caseVariant_space (c d : ascii) :
  canonicalize c = canonicalize d -> isWhiteSpace c = isWhiteSpace d.
Proof. intros H. now apply canonicalize_classes, classes_inv in H. Qed.

Lemma caseVariant_isEmpty (a b : string) :
  caseVariant a b -> isEmpty a = isEmpty b.
Proof. destruct a, b; trivial; discriminate. Qed.

Lemma trimStart_case (a b : string) :
  caseVariant a b -> caseVariant (trimStart a) (trimStart b).
Proof.
  revert b. induction a as [|c a IH]; intros [|d b] H; try discriminate; trivial.
  pose proof H as H'. apply caseVariant_cons in H' as [Hc Hab].
  cbn [trimStart]. rewrite (caseVariant_space c d Hc).
  destruct (isWhiteSpace d); [now apply IH | exact H].
Qed.

Lemma trimEnd_case (a b : string) :
  caseVariant a b -> caseVariant (trimEnd a) (trimEnd b).
Proof.
  revert b. induction a as [|c a IH]; intros [|d b] H; try discriminate; trivial.
  apply caseVariant_cons in H as [Hc Hab].
  cbn [trimEnd]. rewrite (caseVariant_space c d Hc).
  rewrite (caseVariant_isEmpty _ _ (IH b Hab)).
  destruct (isWhiteSpace d && isEmpty (trimEnd b)); [reflexivity|].
  apply caseVariant_cons. split; [exact Hc | now apply IH].
Qed.

Lemma trim_case (a b : string) :
  caseVariant a b -> caseVariant (trim a) (trim b).
Proof. intros H. now apply trimEnd_case, trimStart_case. Qed.

Lemma compileBannedRegex_ignoreCase (opts : SplunkDataSourceOptions)
  (re : RegExpObject) :
  compileBannedRegex opts = Ret (Some re) -> ignoreCase re = true.
Proof.
  unfold compileBannedRegex.
  destruct (isEmpty _); [discriminate|].
  destruct (List.length _ =? 0)%nat; [discriminate|].
  unfold RegExp_new. cbn [String.eqb Ascii.eqb Bool.eqb].
  destruct (parse _); try discriminate.
  intros H. injection H as <-. reflexivity.
Qed.

Lemma length_chars (a : string) :
  List.length (list_ascii_of_string a) = String.length a.
Proof. induction a as [|c a IH]; cbn; congruence. Qed.

(** X15. The guardrails do not look at the case of letters: two query
    texts that differ only in the case of their letters get the same
    verdict, whatever the deny-list is (also when it cannot be compiled:
    both evaluations fail alike). *)
Theorem isQueryDangerous_ignores_case (q q' : string)
  (opts : SplunkDataSourceOptions) :
  caseVariant q q' ->
  isQueryDangerous (Some q) opts = isQueryDangerous (Some q') opts.
Proof.
  intros H. apply trim_case in H. unfold isQueryDangerous. cbn [orDefault].
  replace (String.length (trim q)) with (String.length (trim q')).
  2:{ pose proof (case_length _ _ H) as Hl.
      now rewrite !length_chars in Hl. }
  destruct (String.length (trim q') =? 0)%nat; [reflexivity|].
  destruct (isSet (allowDangerousCommands opts)); [reflexivity|].
  destruct (compileBannedRegex opts) as [[re|]|e| |] eqn:Hre; trivial.
  now rewrite (test_case re _ _ (compileBannedRegex_ignoreCase opts re Hre) H).
Qed.

End CaseFacts.

Module CaseExamples.

Import Guardrails GuardrailExamples CaseFacts.

(** A run of [isQueryDangerous_ignores_case]: the command [delete] of the
    default deny-list, in upper and in mixed case. *)
Lemma isQueryDangerous_ignores_case_run :
  caseVariant "search index=main | DELETE" "Search Index=main | Delete"
  /\ isQueryDangerous (Some "search index=main | DELETE") (withBanned defaultBanned)
     = isQueryDangerous (Some "Search Index=main | Delete")
                        (withBanned defaultBanned)
  /\ isQueryDangerous (Some "search index=main | DELETE") (withBanned defaultBanned)
     = Ret (Some riskyMessage).
Proof.
  split; [reflexivity|]. split.
  - apply (isQueryDangerous_ignores_case "search index=main | DELETE"
             "Search Index=main | Delete" (withBanned defaultBanned)).
    reflexivity.
  - vm_compute. reflexivity.
Defined.

End CaseExamples.

(* ===================================================================== *)
(** ** What the entry points throw *)
(* ===================================================================== *)

Module ErrorFacts.

Import DataSource Guardrails.

(** The only error the entry points let through. *)
Definition denyListError (opts : SplunkDataSourceOptions) : exn :=
  JsSyntaxError (bannedPattern (bannedParts opts)).

(** An outcome that is not an error other than [e]. *)
Definition throwsOnly {A : Type} (e : exn) (o : outcome A) : Prop :=
  match o with Throw e' => e' = e | _ => True end.

Lemma isQueryDangerous_throws (q : option string)
  (opts : SplunkDataSourceOptions) :
  throwsOnly (denyListError opts) (isQueryDangerous q opts).
Proof.
  unfold isQueryDangerous.
  destruct (String.length _ =? 0)%nat; [exact I|].
  destruct (isSet _); [exact I|].
  unfold compileBannedRegex. fold (bannedParts opts).
  destruct (isEmpty _); [exact I|].
  destruct (List.length (bannedParts opts) =? 0)%nat; [exact I|].
  destruct (RegExp.RegExp_new _ _) as [re| |]; [|reflexivity|exact I].
  match goal with
  | |- context [RegExp.test ?r ?t] => destruct (RegExp.test r t)
  end; exact I.
Qed.

Section Facts.

Variable P : Platform.

Lemma queryTargets_throws (fuel : nat) (opts : SplunkDataSourceOptions)
  (req : DataQueryRequest P) (todo : list SplunkQuery)
  (frames : list DataFrame) (st : St P) :
  throwsOnly (denyListError opts)
             (fst (queryTargets P fuel opts req todo frames st)).
Proof.
  revert frames st. induction todo as [|target rest IH]; intros frames st;
    [exact I|].
  cbn [queryTargets]. destruct (isSet (hide target)); [apply IH|].
  unfold bind at 1, lift.
  match goal with
  | |- context [isQueryDangerous ?q opts] =>
      pose proof (isQueryDangerous_throws q opts) as Hv;
      destruct (isQueryDangerous q opts) as [validation|e| |]
  end; try exact I; [|exact Hv].
  destruct (truthy validation).
  - unfold bind. rewrite MonadFacts.dateNow_run. apply IH.
  - unfold bind, tryCatch.
    destruct (runTarget P fuel opts _ _ _ st) as [[table|e| |] st1];
      try exact I; [apply IH|].
    rewrite MonadFacts.dateNow_run. unfold ret. apply IH.
Qed.

(** X16. The failures of the engine never reach the caller.  The only
    error [query] and [metricFindQuery] can throw is the [SyntaxError] of
    a deny-list that is not a regular expression; a rejected or failed
    job creation, status check or page fetch, and the poll time-out, end
    in an error frame or in an empty list of values. *)
Theorem entry_points_throw_only_SyntaxError (fuel : nat)
  (opts : SplunkDataSourceOptions) (req : DataQueryRequest P)
  (target : string + SplunkQuery) (st : St P) :
  throwsOnly (denyListError opts) (fst (query P fuel opts req st))
  /\ throwsOnly (denyListError opts) (fst (metricFindQuery P opts target st)).
Proof.
  split.
  - unfold query. destruct (rangeAllowed opts (range P req));
      [apply queryTargets_throws|].
    unfold bind. rewrite MonadFacts.dateNow_run. exact I.
  - unfold metricFindQuery. unfold bind at 1, lift.
    match goal with
    | |- context [isQueryDangerous ?q opts] =>
        pose proof (isQueryDangerous_throws q opts) as Hv;
        destruct (isQueryDangerous q opts) as [validation|e| |]
    end; try exact I; [|exact Hv].
    destruct (truthy validation); [exact I|].
    unfold tryCatch.
    match goal with
    | |- context [bind P ?m ?k st] => destruct (bind P m k st) as [[v|e| |] st1]
    end; exact I.
Qed.

End Facts.

End ErrorFacts.
